(** * AI Tour Guide backend: route planning, fares, persistence, guide

    A shallow embedding of [backend/trip_planner.py], [backend/main.py] and
    [backend/travel_guide.py].  Python values are modelled dynamically (the
    code indexes parsed JSON without checking its shape), exceptions are an
    error type, and the file system and the HTTP traffic are an explicit
    world state threaded through every effectful function. *)

From Stdlib Require Import ZArith String Ascii List Lia.
From Stdlib Require Import Floats.SpecFloat.
From stdpp Require Import base decidable option list gmap strings pretty.

Local Open Scope string_scope.
Local Open Scope list_scope.
Local Open Scope Z_scope.

(** ** Binary64 floating point, as CPython's [float] *)

Module PyFloat.

Definition float := spec_float.

Definition prec : Z := 53.
Definition emax : Z := 1024.

Definition fadd : float -> float -> float := SFadd prec emax.
Definition fmul : float -> float -> float := SFmul prec emax.
Definition fdiv : float -> float -> float := SFdiv prec emax.

Definition is_inf (x : float) : bool :=
  match x with S754_infinity _ => true | _ => false end.

Definition is_zero (x : float) : bool :=
  match x with S754_zero _ => true | _ => false end.

Definition is_finite (x : float) : bool :=
  match x with S754_zero _ | S754_finite _ _ _ => true | _ => false end.

(** Nearest binary64 to an integer (ties to even); an infinity when the
    integer is out of range. *)
Definition of_Z (z : Z) : float := binary_normalize prec emax z 0 false.

(** Nearest binary64 to the quotient [a / b] of two integers, [b <> 0].
    The quotient is rounded once, from its exact value. *)
Definition of_quotient (a b : Z) : float :=
  let s := xorb (a <? 0) (b <? 0) in
  match Z.abs a, Z.abs b with
  | Zpos ma, Zpos mb => fdiv (S754_finite s ma 0) (S754_finite false mb 0)
  | Z0, _ => S754_zero s
  | _, _ => S754_nan
  end.

(** [round_half_even num den] is the integer nearest to [num / den]
    ([den > 0]), the even one when two are equally near. *)
Definition round_half_even (num den : Z) : Z :=
  let q := num / den in
  let r := num mod den in
  match 2 * r ?= den with
  | Lt => q
  | Gt => q + 1
  | Eq => if Z.even q then q else q + 1
  end.

(** The exact value of a finite float, as a fraction of non-negative
    integers (the sign is kept apart). *)
Definition magnitude (x : float) : Z * Z :=
  match x with
  | S754_finite _ m e =>
      if 0 <=? e then (Zpos m * 2 ^ e, 1) else (Zpos m, 2 ^ (- e))
  | _ => (0, 1)
  end.

Definition sign (x : float) : bool :=
  match x with
  | S754_zero s | S754_infinity s | S754_finite s _ _ => s
  | S754_nan => false
  end.

(** The exact value of [x] scaled by [10^ndigits], as a fraction. *)
Definition scaled (x : float) (ndigits : Z) : Z * Z :=
  let '(num, den) := magnitude x in
  (num * 10 ^ Z.max ndigits 0, den * 10 ^ Z.max (- ndigits) 0).

(** The float nearest to the decimal [n * 10^-ndigits] ([n >= 0]), with
    sign [s]. *)
Definition of_decimal (s : bool) (n : Z) (ndigits : Z) : float :=
  match n with
  | Zpos _ =>
      let r := of_quotient (n * 10 ^ Z.max (- ndigits) 0) (10 ^ Z.max ndigits 0) in
      if s then SFopp r else r
  | _ => S754_zero s
  end.

(** [round_decimal x nd], for finite [x]: the exact value of [x] is rounded
    to the nearest multiple of [10^-nd] (ties to even), and that decimal
    is converted back to the nearest float.  This is what CPython's
    [double_round] computes through a correctly rounded decimal string. *)
Definition round_decimal (x : float) (ndigits : Z) : float :=
  let '(num, den) := scaled x ndigits in
  of_decimal (sign x) (round_half_even num den) ndigits.

Definition NDIGITS_MAX : Z := 323.
Definition NDIGITS_MIN : Z := -308.

End PyFloat.

Export PyFloat.

(** ** Python values

    The values the backend handles are those of parsed JSON plus the ones it
    builds itself.  A [dict] keeps its insertion order (the guide generator
    takes the first value of a mapping), so it is an association list in
    which assignment to a present key replaces the value in place and
    assignment to a new key appends. *)

#[local] Unset Elimination Schemes.
Inductive pyval :=
| PNone
| PBool (b : bool)
| PInt (z : Z)
| PFloat (f : float)
| PStr (s : string)
| PList (l : list pyval)
| PDict (d : list (string * pyval)).
#[local] Set Elimination Schemes.

Abbreviation pydict := (list (string * pyval)).

(** ** Exceptions *)

Inductive exn_class :=
| Exception
| LookupError | KeyError | IndexError
| TypeError | AttributeError | ValueError
| ArithmeticError | OverflowError | ZeroDivisionError
| OSError | FileNotFoundError
| HTTPException.

(** The text of an exception: a literal, or a prefix followed by [str(e)]
    of the exception it wraps or by a formatted value (the f-strings of
    [main.py] and [travel_guide.py]). *)
Inductive exn :=
| Raise (c : exn_class) (msg : message)
| RaiseHTTP (status_code : Z) (detail : message)
with message :=
| Msg (s : string)
| MsgOf (prefix : string) (e : exn)
| MsgFmt (prefix : string) (v : pyval).

Definition class_of (e : exn) : exn_class :=
  match e with
  | Raise c _ => c
  | RaiseHTTP _ _ => HTTPException
  end.

(** The direct base class; [Exception] is the root of what is modelled.
    [HTTPException] is Starlette's, which derives from [Exception]. *)
Definition base_class (c : exn_class) : option exn_class :=
  match c with
  | Exception => None
  | KeyError | IndexError => Some LookupError
  | OverflowError | ZeroDivisionError => Some ArithmeticError
  | FileNotFoundError => Some OSError
  | LookupError | TypeError | AttributeError | ValueError
  | ArithmeticError | OSError | HTTPException => Some Exception
  end.

#[global] Instance exn_class_eq_dec : EqDecision exn_class.
Proof. solve_decision. Defined.

Fixpoint issubclass_fuel (fuel : nat) (c d : exn_class) : bool :=
  if decide (c = d) then true
  else match fuel, base_class c with
       | S n, Some b => issubclass_fuel n b d
       | _, _ => false
       end.

(** The hierarchy above has depth 3. *)
Definition issubclass (c d : exn_class) : bool := issubclass_fuel 3 c d.

Definition isinstance (e : exn) (d : exn_class) : bool :=
  issubclass (class_of e) d.

Definition status_of (e : exn) : option Z :=
  match e with
  | RaiseHTTP s _ => Some s
  | Raise _ _ => None
  end.

(** ** Results of fallible code *)

Inductive result (A : Type) :=
| Ok (a : A)
| Err (e : exn).
Arguments Ok {A} a.
Arguments Err {A} e.

Definition rbind {A B} (r : result A) (k : A -> result B) : result B :=
  match r with
  | Ok a => k a
  | Err e => Err e
  end.

Declare Scope result_scope.
Delimit Scope result_scope with result.
Notation "x <- r ;; k" := (rbind r (fun x => k))
  (at level 100, r at next level, right associativity) : result_scope.

Definition raise {A} (c : exn_class) (s : string) : result A :=
  Err (Raise c (Msg s)).

Definition is_Ok {A} (r : result A) : Prop := exists a, r = Ok a.
Definition is_Err {A} (r : result A) : Prop := exists e, r = Err e.

Fixpoint mapM {A B} (f : A -> result B) (l : list A) : result (list B) :=
  match l with
  | [] => Ok []
  | a :: rest =>
      (b <- f a ;; bs <- mapM f rest ;; Ok (b :: bs))%result
  end.

(** ** Dictionaries *)

Fixpoint dict_get (k : string) (d : pydict) : option pyval :=
  match d with
  | [] => None
  | (k', v) :: rest => if decide (k' = k) then Some v else dict_get k rest
  end.

(** [d[k] = v] *)
Fixpoint dict_set (k : string) (v : pyval) (d : pydict) : pydict :=
  match d with
  | [] => [(k, v)]
  | (k', v') :: rest =>
      if decide (k' = k) then (k', v) :: rest else (k', v') :: dict_set k v rest
  end.

(** [k in d] *)
Definition dict_has (k : string) (d : pydict) : bool :=
  match dict_get k d with Some _ => true | None => false end.

(** [list(d.values())] *)
Definition dict_values (d : pydict) : list pyval := map snd d.

(** [{k: v for k, v in d.items() if k != skip}] *)
Definition dict_without (skip : string) (d : pydict) : pydict :=
  filter (fun kv => kv.1 <> skip) d.

(** [d[k]] on a dict *)
Definition dict_item (k : string) (d : pydict) : result pyval :=
  match dict_get k d with
  | Some v => Ok v
  | None => Err (Raise KeyError (Msg k))
  end.

(** ** Subscripts, iteration and arithmetic on values *)

(** [l[i]] on a list; a negative index counts from the end. *)
Definition list_item (i : Z) (l : list pyval) : result pyval :=
  let n := Z.of_nat (length l) in
  let j := if Z.ltb i 0 then i + n else i in
  if Z.ltb j 0 then raise IndexError "list index out of range"
  else match l !! Z.to_nat j with
       | Some v => Ok v
       | None => raise IndexError "list index out of range"
       end.

(** [v[k]] for a string key *)
Definition getitem (v : pyval) (k : string) : result pyval :=
  match v with
  | PDict d => dict_item k d
  | PList _ => raise TypeError "list indices must be integers or slices, not str"
  | PStr _ => raise TypeError "string indices must be integers"
  | _ => raise TypeError "object is not subscriptable"
  end.

(** [v[i]] for an integer index *)
Definition getindex (v : pyval) (i : Z) : result pyval :=
  match v with
  | PList l => list_item i l
  | PDict _ => Err (Raise KeyError (Msg "<int>"))
  | PStr s =>
      let n := Z.of_nat (String.length s) in
      let j := if Z.ltb i 0 then i + n else i in
      if Z.ltb j 0 then raise IndexError "string index out of range"
      else match String.get (Z.to_nat j) s with
           | Some c => Ok (PStr (String c EmptyString))
           | None => raise IndexError "string index out of range"
           end
  | _ => raise TypeError "object is not subscriptable"
  end.

(** [for x in v] *)
Definition iterate (v : pyval) : result (list pyval) :=
  match v with
  | PList l => Ok l
  | PDict d => Ok (map (fun kv => PStr kv.1) d)
  | PStr s => Ok (map (fun c => PStr (String c EmptyString)) (list_ascii_of_string s))
  | _ => raise TypeError "object is not iterable"
  end.

(** [v.get(k, default)], a method of dicts only *)
Definition get_method (v : pyval) (k : string) (default : pyval) : result pyval :=
  match v with
  | PDict d => Ok (match dict_get k d with Some x => x | None => default end)
  | _ => raise AttributeError "object has no attribute 'get'"
  end.

(** Numbers: [bool] is a subclass of [int]. *)
Inductive number :=
| NumInt (z : Z)
| NumFloat (f : float).

Definition as_number (v : pyval) : option number :=
  match v with
  | PBool b => Some (NumInt (Z.b2z b))
  | PInt z => Some (NumInt z)
  | PFloat f => Some (NumFloat f)
  | _ => None
  end.

(** [float(z)] as the arithmetic operators do it *)
Definition int_to_float (z : Z) : result float :=
  let f := of_Z z in
  if is_inf f then raise OverflowError "int too large to convert to float"
  else Ok f.

Definition to_float (n : number) : result float :=
  match n with
  | NumInt z => int_to_float z
  | NumFloat f => Ok f
  end.

(** [a / b]: always a float.  Two integers are divided exactly and rounded
    once; otherwise both operands are converted to float first. *)
Definition truediv (a b : pyval) : result float :=
  match as_number a, as_number b with
  | Some (NumInt x), Some (NumInt y) =>
      if Z.eqb y 0 then raise ZeroDivisionError "division by zero"
      else
        let q := of_quotient x y in
        if is_inf q
        then raise OverflowError "integer division result too large for a float"
        else Ok q
  | Some x, Some y =>
      (fx <- to_float x ;;
       fy <- to_float y ;;
       if is_zero fy then raise ZeroDivisionError "float division by zero"
       else Ok (fdiv fx fy))%result
  | _, _ => raise TypeError "unsupported operand type(s) for /"
  end.

(** [x * v] for a float [x] *)
Definition float_times (x : float) (v : pyval) : result float :=
  match as_number v with
  | Some n => (fy <- to_float n ;; Ok (fmul x fy))%result
  | None => raise TypeError "can't multiply sequence by non-int of type 'float'"
  end.

(** [a + b] *)
Definition add (a b : pyval) : result pyval :=
  match a, b with
  | PStr s, PStr t => Ok (PStr (s ++ t)%string)
  | PList l, PList k => Ok (PList (l ++ k))
  | _, _ =>
      match as_number a, as_number b with
      | Some (NumInt x), Some (NumInt y) => Ok (PInt (x + y))
      | Some x, Some y =>
          (fx <- to_float x ;; fy <- to_float y ;; Ok (PFloat (fadd fx fy)))%result
      | _, _ => raise TypeError "unsupported operand type(s) for +"
      end
  end.

(** [round(x, ndigits)] for a float [x] ([float.__round__] with [ndigits]
    given): infinities and NaN round to themselves, extreme [ndigits] are
    short-cut, and a result out of range raises. *)
Definition round_ (x : float) (ndigits : Z) : result float :=
  if negb (is_finite x) then Ok x
  else if Z.ltb NDIGITS_MAX ndigits then Ok x
  else if Z.ltb ndigits NDIGITS_MIN then Ok (fmul (S754_zero false) x)
  else
    let r := round_decimal x ndigits in
    if is_inf r then raise OverflowError "rounded value too large to represent"
    else Ok r.

(** ** Hashing and equality of set elements

    Members of a [set] are compared by hash and [==].  Numbers of different
    types are equal when their values are ([1 == 1.0 == True]), so a
    hashable value is represented by a canonical atom on which [==] is
    equality: a number is [m * 2^e] with [m] odd (or [0 * 2^0]).  The JSON
    decoder yields one shared NaN object, and membership tests identity
    before [==], so NaN is an atom equal to itself.  Lists and dicts are
    unhashable. *)

Inductive atom :=
| ANone
| AStr (s : string)
| ANum (m e : Z)
| AInf (negative : bool)
| ANaN.

#[global] Instance atom_eq_dec : EqDecision atom.
Proof. solve_decision. Defined.

#[global] Instance atom_countable : Countable atom.
Proof.
  refine (inj_countable'
    (fun a => match a with
              | ANone => inl (inl tt)
              | AStr s => inl (inr s)
              | ANum m e => inr (inl (m, e))
              | AInf b => inr (inr (inl b))
              | ANaN => inr (inr (inr tt))
              end)
    (fun x => match x with
              | inl (inl _) => ANone
              | inl (inr s) => AStr s
              | inr (inl (m, e)) => ANum m e
              | inr (inr (inl b)) => AInf b
              | inr (inr (inr _)) => ANaN
              end) _).
  by intros [].
Defined.

Fixpoint odd_part (p : positive) (e : Z) : positive * Z :=
  match p with
  | xO q => odd_part q (e + 1)
  | _ => (p, e)
  end.

Definition dyadic (negative : bool) (m : Z) (e : Z) : atom :=
  match m with
  | Zpos p =>
      let '(q, e') := odd_part p e in
      ANum (if negative then Zneg q else Zpos q) e'
  | Zneg p =>
      let '(q, e') := odd_part p e in
      ANum (if negative then Zpos q else Zneg q) e'
  | Z0 => ANum 0 0
  end.

Definition float_atom (f : float) : atom :=
  match f with
  | S754_zero _ => ANum 0 0
  | S754_infinity s => AInf s
  | S754_nan => ANaN
  | S754_finite s m e => dyadic s (Zpos m) e
  end.

(** [hash(v)] succeeds exactly on the values that have an atom. *)
Definition hashable (v : pyval) : result atom :=
  match v with
  | PNone => Ok ANone
  | PBool b => Ok (dyadic false (Z.b2z b) 0)
  | PInt z => Ok (dyadic false z 0)
  | PFloat f => Ok (float_atom f)
  | PStr s => Ok (AStr s)
  | PList _ => raise TypeError "unhashable type: 'list'"
  | PDict _ => raise TypeError "unhashable type: 'dict'"
  end.

(** [v == s] for a string literal [s] *)
Definition eq_str (v : pyval) (s : string) : bool :=
  match v with
  | PStr t => bool_decide (t = s)
  | _ => false
  end.

(** ** Travel modes and fares ([trip_planner.py]) *)

Inductive TravelMode := DRIVE | WALK | BICYCLE | TRANSIT | TWO_WHEELER.

#[global] Instance TravelMode_eq_dec : EqDecision TravelMode.
Proof. solve_decision. Defined.

(** [mode.value] *)
Definition value (mode : TravelMode) : string :=
  match mode with
  | DRIVE => "DRIVE"
  | WALK => "WALK"
  | BICYCLE => "BICYCLE"
  | TRANSIT => "TRANSIT"
  | TWO_WHEELER => "TWO_WHEELER"
  end.

Module IntegratedFareCalculator.

Definition fallback_rates : pyval :=
  PDict [("personal_car", PDict [("per_km", PInt 7)]);
         ("personal_bike", PDict [("per_km", PInt 3)])].

Definition per_km (vehicle : string) : result pyval :=
  (rates <- getitem fallback_rates vehicle ;; getitem rates "per_km")%result.

Definition get_comprehensive_fares (distance_meters : pyval) (mode : TravelMode)
  : result pydict :=
  (distance_km <- truediv distance_meters (PInt 1000) ;;
   fares <-
     (if decide (mode = DRIVE) then
        rate <- per_km "personal_car" ;;
        product <- float_times distance_km rate ;;
        fare <- round_ product 0 ;;
        Ok (dict_set "personal_car"
              (PDict [("fare", PFloat fare); ("currency", PStr "INR")]) [])
      else if decide (mode = TWO_WHEELER) then
        rate <- per_km "personal_bike" ;;
        product <- float_times distance_km rate ;;
        fare <- round_ product 0 ;;
        Ok (dict_set "personal_bike"
              (PDict [("fare", PFloat fare); ("currency", PStr "INR")]) [])
      else Ok []) ;;
   km <- round_ distance_km 2 ;;
   Ok [("fares", PDict fares); ("distance_km", PFloat km)])%result.

End IntegratedFareCalculator.

(** ** Text

    Text is a Stdlib string, read as UTF-8.  On text that is all ASCII,
    Python's [upper], [lower] and [strip] map the letters a-z and A-Z and
    remove the white space characters 9-13 and 28-32; these are the
    functions below.  On other text they follow the interpreter's Unicode
    database (see [upper], [lower] and [strip] further down). *)

Definition is_space (c : ascii) : bool :=
  let n := N_of_ascii c in
  ((9 <=? n) && (n <=? 13) || (28 <=? n) && (n <=? 32))%N.

Definition upper_char (c : ascii) : ascii :=
  let n := N_of_ascii c in
  if ((97 <=? n) && (n <=? 122))%N then ascii_of_N (n - 32) else c.

Definition lower_char (c : ascii) : ascii :=
  let n := N_of_ascii c in
  if ((65 <=? n) && (n <=? 90))%N then ascii_of_N (n + 32) else c.

Fixpoint str_map (f : ascii -> ascii) (s : string) : string :=
  match s with
  | EmptyString => EmptyString
  | String c rest => String (f c) (str_map f rest)
  end.

Definition ascii_upper : string -> string := str_map upper_char.
Definition ascii_lower : string -> string := str_map lower_char.

(** Every character is below 128. *)
Fixpoint is_ascii (s : string) : bool :=
  match s with
  | EmptyString => true
  | String c rest => (N_of_ascii c <? 128)%N && is_ascii rest
  end.

Fixpoint lstrip (s : string) : string :=
  match s with
  | String c rest => if is_space c then lstrip rest else s
  | EmptyString => EmptyString
  end.

Fixpoint rstrip (s : string) : string :=
  match s with
  | EmptyString => EmptyString
  | String c rest =>
      match rstrip rest with
      | EmptyString => if is_space c then EmptyString else String c EmptyString
      | t => String c t
      end
  end.

Definition ascii_strip (s : string) : string := rstrip (lstrip s).

(** [sep.join(l)] *)
Fixpoint join (sep : string) (l : list string) : string :=
  match l with
  | [] => ""
  | [s] => s
  | s :: rest => (s ++ sep ++ join sep rest)%string
  end.

(** An f-string: literal text and formatted values, in order. *)
Inductive fragment :=
| Lit (s : string)
| Fmt (v : pyval).

(** ** The world: files and HTTP traffic *)

Inductive HttpCall :=
| Get (url : string) (params : pydict)
| Post (url : list fragment) (prompt : list fragment).

(** What [folium] is asked to draw. *)
Record PolyLine := {
  line_path : pyval;
  line_color : pyval;
  line_weight : Z;
  line_tooltip : list fragment;
}.

Record Marker := {
  marker_at : pyval * pyval;
  marker_tooltip : string;
}.

Record FoliumMap := {
  map_location : float * float;
  map_zoom_start : Z;
  map_markers : list Marker;
  map_lines : list PolyLine;
}.

(** A JSON file holds the document written by [json.dump]: every value
    modelled is JSON-native (string keys, no tuples), and on those
    [json.load] gives back what [json.dump] was given.  The other files hold
    what the rendering libraries were asked to draw or typeset. *)
Inductive file :=
| JsonFile (doc : pyval)
| HtmlFile (m : FoliumMap)
| PdfFile (title : string) (content : string).

Record World := {
  files : gmap string file;
  http_log : list HttpCall;
}.

(** The constructors and methods of [folium] the backend calls; each may
    reject its arguments. *)
Inductive folium_call :=
| NewMap (location : float * float) (zoom_start : Z)
| NewMarker (m : Marker)
| NewPolyLine (l : PolyLine)
| SaveMap (m : FoliumMap).

(** The collaborators outside the repository: the process environment, the
    HTTP services (answering a call given the calls made before it), the
    [googlemaps], [polyline] and [folium] packages, the clock, the file
    system's answer when a file is opened for writing (it may refuse, and
    then raises), and the interpreter's [str.upper], [str.lower] and
    [str.strip] on text with characters outside ASCII, which follow the
    Unicode database it was built with. *)
Class Externals := {
  GOOGLE_API_KEY : option string;
  GEMINI_API_KEY : option string;
  http_json : list HttpCall -> HttpCall -> result pyval;
  googlemaps_Client : string -> result unit;
  polyline_decode : pyval -> result pyval;
  folium : folium_call -> result unit;
  now_isoformat : string;
  open_for_writing : World -> string -> result unit;
  unicode_upper : string -> string;
  unicode_lower : string -> string;
  unicode_strip : string -> string;
}.

(** [s.upper()], [s.lower()], [s.strip()] *)
Definition upper {env : Externals} (s : string) : string :=
  if is_ascii s then ascii_upper s else unicode_upper s.

Definition lower {env : Externals} (s : string) : string :=
  if is_ascii s then ascii_lower s else unicode_lower s.

Definition strip {env : Externals} (s : string) : string :=
  if is_ascii s then ascii_strip s else unicode_strip s.

(** Programs: a result and the world they leave, also when they raise. *)
Definition M (A : Type) : Type := World -> result A * World.

Definition ret {A} (a : A) : M A := fun w => (Ok a, w).

Definition bind {A B} (m : M A) (k : A -> M B) : M B :=
  fun w =>
    match m w with
    | (Ok a, w') => k a w'
    | (Err e, w') => (Err e, w')
    end.

Definition lift {A} (r : result A) : M A := fun w => (r, w).

Definition throw {A} (e : exn) : M A := fun w => (Err e, w).

(** [try: body except Exception as e: handler e] *)
Definition try_except {A} (body : M A) (handler : exn -> M A) : M A :=
  fun w =>
    match body w with
    | (Err e, w') =>
        if isinstance e Exception then handler e w' else (Err e, w')
    | r => r
    end.

Declare Scope prog_scope.
Delimit Scope prog_scope with prog.
Notation "x <- m ;; k" := (bind m (fun x => k))
  (at level 100, m at next level, right associativity) : prog_scope.

(** [requests.get(url, params=...).json()] and [requests.post(...).json()] *)
Definition request {env : Externals} (c : HttpCall) : M pyval :=
  fun w =>
    (http_json (http_log w) c,
     {| files := files w; http_log := http_log w ++ [c] |}).

(** [os.path.exists(path)] *)
Definition path_exists (path : string) : M bool :=
  fun w => (Ok (bool_decide (is_Some (files w !! path))), w).

(** Writing a file: [open(path, "w")] raises when the file system refuses,
    and nothing is written; otherwise the file is created or replaced. *)
Definition write_file {env : Externals} (path : string) (f : file) : M unit :=
  fun w =>
    match open_for_writing w path with
    | Ok _ => (Ok tt, {| files := <[path := f]> (files w); http_log := http_log w |})
    | Err e => (Err e, w)
    end.

(** [json.load(open(path))] *)
Definition load_json (path : string) : M pyval :=
  fun w =>
    match files w !! path with
    | Some (JsonFile doc) => (Ok doc, w)
    | Some _ => (raise ValueError "Expecting value", w)
    | None => (Err (Raise FileNotFoundError (Msg path)), w)
    end.

(** ** The route optimizer ([trip_planner.py]) *)

Abbreviation route_key_t := (atom * atom * atom)%type.

Module EnhancedRouteOptimizer.

(** The object: only [api_key] is read by its methods. *)
Record t := { api_key : string }.

Definition geocode_url := "https://maps.googleapis.com/maps/api/geocode/json".
Definition directions_url := "https://maps.googleapis.com/maps/api/directions/json".

Section Methods.
Context {env : Externals}.

(** [__init__]: the [googlemaps] client checks the key it is given. *)
Definition init (key : string) : M t :=
  (_ <- lift (googlemaps_Client key) ;;
   ret {| api_key := key |})%prog.

Definition geocode_call (self : t) (place : string) : HttpCall :=
  Get geocode_url
    [("address", PStr place); ("key", PStr (api_key self)); ("region", PStr "in")].

Definition geocode_place (self : t) (place : string)
  : M (pydict * (pyval * pyval) * pyval) :=
  (resp <- request (geocode_call self place) ;;
   lift (results <- getitem resp "results" ;;
         first <- getindex results 0 ;;
         geometry <- getitem first "geometry" ;;
         loc <- getitem geometry "location" ;;
         lat <- getitem loc "lat" ;;
         lng <- getitem loc "lng" ;;
         lat' <- getitem loc "lat" ;;
         lng' <- getitem loc "lng" ;;
         results' <- getitem resp "results" ;;
         first' <- getindex results' 0 ;;
         address <- getitem first' "formatted_address" ;;
         Ok ([("lat", lat); ("lng", lng)], (lat', lng'), address))%result)%prog.

(** One route of the provider's answer, normalized. *)
Definition normalize_route (strategy : string) (r : pyval) : result pydict :=
  (summary <- get_method r "summary" (PStr "") ;;
   legs <- getitem r "legs" ;;
   leg <- getindex legs 0 ;;
   d <- getitem leg "distance" ;;
   distance <- getitem d "value" ;;
   legs <- getitem r "legs" ;;
   leg <- getindex legs 0 ;;
   t <- getitem leg "duration" ;;
   duration <- getitem t "value" ;;
   legs <- getitem r "legs" ;;
   leg <- getindex legs 0 ;;
   d <- getitem leg "distance" ;;
   distance_text <- getitem d "text" ;;
   legs <- getitem r "legs" ;;
   leg <- getindex legs 0 ;;
   t <- getitem leg "duration" ;;
   duration_text <- getitem t "text" ;;
   overview <- getitem r "overview_polyline" ;;
   points <- getitem overview "points" ;;
   Ok [("summary", summary);
       ("distance", distance);
       ("duration", duration);
       ("distance_text", distance_text);
       ("duration_text", duration_text);
       ("polyline", points);
       ("strategy", PStr strategy)])%result.

(** The query [_get_routes_google_api] sends; [avoid] is added when it
    is given and not empty. *)
Definition directions_call (self : t) (origin dest : pyval) (mode : string)
    (avoid : option (list string)) : HttpCall :=
  let params :=
    [("origin", origin); ("destination", dest); ("mode", PStr (lower mode));
     ("alternatives", PBool true); ("key", PStr (api_key self))] in
  let params :=
    match avoid with
    | Some (a :: l) => dict_set "avoid" (PStr (join "|" (a :: l))) params
    | _ => params
    end in
  Get directions_url params.

Definition _get_routes_google_api (self : t) (origin dest : pyval)
    (mode : string) (avoid : option (list string)) (strategy : string)
  : M (list pydict) :=
  (resp <- request (directions_call self origin dest mode avoid) ;;
   lift (status <- getitem resp "status" ;;
         if eq_str status "OK" then
           listed <- getitem resp "routes" ;;
           rs <- iterate listed ;;
           mapM (normalize_route strategy) rs
         else Ok [])%result)%prog.

(** The key under which two routes count as the same; building the tuple
    reads the three fields, testing membership hashes them. *)
Definition route_key (r : pydict) : result route_key_t :=
  (distance <- dict_item "distance" r ;;
   duration <- dict_item "duration" r ;;
   strategy <- dict_item "strategy" r ;;
   a <- hashable distance ;;
   b <- hashable duration ;;
   c <- hashable strategy ;;
   Ok (a, b, c))%result.

Fixpoint remove_duplicates_loop (routes : list pydict)
    (seen : gset route_key_t) (unique : list pydict) : result (list pydict) :=
  match routes with
  | [] => Ok unique
  | r :: rest =>
      (key <- route_key r ;;
       if decide (key ∈ seen)
       then remove_duplicates_loop rest seen unique
       else remove_duplicates_loop rest ({[key]} ∪ seen) (unique ++ [r]))%result
  end.

Definition _remove_duplicates (routes : list pydict) : result (list pydict) :=
  remove_duplicates_loop routes ∅ [].

(** [for i, r in enumerate(all_routes, start=i): r["route_number"] = i].
    Every dict of the list was created by its own [routes.append({...})] in
    [_get_routes_google_api] and occurs once, so no two positions share an
    object and the in-place assignments are a map over the list. *)
Fixpoint renumber (i : Z) (routes : list pydict) : list pydict :=
  match routes with
  | [] => []
  | r :: rest => dict_set "route_number" (PInt i) r :: renumber (i + 1) rest
  end.

Definition get_all_route_strategies (self : t) (origin dest : pyval)
    (mode : TravelMode) : M (list pydict) :=
  (let all_routes := [] in
   found <- _get_routes_google_api self origin dest (value mode) None "Default" ;;
   let all_routes := all_routes ++ found in
   all_routes <-
     (if decide (mode = DRIVE) then
        found <- _get_routes_google_api self origin dest (value mode)
                   (Some ["highways"]) "No Highways" ;;
        let all_routes := all_routes ++ found in
        found <- _get_routes_google_api self origin dest (value mode)
                   (Some ["tolls"]) "No Tolls" ;;
        ret (all_routes ++ found)
      else ret all_routes) ;;
   all_routes <- lift (_remove_duplicates all_routes) ;;
   ret (renumber 1 all_routes))%prog.

Definition process_routes_with_fares (routes : list pydict) (mode : TravelMode)
  : result (list pydict) :=
  mapM (fun r =>
          (distance <- dict_item "distance" r ;;
           fare_info <- IntegratedFareCalculator.get_comprehensive_fares distance mode ;;
           Ok (dict_set "fare_info" (PDict fare_info) r))%result)
       routes.

End Methods.
End EnhancedRouteOptimizer.

(** ** Map, persistence and the planning call ([trip_planner.py]) *)

Section TripPlanner.
Context {env : Externals}.

Definition colors : list pyval :=
  [PStr "blue"; PStr "red"; PStr "green"; PStr "purple"].

(** The loop of [create_comprehensive_map], from position [i]. *)
Fixpoint draw_routes (i : Z) (routes : list pydict) : result (list PolyLine) :=
  match routes with
  | [] => Ok []
  | r :: rest =>
      if dict_has "polyline" r then
        (encoded <- dict_item "polyline" r ;;
         path <- polyline_decode encoded ;;
         color <- list_item (i mod Z.of_nat (length colors)) colors ;;
         number <- dict_item "route_number" r ;;
         text <- dict_item "distance_text" r ;;
         let line :=
           {| line_path := path; line_color := color; line_weight := 5;
              line_tooltip := [Lit "Route "; Fmt number; Lit ": "; Fmt text] |} in
         _ <- folium (NewPolyLine line) ;;
         lines <- draw_routes (i + 1) rest ;;
         Ok (line :: lines))%result
      else draw_routes (i + 1) rest
  end.

Definition create_comprehensive_map (origin dest : pyval * pyval)
    (routes : list pydict) (start_place end_place : pyval) : result FoliumMap :=
  (lat_sum <- add origin.1 dest.1 ;;
   lat <- truediv lat_sum (PInt 2) ;;
   lng_sum <- add origin.2 dest.2 ;;
   lng <- truediv lng_sum (PInt 2) ;;
   _ <- folium (NewMap (lat, lng) 6) ;;
   let start_marker := {| marker_at := origin; marker_tooltip := "Start" |} in
   _ <- folium (NewMarker start_marker) ;;
   let end_marker := {| marker_at := dest; marker_tooltip := "End" |} in
   _ <- folium (NewMarker end_marker) ;;
   lines <- draw_routes 0 routes ;;
   Ok {| map_location := (lat, lng); map_zoom_start := 6;
         map_markers := [start_marker; end_marker]; map_lines := lines |})%result.

(** [route_map.save(map_file)] *)
Definition save_map (m : FoliumMap) (map_file : string) : M unit :=
  (_ <- lift (folium (SaveMap m)) ;;
   write_file map_file (HtmlFile m))%prog.

Definition save_routes_data (routes : list pydict) (start end_ : pyval)
    (origin dest : pyval * pyval) (mode : string) (filename : string) : M string :=
  let cleaned_routes := map (dict_without "polyline") routes in
  let data :=
    [("trip", PDict [("start", start); ("end", end_); ("mode", PStr mode);
                     ("generated_at", PStr now_isoformat)]);
     ("routes", PList (map PDict cleaned_routes))] in
  (_ <- write_file filename (JsonFile (PDict data)) ;;
   ret filename)%prog.

(** [TravelMode.__members__]: the names [getattr] can find once the name
    has been upper-cased (every other attribute of an enumeration class
    has a lower-case letter in its name). *)
Definition members : list (string * TravelMode) :=
  [("DRIVE", DRIVE); ("WALK", WALK); ("BICYCLE", BICYCLE);
   ("TRANSIT", TRANSIT); ("TWO_WHEELER", TWO_WHEELER)].

Fixpoint lookup_member (name : string) (l : list (string * TravelMode))
  : option TravelMode :=
  match l with
  | [] => None
  | (n, m) :: rest => if decide (n = name) then Some m else lookup_member name rest
  end.

(** [getattr(TravelMode, name, default)] *)
Definition getattr_TravelMode (name : string) (default : TravelMode) : TravelMode :=
  match lookup_member name members with
  | Some m => m
  | None => default
  end.

(** The mode [plan_trip_with_routes] works with. *)
Definition mode_enum_of (travel_mode : string) : TravelMode :=
  getattr_TravelMode (upper travel_mode) DRIVE.

Definition plan_trip_with_routes (start_place end_place travel_mode : string)
  : M pydict :=
  match GOOGLE_API_KEY with
  | None | Some EmptyString =>
      throw (Raise Exception (Msg "Google API key missing in .env"))
  | Some API_KEY =>
      (optimizer <- EnhancedRouteOptimizer.init API_KEY ;;
       let mode_enum := mode_enum_of travel_mode in
       o <- EnhancedRouteOptimizer.geocode_place optimizer start_place ;;
       let '(origin_dict, origin_coords, start_fmt) := o in
       d <- EnhancedRouteOptimizer.geocode_place optimizer end_place ;;
       let '(dest_dict, dest_coords, end_fmt) := d in
       routes <- EnhancedRouteOptimizer.get_all_route_strategies
                   optimizer start_fmt end_fmt mode_enum ;;
       routes <- lift (EnhancedRouteOptimizer.process_routes_with_fares routes mode_enum) ;;
       let map_file := "routes_map.html" in
       let data_file := "route_data.json" in
       route_map <- lift (create_comprehensive_map origin_coords dest_coords
                            routes start_fmt end_fmt) ;;
       _ <- save_map route_map map_file ;;
       _ <- save_routes_data routes start_fmt end_fmt origin_coords dest_coords
              (value mode_enum) data_file ;;
       ret [("map_file", PStr map_file); ("data_file", PStr data_file);
            ("routes_found", PInt (Z.of_nat (length routes)))])%prog
  end.

End TripPlanner.

(** ** The plan-trip endpoint ([main.py]) *)

Record TripRequest := {
  start_point : string;
  end_point : string;
  transport_mode : string;
}.

Record TripResponse := {
  success : bool;
  message_text : string;
  data_file : pyval;
  map_file : pyval;
}.

Section Api.
Context {env : Externals}.

(** [bool(s)] for a string *)
Definition truthy_str (s : string) : bool :=
  match s with EmptyString => false | _ => true end.

Definition plan_trip (request : TripRequest) : M TripResponse :=
  try_except
    (if negb (truthy_str (strip (start_point request)))
        || negb (truthy_str (strip (end_point request)))
     then throw (RaiseHTTP 400 (Msg "Start point and end point are required"))
     else
       (result <- plan_trip_with_routes (start_point request) (end_point request)
                    (transport_mode request) ;;
        match result, dict_get "data_file" result with
        | _ :: _, Some file =>
            ret {| success := true;
                   message_text := "Trip planned successfully";
                   data_file := file;
                   map_file := match dict_get "map_file" result with
                               | Some f => f
                               | None => PStr "routes_map.html"
                               end |}
        | _, _ => throw (RaiseHTTP 500 (Msg "Failed to plan trip"))
        end)%prog)
    (fun e => throw (RaiseHTTP 500 (MsgOf "Error planning trip: " e))).

(** The status line the framework answers with: 200 for a returned
    response, the code of a raised [HTTPException], 500 for anything else
    that escapes the handler. *)
Definition http_status {A} (r : result A) : Z :=
  match r with
  | Ok _ => 200
  | Err e => match status_of e with Some s => s | None => 500 end
  end.

End Api.

(** ** The guide generator ([travel_guide.py]) *)

Section TravelGuide.
Context {env : Externals}.

(** [list(v.values())], a method of dicts only *)
Definition values_method (v : pyval) : result (list pyval) :=
  match v with
  | PDict d => Ok (dict_values d)
  | _ => raise AttributeError "object has no attribute 'values'"
  end.

Fixpoint has_substring (t s : string) : bool :=
  String.prefix t s ||
  match s with
  | EmptyString => false
  | String _ rest => has_substring t rest
  end.

(** [s in v] for a string literal [s] *)
Definition contains_str (s : string) (v : pyval) : result bool :=
  match v with
  | PDict d => Ok (dict_has s d)
  | PList l => Ok (existsb (fun x => eq_str x s) l)
  | PStr t => Ok (has_substring s t)
  | _ => raise TypeError "argument is not iterable"
  end.

Definition gemini_url : list fragment :=
  [Lit "https://generativelanguage.googleapis.com/v1beta/models/gemini-2.5-pro:generateContent?key=";
   Fmt (match GEMINI_API_KEY with Some k => PStr k | None => PNone end)].

Definition prompt_of (strategy distance duration fare start end_ : pyval)
  : list fragment :=
  [Lit "
You are an experienced travel guide for India. Create a comprehensive travel guide for a road trip.
The selected route is "; Fmt strategy; Lit " covering "; Fmt distance;
   Lit " in "; Fmt duration; Lit " with estimated fuel cost of ₹"; Fmt fare;
   Lit ".

Start: "; Fmt start; Lit "
End: "; Fmt end_; Lit "

Please provide:
1. Route Overview
2. Major Stopovers
3. Cultural Highlights
4. Food Recommendations
5. Safety & Travel Tips
6. Seasonal Considerations
7. Budget Breakdown
8. Photography Spots

Make it engaging, structured, and easy to read with short paragraphs. Use emojis to make it fun.
"].

(** The page layout is the canvas library's; the file holds the title and
    the text it was given.  [content.split] needs a string. *)
Definition create_pdf_with_wrapping (output_pdf : string) (title : string)
    (content : pyval) : M unit :=
  match content with
  | PStr text => write_file output_pdf (PdfFile title text)
  | _ => throw (Raise AttributeError (Msg "object has no attribute 'split'"))
  end.

Definition generate_travel_insights_pdf (json_file_path output_pdf : string)
  : M string :=
  (found <- path_exists json_file_path ;;
   if negb found
   then throw (Raise FileNotFoundError (Msg ("JSON file not found: " ++ json_file_path)%string))
   else
     route_data <- load_json json_file_path ;;
     prompt <- lift (trip_info <- getitem route_data "trip" ;;
                     routes <- getitem route_data "routes" ;;
                     main_route <- getindex routes 0 ;;
                     strategy <- getitem main_route "strategy" ;;
                     distance <- getitem main_route "distance_text" ;;
                     duration <- getitem main_route "duration_text" ;;
                     fare_info <- getitem main_route "fare_info" ;;
                     fares <- getitem fare_info "fares" ;;
                     amounts <- values_method fares ;;
                     first <- list_item 0 amounts ;;
                     fare <- getitem first "fare" ;;
                     start <- getitem trip_info "start" ;;
                     end_ <- getitem trip_info "end" ;;
                     Ok (prompt_of strategy distance duration fare start end_))%result ;;
     data <- request (Post gemini_url prompt) ;;
     failed <- lift (contains_str "error" data) ;;
     if (failed : bool) then
       text <- lift (error <- getitem data "error" ;; getitem error "message")%result ;;
       throw (Raise Exception (MsgFmt "API Error: " text))
     else
       insights <- lift (candidates <- getitem data "candidates" ;;
                         candidate <- getindex candidates 0 ;;
                         content <- getitem candidate "content" ;;
                         parts <- getitem content "parts" ;;
                         part <- getindex parts 0 ;;
                         getitem part "text")%result ;;
       _ <- create_pdf_with_wrapping output_pdf "🤖 AI-Generated Travel Insights" insights ;;
       ret output_pdf)%prog.

End TravelGuide.

(** ** Notions used to state the properties *)

(** The deduplication key of a route, when it has one. *)
Definition key_of (r : pydict) : option route_key_t :=
  match EnhancedRouteOptimizer.route_key r with
  | Ok k => Some k
  | Err _ => None
  end.

(** Two routes are duplicates when they share (distance, duration, strategy). *)
Definition same_key (r1 r2 : pydict) : Prop := key_of r1 = key_of r2.

#[global] Instance same_key_dec r1 r2 : Decision (same_key r1 r2).
Proof. unfold same_key. apply _. Defined.

(** Deduplication as the specification words it: a route is kept exactly
    when no route before it in the input is a duplicate of it.  [earlier]
    holds the routes already passed. *)
Fixpoint first_occurrences (earlier routes : list pydict) : list pydict :=
  match routes with
  | [] => []
  | r :: rest =>
      if decide (Exists (same_key r) earlier)
      then first_occurrences (earlier ++ [r]) rest
      else r :: first_occurrences (earlier ++ [r]) rest
  end.

(** A route whose three key fields are present and hashable. *)
Definition keyed (r : pydict) : Prop := is_Ok (EnhancedRouteOptimizer.route_key r).

(** The set [seen] holds the keys of the routes passed so far. *)
Definition seen_of (seen : gset route_key_t) (earlier : list pydict) : Prop :=
  forall k, k ∈ seen <-> exists r, r ∈ earlier /\ EnhancedRouteOptimizer.route_key r = Ok k.

(** The [route_number] fields of a list of routes, in list order. *)
Definition route_numbers (routes : list pydict) : list (option pyval) :=
  dict_get "route_number" <$> routes.

(** The numbering [1, 2, ..., n]. *)
Definition one_to (n : nat) : list (option pyval) :=
  (fun i => Some (PInt i)) <$> seqZ 1 (Z.of_nat n).

(** The [routes] list of the JSON document stored at [path]. *)
Definition stored_routes (w : World) (path : string) : option (list pyval) :=
  match files w !! path with
  | Some (JsonFile (PDict doc)) =>
      match dict_get "routes" doc with
      | Some (PList l) => Some l
      | _ => None
      end
  | _ => None
  end.

(** [n] is an integer nearest to [num / den]. *)
Definition is_nearest (num den n : Z) : Prop := 2 * Z.abs (num - n * den) <= den.

(** [r] is [x] rounded to [ndigits] decimals: the float of a decimal
    [n * 10^-ndigits] nearest to the exact value of [x]; what is not finite
    is left as it is. *)
Definition rounds_to (ndigits : Z) (x r : float) : Prop :=
  if is_finite x then
    exists n, is_nearest (scaled x ndigits).1 (scaled x ndigits).2 n
              /\ r = of_decimal (sign x) n ndigits
  else r = x.

(** A result that is a raised [LookupError] ([KeyError] or [IndexError]). *)
Definition lookup_failure {A} (r : result A) : Prop :=
  exists e, r = Err e /\ isinstance e LookupError = true.

(** ** A scripted environment

    Concrete collaborators on which the functions above can be run: a
    geocoder that knows two places, a directions provider that answers the
    three strategy queries (the first one with a repeated alternative, the
    last one with a non-OK status), and a text generator. *)

Module Demo.

Definition geocoded (address : string) (lat lng : Z) : pyval :=
  PDict [("results",
          PList [PDict [("formatted_address", PStr address);
                        ("geometry",
                         PDict [("location",
                                 PDict [("lat", PFloat (of_quotient lat 10000));
                                        ("lng", PFloat (of_quotient lng 10000))])])]]);
         ("status", PStr "OK")].

Definition no_results : pyval :=
  PDict [("results", PList []); ("status", PStr "ZERO_RESULTS")].

Definition provider_route (summary : string) (meters : Z) (distance_text : string)
    (seconds : Z) (duration_text : string) (points : string) : pyval :=
  PDict [("summary", PStr summary);
         ("legs",
          PList [PDict [("distance",
                         PDict [("text", PStr distance_text); ("value", PInt meters)]);
                        ("duration",
                         PDict [("text", PStr duration_text); ("value", PInt seconds)])]]);
         ("overview_polyline", PDict [("points", PStr points)])].

Definition expressway : pyval :=
  provider_route "Mumbai - Pune Expy" 149234 "149 km" 10800 "3 hours 0 mins" "_p~iF~ps|U".
Definition old_highway : pyval :=
  provider_route "NH 48" 162500 "163 km" 12600 "3 hours 30 mins" "_ulLnnqC".
Definition expressway_again : pyval :=
  provider_route "Bengaluru - Mumbai Hwy" 149234 "149 km" 10800 "3 hours 0 mins" "_mqNvxq`@".
Definition back_roads : pyval :=
  provider_route "SH 92" 149234 "149 km" 10800 "3 hours 0 mins" "_seK_seK".

Definition directions (status : string) (routes : list pyval) : pyval :=
  PDict [("routes", PList routes); ("status", PStr status)].

Definition generated : pyval :=
  PDict [("candidates",
          PList [PDict [("content",
                         PDict [("parts",
                                 PList [PDict [("text", PStr "Day 1: leave early.")]])])]])].

Definition answer (log : list HttpCall) (c : HttpCall) : result pyval :=
  match c with
  | Get url params =>
      if decide (url = EnhancedRouteOptimizer.geocode_url) then
        match dict_get "address" params with
        | Some (PStr "Mumbai") => Ok (geocoded "Mumbai, Maharashtra, India" 190760 728777)
        | Some (PStr "Pune") => Ok (geocoded "Pune, Maharashtra, India" 185204 738567)
        | _ => Ok no_results
        end
      else
        match dict_get "avoid" params with
        | None => Ok (directions "OK" [expressway; old_highway; expressway_again])
        | Some (PStr "highways") => Ok (directions "OK" [back_roads])
        | _ => Ok (directions "ZERO_RESULTS" [])
        end
  | Post _ _ => Ok generated
  end.

(** An excerpt of the Unicode database: the long s (bytes 197 191) and the
    dotless i (196 177) upper-case to S and I; the no-break space (194 160)
    and the em space (226 128 131) are white space. *)
Fixpoint upper_excerpt (s : string) : string :=
  match s with
  | EmptyString => EmptyString
  | String "197" (String "191" rest) => String "S" (upper_excerpt rest)
  | String "196" (String "177" rest) => String "I" (upper_excerpt rest)
  | String c rest => String (upper_char c) (upper_excerpt rest)
  end.

Fixpoint lstrip_excerpt (s : string) : string :=
  match s with
  | EmptyString => EmptyString
  | String "194" (String "160" rest) => lstrip_excerpt rest
  | String "226" (String "128" (String "131" rest)) => lstrip_excerpt rest
  | String c rest => if is_space c then lstrip_excerpt rest else s
  end.

Fixpoint rstrip_excerpt (s : string) : string :=
  match s with
  | EmptyString => EmptyString
  | String c rest =>
      match c, rstrip_excerpt rest with
      | _, EmptyString => if is_space c then EmptyString else String c EmptyString
      | "194"%char, String "160" EmptyString => EmptyString
      | "226"%char, String "128" (String "131" EmptyString) => EmptyString
      | _, t => String c t
      end
  end.

(** The file system opens every file; [services] below is the scripted
    environment of the runs. *)
Definition services : Externals :=
  {| GOOGLE_API_KEY := Some "AIzaDemoKey";
     GEMINI_API_KEY := Some "demo";
     http_json := answer;
     googlemaps_Client := fun key =>
       if String.prefix "AIza" key then Ok tt
       else raise ValueError "Invalid API key provided.";
     polyline_decode := fun v =>
       match v with
       | PStr _ => Ok (PList [])
       | _ => raise TypeError "expected a string"
       end;
     folium := fun _ => Ok tt;
     now_isoformat := "2025-01-01T09:00:00";
     open_for_writing := fun _ _ => Ok tt;
     unicode_upper := upper_excerpt;
     unicode_lower := ascii_lower;
     unicode_strip := fun s => rstrip_excerpt (lstrip_excerpt s) |}.

Definition optimizer : EnhancedRouteOptimizer.t :=
  {| EnhancedRouteOptimizer.api_key := "AIzaDemoKey" |}.

Definition empty_world : World := {| files := ∅; http_log := [] |}.

End Demo.

Module DemoRuns.

Definition route (strategy : string) (r : pyval) : pydict :=
  match EnhancedRouteOptimizer.normalize_route strategy r with
  | Ok d => d
  | Err _ => []
  end.

(** What the three strategy queries return, before deduplication. *)
Definition fetched : list pydict :=
  [route "Default" Demo.expressway; route "Default" Demo.old_highway;
   route "Default" Demo.expressway_again; route "No Highways" Demo.back_roads].

Definition unique : list pydict :=
  [route "Default" Demo.expressway; route "Default" Demo.old_highway;
   route "No Highways" Demo.back_roads].

Definition strategies_run : result (list pydict) * World :=
  EnhancedRouteOptimizer.get_all_route_strategies (env := Demo.services) Demo.optimizer
    (PStr "Mumbai, Maharashtra, India") (PStr "Pune, Maharashtra, India") DRIVE
    Demo.empty_world.

Definition drive_run : result pydict * World :=
  plan_trip_with_routes (env := Demo.services) "Mumbai" "Pune" "drive" Demo.empty_world.

Definition drive_result : pydict :=
  [("map_file", PStr "routes_map.html"); ("data_file", PStr "route_data.json");
   ("routes_found", PInt 3)].

Definition walk_run : result pydict * World :=
  plan_trip_with_routes (env := Demo.services) "Mumbai" "Pune" "walk" Demo.empty_world.

Definition walk_world : World := walk_run.2.

(** The record the walking trip leaves in [route_data.json]. *)
Definition walk_record : pyval :=
  match files walk_world !! "route_data.json" with
  | Some (JsonFile doc) => doc
  | _ => PNone
  end.

Definition no_tolls_run : result (list pydict) * World :=
  EnhancedRouteOptimizer._get_routes_google_api (env := Demo.services) Demo.optimizer
    (PStr "Mumbai") (PStr "Pune") "DRIVE" (Some ["tolls"]) "No Tolls" Demo.empty_world.

Definition blank_request : TripRequest :=
  {| start_point := "   "; end_point := "Pune"; transport_mode := "DRIVE" |}.

End DemoRuns.

(** ** The remaining endpoints ([main.py]) *)

(** [s.endswith(suffix)], [s.startswith(prefix)] *)
Definition endswith (s suffix : string) : bool :=
  let n := String.length s in
  let k := String.length suffix in
  (k <=? n)%nat && bool_decide (String.substring (n - k) k s = suffix).

Definition startswith (s prefix : string) : bool := String.prefix prefix s.

(** [s.replace(old, new)] for a non-empty [old]: the occurrences are taken
    from the left and do not overlap.  [skip] counts the characters of an
    occurrence still to pass. *)
Fixpoint replace_from (old new : string) (skip : nat) (s : string) : string :=
  match s with
  | EmptyString => EmptyString
  | String c rest =>
      match skip with
      | S k => replace_from old new k rest
      | O =>
          if String.prefix old s
          then (new ++ replace_from old new (String.length old - 1) rest)%string
          else String c (replace_from old new 0 rest)
      end
  end.

Definition replace (s old new : string) : string := replace_from old new 0 s.

(** [s.split(sep)] for a one-character separator *)
Fixpoint split_on (sep : ascii) (s : string) : list string :=
  match s with
  | EmptyString => [EmptyString]
  | String c rest =>
      if decide (c = sep) then EmptyString :: split_on sep rest
      else match split_on sep rest with
           | first :: others => String c first :: others
           | [] => [String c EmptyString]
           end
  end.

(** [os.path.basename(path)]: what follows the last slash *)
Definition basename (path : string) : string :=
  List.last (split_on "/" path) EmptyString.

(** [open(path, 'r', encoding='utf-8').read()]: the maps and the JSON
    documents are text; a PDF is not valid UTF-8 (the decoding error is a
    [ValueError]). *)
Definition read_text (path : string) : M file :=
  fun w =>
    match files w !! path with
    | Some (PdfFile _ _) => (raise ValueError "'utf-8' codec can't decode byte", w)
    | Some f => (Ok f, w)
    | None => (Err (Raise FileNotFoundError (Msg path)), w)
    end.

Module GuideRequest.
Record t := { data_file : string }.
End GuideRequest.

Record FileResponse := {
  response_path : string;
  media_type : string;
  response_filename : string;
}.

Section Endpoints.
Context {env : Externals}.

(** [hash(s)] of a string: salted anew in every process. *)
Variable hash : string -> Z.

(** [GET /map/{filename}]: the body of the answer is the file's text. *)
Definition get_map (filename : string) : M file :=
  try_except
    (let filename :=
       if negb (endswith filename ".html") then (filename ++ ".html")%string
       else filename in
     let file_path := filename in
     (found <- path_exists file_path ;;
      if negb found then throw (RaiseHTTP 404 (Msg "Map file not found"))
      else
        html_content <- read_text file_path ;;
        ret html_content)%prog)
    (fun e => throw (RaiseHTTP 500 (MsgOf "Error serving map: " e))).

(** The name [generate_guide] gives the PDF. *)
Definition pdf_filename_of (data_file : string) : string :=
  ("guide_pdf/Tour_guide_" ++ pretty (hash data_file) ++ ".pdf")%string.

(** [POST /generate-guide] *)
Definition generate_guide (request : GuideRequest.t) : M pydict :=
  try_except
    (found <- path_exists (GuideRequest.data_file request) ;;
     if negb found then throw (RaiseHTTP 404 (Msg "Route data file not found"))
     else
       let pdf_filename := pdf_filename_of (GuideRequest.data_file request) in
       result <- generate_travel_insights_pdf (GuideRequest.data_file request)
                   pdf_filename ;;
       made <- path_exists pdf_filename ;;
       if (made : bool) then
         ret [("success", PBool true);
              ("message", PStr "Travel guide generated successfully");
              ("pdf_file", PStr pdf_filename)]
       else throw (RaiseHTTP 500 (Msg "Failed to generate travel guide")))%prog
    (fun e => throw (RaiseHTTP 500 (MsgOf "Error generating guide: " e))).

(** The path [download_guide] looks for. *)
Definition guide_path (filename : string) : string :=
  if negb (startswith filename "guide_pdf/") then
    let clean_filename := replace filename "guide_pdf/" "" in
    ("guide_pdf/" ++ clean_filename)%string
  else filename.

(** [GET /download-guide/{filename:path}] *)
Definition download_guide (filename : string) : M FileResponse :=
  try_except
    (let file_path := guide_path filename in
     (found <- path_exists file_path ;;
      if negb found
      then throw (RaiseHTTP 404 (Msg ("Guide file not found: " ++ file_path)%string))
      else ret {| response_path := file_path;
                  media_type := "application/pdf";
                  response_filename := basename file_path |})%prog)
    (fun e => throw (RaiseHTTP 500 (MsgOf "Error downloading guide: " e))).

End Endpoints.

(** ** Page layout of the guide ([travel_guide.py])

    [create_pdf_with_wrapping] as the calls it makes on the canvas.  The
    page size and the units are [reportlab]'s; the line wrapping is its
    [simpleSplit], which depends on the font metrics. *)

Module Canvas.

Definition fsub : float -> float -> float := SFsub prec emax.
Definition flt : float -> float -> bool := SFltb.

(** [reportlab.lib.units] and [reportlab.lib.pagesizes] *)
Definition inch : float := of_Z 72.
Definition cm : float := fdiv inch (of_quotient 254 100).
Definition mm : float := fmul cm (of_quotient 1 10).
Definition A4 : float * float := (fmul (of_Z 210) mm, fmul (of_Z 297) mm).

Inductive canvas_call :=
| NewCanvas (path : string) (pagesize : float * float)
| SetFont (name : string) (size : Z)
| DrawString (x : Z) (y : float) (text : string)
| ShowPage
| Save.

Definition width : float := A4.1.
Definition height : float := A4.2.
Definition margin : Z := 50.
Definition max_width : float := fsub width (of_Z (2 * margin)).
Definition line_height : Z := 16.

Section Layout.

Variable simpleSplit : string -> string -> Z -> float -> list string.

(** The inner loop, from cursor [y]: the calls and the cursor it leaves. *)
Fixpoint draw_wrapped (y : float) (wrapped_lines : list string)
  : list canvas_call * float :=
  match wrapped_lines with
  | [] => ([], y)
  | wline :: rest =>
      let new_page := flt y (of_Z margin) in
      let y := if new_page then fsub height (of_Z margin) else y in
      let '(calls, y') := draw_wrapped (fsub y (of_Z line_height)) rest in
      ((if new_page then [ShowPage; SetFont "Helvetica" 11] else [])
       ++ DrawString margin y wline :: calls, y')
  end.

(** The outer loop over the lines of the text. *)
Fixpoint draw_content (y : float) (lines : list string) : list canvas_call :=
  match lines with
  | [] => []
  | line :: rest =>
      let wrapped_lines := simpleSplit line "Helvetica" 11 max_width in
      let '(calls, y) := draw_wrapped y wrapped_lines in
      calls ++ draw_content y rest
  end.

Definition create_pdf_with_wrapping (output_pdf title content : string)
  : list canvas_call :=
  let y := fsub height (of_Z 80) in
  [NewCanvas output_pdf A4;
   SetFont "Helvetica-Bold" 16;
   DrawString margin (fsub height (of_Z 50)) title;
   SetFont "Helvetica" 11]
  ++ draw_content y (split_on "010" content)
  ++ [Save].

End Layout.
End Canvas.

(** ** Notions used to state further properties *)

(** A program that leaves the files as they are, whatever it returns. *)
Definition keeps_files {A} (m : M A) : Prop :=
  forall w, files (m w).2 = files w.

(** The keys of a route as [_get_routes_google_api] builds it, in order. *)
Definition fetched_fields : list string :=
  ["summary"; "distance"; "duration"; "distance_text"; "duration_text";
   "polyline"; "strategy"].

(** The keys of a route as [route_data.json] holds it, in order. *)
Definition stored_fields : list string :=
  ["summary"; "distance"; "duration"; "distance_text"; "duration_text";
   "strategy"; "route_number"; "fare_info"].

(** The keys of a dict, in insertion order. *)
Definition keys (d : pydict) : list string := d.*1.

(** The strategies queried for a mode, in query order, with what to avoid. *)
Definition strategies_for (mode : TravelMode) : list (string * option (list string)) :=
  ("Default", None) ::
  (if decide (mode = DRIVE)
   then [("No Highways", Some ["highways"]); ("No Tolls", Some ["tolls"])]
   else []).

(** The directions queries of a planning call, in the order they are sent. *)
Definition strategy_calls {env : Externals} (self : EnhancedRouteOptimizer.t)
    (origin dest : pyval)
    (mode : TravelMode) : list HttpCall :=
  (fun s => EnhancedRouteOptimizer.directions_call self origin dest (value mode) s.2)
    <$> strategies_for mode.

(** What a planning call from [w] to [w'] shows of the mode it worked
    with: after the two geocoding requests it has sent the directions
    queries of that mode, under the mode's name in lower case; the record it
    has stored names the mode; and every stored route carries the fares of
    that mode for its distance. *)
Definition planned_with {env : Externals} (mode : TravelMode)
    (start_place end_place : string) (w w' : World) : Prop :=
  exists key start_fmt end_fmt (saved : list pydict),
    let self := {| EnhancedRouteOptimizer.api_key := key |} in
    GOOGLE_API_KEY = Some key
    /\ http_log w'
       = http_log w
         ++ [EnhancedRouteOptimizer.geocode_call self start_place;
             EnhancedRouteOptimizer.geocode_call self end_place]
         ++ strategy_calls self start_fmt end_fmt mode
    /\ files w' !! "route_data.json"
       = Some (JsonFile (PDict
                 [("trip", PDict [("start", start_fmt); ("end", end_fmt);
                                  ("mode", PStr (value mode));
                                  ("generated_at", PStr now_isoformat)]);
                  ("routes", PList (PDict <$> saved))]))
    /\ Forall (fun r => exists distance fare_info,
                 dict_get "distance" r = Some distance
                 /\ IntegratedFareCalculator.get_comprehensive_fares distance mode
                    = Ok fare_info
                 /\ dict_get "fare_info" r = Some (PDict fare_info)) saved.

(** The title [generate_travel_insights_pdf] gives the guide. *)
Definition guide_title : string := "🤖 AI-Generated Travel Insights".

(** The generated text in the answer of the text generator:
    [data["candidates"][0]["content"]["parts"][0]["text"]]. *)
Definition insights_of (data : pyval) : result pyval :=
  (candidates <- getitem data "candidates" ;;
   candidate <- getindex candidates 0 ;;
   content <- getitem candidate "content" ;;
   parts <- getitem content "parts" ;;
   part <- getindex parts 0 ;;
   getitem part "text")%result.

(** The prompt the generator builds from a stored record: the fields of the
    first route and the fare of its first fares entry, then the trip's
    start and end. *)
Definition prompt_for (route_data : pyval) : result (list fragment) :=
  (trip_info <- getitem route_data "trip" ;;
   routes <- getitem route_data "routes" ;;
   main_route <- getindex routes 0 ;;
   strategy <- getitem main_route "strategy" ;;
   distance <- getitem main_route "distance_text" ;;
   duration <- getitem main_route "duration_text" ;;
   fare_info <- getitem main_route "fare_info" ;;
   fares <- getitem fare_info "fares" ;;
   amounts <- values_method fares ;;
   first <- list_item 0 amounts ;;
   fare <- getitem first "fare" ;;
   start <- getitem trip_info "start" ;;
   end_ <- getitem trip_info "end" ;;
   Ok (prompt_of strategy distance duration fare start end_))%result.

(** The file [get_map] serves for a name: the name itself when it ends in
    ".html", the name with ".html" appended otherwise. *)
Definition html_name (filename : string) : string :=
  if endswith filename ".html" then filename else (filename ++ ".html")%string.

(** *** Notions for the page layout *)

(** Where each string is drawn: the page (counted from [page] on, one more
    after every [showPage]), the height, and the string. *)
Fixpoint placements (page : nat) (calls : list Canvas.canvas_call)
  : list (nat * float * string) :=
  match calls with
  | [] => []
  | Canvas.ShowPage :: rest => placements (S page) rest
  | Canvas.DrawString _ y text :: rest => (page, y, text) :: placements page rest
  | _ :: rest => placements page rest
  end.

(** The number of [showPage] calls. *)
Fixpoint page_breaks (calls : list Canvas.canvas_call) : nat :=
  match calls with
  | [] => O
  | Canvas.ShowPage :: rest => S (page_breaks rest)
  | _ :: rest => page_breaks rest
  end.

(** The lines of a text as they are drawn: each line of the text, wrapped. *)
Definition wrapped_text (simpleSplit : string -> string -> Z -> float -> list string)
    (content : string) : list string :=
  concat ((fun line => simpleSplit line "Helvetica" 11 Canvas.max_width)
            <$> split_on "010" content).

(** The cursor [slot] lines below [top]. *)
Definition lines_below (top : float) (slot : nat) : float :=
  Nat.iter slot (fun y => Canvas.fsub y (of_Z Canvas.line_height)) top.

(** The first page starts below the title, the later ones at the top margin. *)
Definition first_top : float := Canvas.fsub Canvas.height (of_Z 80).
Definition later_top : float := Canvas.fsub Canvas.height (of_Z Canvas.margin).

(** The page and the slot on it of the line drawn [k]-th (from 0): the
    first page holds 45 lines, every later page 47. *)
Definition locate (k : nat) : nat * nat :=
  if (k <? 45)%nat then (0%nat, k) else (S ((k - 45) / 47), ((k - 45) mod 47))%nat.

Definition place (k : nat) : nat * float :=
  let '(page, slot) := locate k in
  (page, lines_below (match page with O => first_top | S _ => later_top end) slot).

(** The cursor and the page before the line drawn [k]-th. *)
Definition cursor_before (k : nat) : float :=
  match k with
  | O => first_top
  | S j => Canvas.fsub (place j).2 (of_Z Canvas.line_height)
  end.

Definition page_before (k : nat) : nat :=
  match k with O => O | S j => (place j).1 end.

(** ** More scripted runs *)

Module DemoMore.

(** The scripted environment with other answers, and with or without the
    Google key. *)
Definition with_answers (key : option string)
    (answers : list HttpCall -> HttpCall -> result pyval) : Externals :=
  {| GOOGLE_API_KEY := key;
     GEMINI_API_KEY := @GEMINI_API_KEY Demo.services;
     http_json := answers;
     googlemaps_Client := @googlemaps_Client Demo.services;
     polyline_decode := @polyline_decode Demo.services;
     folium := @folium Demo.services;
     now_isoformat := @now_isoformat Demo.services;
     open_for_writing := @open_for_writing Demo.services;
     unicode_upper := @unicode_upper Demo.services;
     unicode_lower := @unicode_lower Demo.services;
     unicode_strip := @unicode_strip Demo.services |}.

(** A provider whose second alternative has no legs. *)
Definition legless : pyval :=
  PDict [("summary", PStr "NH 48"); ("legs", PList []);
         ("overview_polyline", PDict [("points", PStr "_ulLnnqC")])].

Definition broken_directions : pyval :=
  Demo.directions "OK" [Demo.expressway; legless].

Definition broken : Externals :=
  with_answers (Some "AIzaDemoKey") (fun _ _ => Ok broken_directions).

(** A text generator that refuses. *)
Definition refusal : pydict :=
  [("error", PDict [("code", PInt 429); ("message", PStr "quota exceeded")])].

Definition refusing : Externals :=
  with_answers (Some "AIzaDemoKey")
    (fun log c => match c with Post _ _ => Ok (PDict refusal) | _ => Demo.answer log c end).

Definition hash (s : string) : Z := - Z.of_nat (String.length s) - 7.

(** A wrapping that cuts nothing. *)
Definition no_wrap (line font : string) (size : Z) (width : float) : list string :=
  [line].

Definition numbered : list pydict :=
  EnhancedRouteOptimizer.renumber 1 DemoRuns.unique.

Definition priced : list pydict :=
  match EnhancedRouteOptimizer.process_routes_with_fares numbered DRIVE with
  | Ok l => l
  | Err _ => []
  end.

Definition mumbai : pyval * pyval :=
  (PFloat (of_quotient 190760 10000), PFloat (of_quotient 728777 10000)).
Definition pune : pyval * pyval :=
  (PFloat (of_quotient 185204 10000), PFloat (of_quotient 738567 10000)).

Definition drive_world : World := DemoRuns.drive_run.2.

Definition drive_request : TripRequest :=
  {| start_point := "Mumbai"; end_point := "Pune"; transport_mode := "drive" |}.

Definition guide_request : GuideRequest.t :=
  {| GuideRequest.data_file := "route_data.json" |}.

Definition guide_name : string := "guide_pdf/Tour_guide_-22.pdf".

(** The record and the prompt of the driving trip. *)
Definition drive_record : pyval :=
  match files drive_world !! "route_data.json" with
  | Some (JsonFile doc) => doc
  | _ => PNone
  end.

Definition drive_prompt : list fragment :=
  match prompt_for drive_record with
  | Ok p => p
  | Err _ => []
  end.

Definition blank_map : FoliumMap :=
  {| map_location := (S754_zero false, S754_zero false); map_zoom_start := 0;
     map_markers := []; map_lines := [] |}.

(** The map of the driving trip. *)
Definition drawn : FoliumMap :=
  match create_comprehensive_map (env := Demo.services) mumbai pune priced
          (PStr "Mumbai, Maharashtra, India") (PStr "Pune, Maharashtra, India") with
  | Ok m => m
  | Err _ => blank_map
  end.




(** Planning calls with a mode that is no member's name, and with a mode
    written with a long s. *)
Definition helicopter_run : result pydict * World :=
  plan_trip_with_routes (env := Demo.services) "Mumbai" "Pune" "helicopter"
    Demo.empty_world.

Definition transit_run : result pydict * World :=
  plan_trip_with_routes (env := Demo.services) "Mumbai" "Pune" "tranſit"
    Demo.empty_world.

(** A no-break space followed by an em space, and a request whose end
    point is that. *)
Definition blank_outside_ascii : string :=
  String "194" (String "160" (String "226" (String "128" (String "131" "")))).

Definition unicode_blank_request : TripRequest :=
  {| start_point := "Mumbai"; end_point := blank_outside_ascii;
     transport_mode := "drive" |}.

Definition transit_result : pydict :=
  match transit_run.1 with
  | Ok res => res
  | Err _ => []
  end.

Definition guide_run : result string * World :=
  generate_travel_insights_pdf (env := Demo.services) "route_data.json" "out.pdf"
    drive_world.

Definition walk_guide_run : result string * World :=
  generate_travel_insights_pdf (env := Demo.services) "route_data.json" "out.pdf"
    DemoRuns.walk_world.

Definition endpoint_run : result pydict * World :=
  generate_guide (env := Demo.services) hash guide_request drive_world.

End DemoMore.

(** * Properties *)

Import EnhancedRouteOptimizer IntegratedFareCalculator.

(** ** The runtime model on known values *)

(** [round(2.5, 0) == 2.0]: ties go to the even neighbour. *)
Example round_tie_to_even : round_ (of_quotient 25 10) 0 = Ok (of_Z 2).
Proof. reflexivity. Qed.

(** [round(1.015, 2) == 1.01]: the float nearest to 1.015 lies below it. *)
Example round_of_binary_value :
  round_ (of_quotient 1015 1000) 2 = Ok (of_quotient 101 100).
Proof. reflexivity. Qed.

(** [0 / -5 == -0.0] *)
Example zero_over_negative : truediv (PInt 0) (PInt (-5)) = Ok (S754_zero true).
Proof. reflexivity. Qed.

(** [hash(1) == hash(1.0) == hash(True)] and [1 == 1.0 == True] *)
Example one_is_one : hashable (PInt 1) = hashable (PFloat (of_Z 1))
                     /\ hashable (PInt 1) = hashable (PBool true).
Proof. split; reflexivity. Qed.

Example strip_blank {env : Externals} : strip "   " = "" /\ strip "  Pune " = "Pune".
Proof. split; reflexivity. Qed.

Example upper_mixed_case {env : Externals} : upper "two_Wheeler" = "TWO_WHEELER".
Proof. reflexivity. Qed.

(** With the excerpt of the Unicode database of the scripted environment:
    a mode written with a long s or a dotless i is a member's name once
    upper-cased, and a point of white space outside ASCII is blank, so that
    nothing is requested for it. *)
Example upper_outside_ascii :
  mode_enum_of (env := Demo.services) "tranſit" = TRANSIT
  /\ mode_enum_of (env := Demo.services) "bıcycle" = BICYCLE.
Proof. split; reflexivity. Qed.

Example strip_outside_ascii :
  strip (env := Demo.services) DemoMore.blank_outside_ascii = ""
  /\ (plan_trip (env := Demo.services) DemoMore.unicode_blank_request Demo.empty_world).2
     = Demo.empty_world.
Proof. split; reflexivity. Qed.

Example http_exception_is_exception :
  isinstance (RaiseHTTP 400 (Msg "")) Exception = true
  /\ isinstance (Raise KeyError (Msg "results")) LookupError = true
  /\ isinstance (Raise TypeError (Msg "")) LookupError = false.
Proof. repeat split. Qed.

(** The scripted planning call, end to end. *)
Example drive_plan_succeeds : DemoRuns.drive_run.1 = Ok DemoRuns.drive_result.
Proof. vm_compute. reflexivity. Qed.

(** ** Dictionary lookups *)

Lemma dict_get_set_eq k v (d : pydict) : dict_get k (dict_set k v d) = Some v.
Proof.
  induction d as [|[k' v'] d IH]; simpl.
  - by rewrite decide_True.
  - destruct (decide (k' = k)) as [->|Hne]; simpl.
    + by rewrite decide_True.
    + by rewrite decide_False.
Qed.

Lemma dict_get_set_ne k k' v (d : pydict) :
  k <> k' -> dict_get k' (dict_set k v d) = dict_get k' d.
Proof.
  intros Hne. induction d as [|[k0 v0] d IH]; simpl.
  - by rewrite decide_False.
  - destruct (decide (k0 = k)) as [->|Hk]; simpl.
    + by rewrite !decide_False.
    + destruct (decide (k0 = k')); auto.
Qed.

Lemma dict_get_without_eq skip (d : pydict) :
  dict_get skip (dict_without skip d) = None.
Proof.
  unfold dict_without. induction d as [|[k v] d IH]; simpl; [done|].
  rewrite filter_cons. simpl. destruct (decide (k <> skip)) as [Hne|Heq]; simpl.
  - by rewrite decide_False.
  - done.
Qed.

Lemma dict_get_without_ne skip k (d : pydict) :
  k <> skip -> dict_get k (dict_without skip d) = dict_get k d.
Proof.
  intros Hne. unfold dict_without. induction d as [|[k0 v] d IH]; simpl; [done|].
  rewrite filter_cons. simpl. destruct (decide (k0 <> skip)) as [H0|H0]; simpl.
  - destruct (decide (k0 = k)); auto.
  - apply dec_stable in H0. subst k0. by rewrite decide_False.
Qed.

(** ** Inversion of successful runs *)

Lemma rbind_Ok_inv {A B} (r : result A) (k : A -> result B) b :
  rbind r k = Ok b -> exists a, r = Ok a /\ k a = Ok b.
Proof. destruct r as [a|e]; simpl; [eauto|done]. Qed.

Lemma bind_Ok_inv {A B} (m : M A) (k : A -> M B) w b w' :
  bind m k w = (Ok b, w') -> exists a w1, m w = (Ok a, w1) /\ k a w1 = (Ok b, w').
Proof.
  unfold bind. destruct (m w) as [[a|e] w1]; [eauto|]. intros [=].
Qed.

Lemma lift_Ok_inv {A} (r : result A) w a w' :
  lift r w = (Ok a, w') -> r = Ok a /\ w' = w.
Proof. unfold lift. by intros [= -> ->]. Qed.

Lemma ret_Ok_inv {A} (x : A) w a w' :
  ret x w = (Ok a, w') -> a = x /\ w' = w.
Proof. unfold ret. by intros [= -> ->]. Qed.

Lemma mapM_Ok_inv {A B} (f : A -> result B) l l' :
  mapM f l = Ok l' -> Forall2 (fun a b => f a = Ok b) l l'.
Proof.
  revert l'. induction l as [|a l IH]; intros l' Hl; simpl in Hl.
  - injection Hl as <-. constructor.
  - apply rbind_Ok_inv in Hl as (b & Hb & Hl).
    apply rbind_Ok_inv in Hl as (bs & Hbs & Hl).
    injection Hl as <-. constructor; auto.
Qed.

Lemma request_run {env : Externals} c w :
  request c w = (http_json (http_log w) c,
                 {| files := files w; http_log := http_log w ++ [c] |}).
Proof. reflexivity. Qed.

(** ** Deduplication *)

Lemma seen_of_member seen earlier r k :
  seen_of seen earlier -> route_key r = Ok k ->
  k ∈ seen <-> Exists (same_key r) earlier.
Proof.
  intros Hs Hk. rewrite (Hs k), Exists_exists. unfold same_key, key_of.
  rewrite Hk. split.
  - intros (r' & Hin & Hr'). exists r'. by rewrite Hr'.
  - intros (r' & Hin & Hr'). exists r'. split; [done|].
    destruct (route_key r'); congruence.
Qed.

Lemma seen_of_empty : seen_of ∅ [].
Proof.
  intros k. split; [set_solver|]. intros (r & Hin & _). by apply elem_of_nil in Hin.
Qed.

Lemma seen_of_skip seen earlier r k :
  seen_of seen earlier -> route_key r = Ok k -> k ∈ seen ->
  seen_of seen (earlier ++ [r]).
Proof.
  intros Hs Hk Hin k'. rewrite (Hs k'). split.
  - intros (r' & Hr' & Hk'). exists r'. split; [|done]. apply elem_of_app. by left.
  - intros (r' & [Hr'|Hr']%elem_of_app & Hk'); [by exists r'|].
    apply list_elem_of_singleton in Hr'. subst r'.
    assert (k' = k) as -> by congruence. by apply Hs.
Qed.

Lemma seen_of_add seen earlier r k :
  seen_of seen earlier -> route_key r = Ok k ->
  seen_of ({[k]} ∪ seen) (earlier ++ [r]).
Proof.
  intros Hs Hk k'. rewrite elem_of_union, elem_of_singleton, (Hs k'). split.
  - intros [->|(r' & Hr' & Hk')].
    + exists r. split; [|done]. apply elem_of_app. right. by apply list_elem_of_singleton.
    + exists r'. split; [|done]. apply elem_of_app. by left.
  - intros (r' & [Hr'|Hr']%elem_of_app & Hk'); [right; by exists r'|].
    apply list_elem_of_singleton in Hr'. subst r'. left. congruence.
Qed.

(** The loop computes the first occurrences, whatever it has passed before. *)
Lemma remove_duplicates_loop_spec routes :
  forall earlier seen unique,
    Forall keyed routes -> seen_of seen earlier ->
    remove_duplicates_loop routes seen unique
    = Ok (unique ++ first_occurrences earlier routes).
Proof.
  induction routes as [|r rest IH]; intros earlier seen unique Hk Hs; simpl.
  - by rewrite app_nil_r.
  - apply Forall_cons in Hk as [[k Hr] Hrest]. rewrite Hr. simpl.
    pose proof (seen_of_member _ _ _ _ Hs Hr) as Hmem.
    destruct (decide (k ∈ seen)) as [Hin|Hin].
    + rewrite decide_True by (by apply Hmem).
      apply IH; [done|]. by eapply seen_of_skip.
    + rewrite decide_False by (by rewrite <- Hmem).
      rewrite (IH (earlier ++ [r]) ({[k]} ∪ seen) (unique ++ [r])); [|done|].
      * by rewrite <- app_assoc.
      * by apply seen_of_add.
Qed.

(** A loop that returns has read the key of every route. *)
Lemma remove_duplicates_loop_keyed routes :
  forall seen unique out,
    remove_duplicates_loop routes seen unique = Ok out -> Forall keyed routes.
Proof.
  induction routes as [|r rest IH]; intros seen unique out Hout; [constructor|].
  simpl in Hout. destruct (route_key r) as [k|e] eqn:Hr; simpl in Hout; [|done].
  constructor; [by exists k|].
  destruct (decide (k ∈ seen)); eauto.
Qed.

Lemma not_Exists_snoc (r r0 : pydict) earlier :
  ~ Exists (same_key r) (earlier ++ [r0]) <->
  ~ Exists (same_key r) earlier /\ ~ same_key r r0.
Proof.
  rewrite Exists_app, Exists_cons, Exists_nil. tauto.
Qed.

Lemma first_occurrences_new routes :
  forall earlier r,
    r ∈ first_occurrences earlier routes ->
    r ∈ routes /\ ~ Exists (same_key r) earlier.
Proof.
  induction routes as [|r0 rest IH]; intros earlier r Hin; simpl in Hin.
  - by apply elem_of_nil in Hin.
  - destruct (decide (Exists (same_key r0) earlier)) as [Hex|Hex].
    + apply IH in Hin as [Hin Hnew]. apply not_Exists_snoc in Hnew as [Hnew _].
      split; [by right|done].
    + apply elem_of_cons in Hin as [->|Hin]; [split; [by left|done]|].
      apply IH in Hin as [Hin Hnew]. apply not_Exists_snoc in Hnew as [Hnew _].
      split; [by right|done].
Qed.

Lemma first_occurrences_sublist routes :
  forall earlier, sublist (first_occurrences earlier routes) routes.
Proof.
  induction routes as [|r rest IH]; intros earlier; simpl; [constructor|].
  destruct (decide (Exists (same_key r) earlier)).
  - by apply sublist_cons.
  - by apply sublist_skip.
Qed.

Lemma first_occurrences_NoDup routes :
  forall earlier, NoDup (key_of <$> first_occurrences earlier routes).
Proof.
  induction routes as [|r rest IH]; intros earlier; simpl; [constructor|].
  destruct (decide (Exists (same_key r) earlier)); [apply IH|].
  rewrite fmap_cons. constructor; [|apply IH].
  intros (r' & Hkey & Hin)%list_elem_of_fmap.
  apply first_occurrences_new in Hin as [_ Hnew].
  apply not_Exists_snoc in Hnew as [_ Hnew]. by apply Hnew.
Qed.

Lemma first_occurrences_cover routes :
  forall earlier r,
    r ∈ routes ->
    Exists (same_key r) earlier \/
    Exists (same_key r) (first_occurrences earlier routes).
Proof.
  induction routes as [|r0 rest IH]; intros earlier r Hin.
  - by apply elem_of_nil in Hin.
  - simpl. apply elem_of_cons in Hin as [->|Hin].
    + destruct (decide (Exists (same_key r0) earlier)); [by left|].
      right. apply Exists_cons. by left.
    + destruct (IH (earlier ++ [r0]) r Hin) as [Hex|Hex].
      * apply Exists_app in Hex as [Hex|Hex]; [by left|].
        apply Exists_cons in Hex as [Hsame|Hex]; [|by apply Exists_nil in Hex].
        destruct (decide (Exists (same_key r0) earlier)) as [H0|H0].
        -- left. apply Exists_exists in H0 as (r1 & Hr1 & Hs1).
           apply Exists_exists. exists r1. split; [done|].
           unfold same_key in *. congruence.
        -- right. apply Exists_cons. by left.
      * destruct (decide (Exists (same_key r0) earlier)); right; [done|].
        apply Exists_cons. by right.
Qed.

(** A list without duplicates, none of them passed before, is kept whole. *)
Lemma first_occurrences_distinct routes :
  forall earlier,
    NoDup (key_of <$> routes) ->
    (forall r, r ∈ routes -> ~ Exists (same_key r) earlier) ->
    first_occurrences earlier routes = routes.
Proof.
  induction routes as [|r rest IH]; intros earlier Hnd Hnew; simpl; [done|].
  rewrite fmap_cons in Hnd. apply NoDup_cons in Hnd as [Hr Hnd].
  rewrite decide_False by (apply Hnew; by left).
  f_equal. apply IH; [done|].
  intros r' Hin. apply not_Exists_snoc. split; [apply Hnew; by right|].
  intros Hsame. apply Hr. apply list_elem_of_fmap. exists r'. split; [|done].
  symmetry. exact Hsame.
Qed.

Lemma key_of_fields (r : pydict) d t s a b :
  dict_get "distance" r = Some d -> dict_get "duration" r = Some t ->
  dict_get "strategy" r = Some (PStr s) ->
  hashable d = Ok a -> hashable t = Ok b ->
  route_key r = Ok (a, b, AStr s).
Proof.
  intros Hd Ht Hs Ha Hb. unfold route_key, dict_item.
  rewrite Hd, Ht, Hs. simpl. by rewrite Ha, Hb.
Qed.

(** C3: on routes that carry the three key fields, [_remove_duplicates]
    returns exactly the first occurrence of each (distance, duration,
    strategy) key, in input order: the result is a subsequence of the input,
    no two kept routes share a key, and every input route has its key among
    the kept ones.  Two routes that agree on distance and duration are both
    kept when their strategies differ and collapse into the first when their
    strategies are equal. *)
Theorem remove_duplicates_keeps_first_occurrences :
  (forall routes : list pydict,
      Forall keyed routes ->
      let unique := first_occurrences [] routes in
      _remove_duplicates routes = Ok unique
      /\ sublist unique routes
      /\ NoDup (key_of <$> unique)
      /\ (forall r, r ∈ routes -> Exists (same_key r) unique))
  /\ (forall (r1 r2 : pydict) d t s1 s2 a b,
        dict_get "distance" r1 = Some d -> dict_get "distance" r2 = Some d ->
        dict_get "duration" r1 = Some t -> dict_get "duration" r2 = Some t ->
        dict_get "strategy" r1 = Some (PStr s1) ->
        dict_get "strategy" r2 = Some (PStr s2) ->
        hashable d = Ok a -> hashable t = Ok b ->
        _remove_duplicates [r1; r2]
        = Ok (if decide (s1 = s2) then [r1] else [r1; r2])).
Proof.
  split.
  - intros routes Hk unique. repeat split.
    + unfold _remove_duplicates.
      by rewrite (remove_duplicates_loop_spec routes [] ∅ [])
        by (done || apply seen_of_empty).
    + apply first_occurrences_sublist.
    + apply first_occurrences_NoDup.
    + intros r Hin. destruct (first_occurrences_cover routes [] r Hin) as [Hex|Hex]; [|done].
      by apply Exists_nil in Hex.
  - intros r1 r2 d t s1 s2 a b Hd1 Hd2 Ht1 Ht2 Hs1 Hs2 Ha Hb.
    pose proof (key_of_fields r1 d t s1 a b Hd1 Ht1 Hs1 Ha Hb) as K1.
    pose proof (key_of_fields r2 d t s2 a b Hd2 Ht2 Hs2 Ha Hb) as K2.
    unfold _remove_duplicates. simpl. rewrite K1. simpl.
    rewrite decide_False by set_solver. rewrite K2. simpl.
    destruct (decide (s1 = s2)) as [->|Hne].
    + rewrite decide_True by set_solver. done.
    + rewrite decide_False; [done|].
      rewrite elem_of_union, elem_of_singleton. intros [[=]|Hin]; [done|].
      by apply not_elem_of_empty in Hin.
Qed.

(** C4: deduplication is idempotent: applying [_remove_duplicates] to a list
    it returned gives that list back. *)
Theorem remove_duplicates_idempotent (routes unique : list pydict) :
  _remove_duplicates routes = Ok unique ->
  _remove_duplicates unique = Ok unique.
Proof.
  intros Hout. pose proof (remove_duplicates_loop_keyed _ _ _ _ Hout) as Hk.
  unfold _remove_duplicates in *.
  rewrite (remove_duplicates_loop_spec routes [] ∅ []) in Hout
    by (done || apply seen_of_empty).
  simpl in Hout. injection Hout as <-.
  rewrite (remove_duplicates_loop_spec _ [] ∅ []).
  - simpl. f_equal. apply first_occurrences_distinct.
    + apply first_occurrences_NoDup.
    + intros r _ Hex. by apply Exists_nil in Hex.
  - apply Forall_forall. intros r Hin.
    apply first_occurrences_new in Hin as [Hr _].
    rewrite Forall_forall in Hk. by apply Hk.
  - apply seen_of_empty.
Qed.

Lemma fetched_keyed : Forall keyed DemoRuns.fetched.
Proof. repeat constructor; eexists; vm_compute; reflexivity. Defined.

Lemma remove_duplicates_keeps_first_occurrences_witness :
  _remove_duplicates DemoRuns.fetched = Ok DemoRuns.unique
  /\ _remove_duplicates
       [DemoRuns.route "Default" Demo.expressway; DemoRuns.route "No Highways" Demo.back_roads]
     = Ok [DemoRuns.route "Default" Demo.expressway;
           DemoRuns.route "No Highways" Demo.back_roads]
  /\ _remove_duplicates
       [DemoRuns.route "Default" Demo.expressway;
        DemoRuns.route "Default" Demo.expressway_again]
     = Ok [DemoRuns.route "Default" Demo.expressway].
Proof.
  destruct remove_duplicates_keeps_first_occurrences as [Hfirst Hpair].
  split; [|split].
  - destruct (Hfirst DemoRuns.fetched fetched_keyed) as [-> _]. vm_compute. reflexivity.
  - apply (Hpair _ _ (PInt 149234) (PInt 10800) "Default" "No Highways"
             (ANum 74617 1) (ANum 675 4)); reflexivity.
  - apply (Hpair _ _ (PInt 149234) (PInt 10800) "Default" "Default"
             (ANum 74617 1) (ANum 675 4)); reflexivity.
Defined.

Lemma remove_duplicates_idempotent_witness :
  _remove_duplicates DemoRuns.fetched = Ok DemoRuns.unique
  /\ _remove_duplicates DemoRuns.unique = Ok DemoRuns.unique.
Proof.
  assert (_remove_duplicates DemoRuns.fetched = Ok DemoRuns.unique)
    as Hrun by (vm_compute; reflexivity).
  split; [exact Hrun|]. exact (remove_duplicates_idempotent _ _ Hrun).
Defined.

(** ** Numbering *)

Lemma length_renumber i routes : length (renumber i routes) = length routes.
Proof. revert i. induction routes; intros i; simpl; auto. Qed.

Lemma route_numbers_renumber i routes :
  route_numbers (renumber i routes)
  = (fun j => Some (PInt j)) <$> seqZ i (Z.of_nat (length routes)).
Proof.
  revert i. induction routes as [|r rest IH]; intros i; [done|].
  cbn [renumber length]. unfold route_numbers in *. rewrite fmap_cons.
  rewrite dict_get_set_eq, IH.
  rewrite Nat2Z.inj_succ. rewrite (seqZ_cons i) by lia. rewrite fmap_cons.
  f_equal. f_equal. f_equal; lia.
Qed.

(** Pricing adds [fare_info] and leaves the numbers alone. *)
Lemma route_numbers_priced routes mode priced :
  process_routes_with_fares routes mode = Ok priced ->
  route_numbers priced = route_numbers routes.
Proof.
  intros Hp. apply mapM_Ok_inv in Hp. unfold route_numbers.
  induction Hp as [|r r' rest rest' Hr _ IH]; [done|].
  rewrite !fmap_cons, IH. f_equal.
  apply rbind_Ok_inv in Hr as (d & _ & Hr).
  apply rbind_Ok_inv in Hr as (fi & _ & Hr).
  injection Hr as <-. by apply dict_get_set_ne.
Qed.

Lemma length_priced routes mode priced :
  process_routes_with_fares routes mode = Ok priced ->
  length priced = length routes.
Proof. intros Hp. apply mapM_Ok_inv in Hp. symmetry. by eapply Forall2_length. Qed.

Lemma route_numbers_cleaned routes :
  route_numbers (dict_without "polyline" <$> routes) = route_numbers routes.
Proof.
  unfold route_numbers. rewrite <- list_fmap_compose. apply list_fmap_ext.
  intros i r _. simpl. by apply dict_get_without_ne.
Qed.

Section Numbering.
Context {env : Externals}.

Lemma save_routes_data_run routes start end_ origin dest mode filename w :
  save_routes_data routes start end_ origin dest mode filename w
  = match open_for_writing w filename with
    | Ok _ =>
        (Ok filename,
         {| files :=
              <[filename :=
                  JsonFile (PDict
                    [("trip", PDict [("start", start); ("end", end_); ("mode", PStr mode);
                                     ("generated_at", PStr now_isoformat)]);
                     ("routes",
                      PList (PDict <$> (dict_without "polyline" <$> routes)))])]>
                (files w);
            http_log := http_log w |})
    | Err e => (Err e, w)
    end.
Proof.
  unfold save_routes_data, bind, write_file.
  by destruct (open_for_writing w filename).
Qed.

Lemma save_routes_data_Ok routes start end_ origin dest mode filename w f w' :
  save_routes_data routes start end_ origin dest mode filename w = (Ok f, w') ->
  f = filename
  /\ w' = {| files :=
               <[filename :=
                   JsonFile (PDict
                     [("trip", PDict [("start", start); ("end", end_); ("mode", PStr mode);
                                      ("generated_at", PStr now_isoformat)]);
                      ("routes",
                       PList (PDict <$> (dict_without "polyline" <$> routes)))])]>
                 (files w);
             http_log := http_log w |}.
Proof.
  rewrite save_routes_data_run.
  destruct (open_for_writing w filename); [|discriminate]. by intros [= <- <-].
Qed.


Lemma get_all_route_strategies_inv self origin dest mode w routes w' :
  get_all_route_strategies self origin dest mode w = (Ok routes, w') ->
  exists fetched unique,
    _remove_duplicates fetched = Ok unique /\ routes = renumber 1 unique.
Proof.
  unfold get_all_route_strategies. intros Hrun.
  apply bind_Ok_inv in Hrun as (found & w1 & _ & Hrun).
  apply bind_Ok_inv in Hrun as (fetched & w2 & _ & Hrun).
  apply bind_Ok_inv in Hrun as (unique & w3 & Hu & Hrun).
  apply lift_Ok_inv in Hu as [Hu _]. apply ret_Ok_inv in Hrun as [-> _].
  eauto.
Qed.

(** C1: the list [get_all_route_strategies] returns is a deduplicated list
    renumbered, and its [route_number] fields are exactly 1..N in list
    order, N its length; after a successful planning call the routes
    stored in [route_data.json] carry the numbering 1..N as well, with N
    the [routes_found] of the answer. *)
Theorem route_numbers_contiguous :
  (forall self origin dest mode w routes w',
      get_all_route_strategies self origin dest mode w = (Ok routes, w') ->
      (exists fetched unique,
          _remove_duplicates fetched = Ok unique
          /\ routes = renumber 1 unique
          /\ length routes = length unique)
      /\ route_numbers routes = one_to (length routes))
  /\ (forall start_place end_place travel_mode w res w',
        plan_trip_with_routes start_place end_place travel_mode w = (Ok res, w') ->
        exists saved : list pydict,
          stored_routes w' "route_data.json" = Some (PDict <$> saved)
          /\ route_numbers saved = one_to (length saved)
          /\ dict_get "routes_found" res = Some (PInt (Z.of_nat (length saved)))).
Proof.
  split.
  - intros self origin dest mode w routes w' Hrun.
    apply get_all_route_strategies_inv in Hrun as (fetched & unique & Hu & ->).
    split.
    + exists fetched, unique. by rewrite length_renumber.
    + rewrite route_numbers_renumber. by rewrite length_renumber.
  - intros start_place end_place travel_mode w res w'.
    unfold plan_trip_with_routes. intros Hrun.
    destruct GOOGLE_API_KEY as [[|c key]|]; try (cbv [throw] in Hrun; discriminate).
    apply bind_Ok_inv in Hrun as (optimizer & w1 & _ & Hrun).
    apply bind_Ok_inv in Hrun as ([[origin_dict origin_coords] start_fmt] & w2 & _ & Hrun).
    apply bind_Ok_inv in Hrun as ([[dest_dict dest_coords] end_fmt] & w3 & _ & Hrun).
    apply bind_Ok_inv in Hrun as (routes & w4 & Hroutes & Hrun).
    apply bind_Ok_inv in Hrun as (priced & w5 & Hpriced & Hrun).
    apply lift_Ok_inv in Hpriced as [Hpriced ->].
    apply bind_Ok_inv in Hrun as (route_map & w6 & Hmap & Hrun).
    apply lift_Ok_inv in Hmap as [_ ->].
    apply bind_Ok_inv in Hrun as (u & w7 & Hsave & Hrun).
    apply bind_Ok_inv in Hrun as (f & w8 & Hdata & Hrun).
    apply save_routes_data_Ok in Hdata as [_ ->].
    apply ret_Ok_inv in Hrun as [-> ->].
    apply get_all_route_strategies_inv in Hroutes as (fetched & unique & _ & ->).
    exists (dict_without "polyline" <$> priced).
    assert (length priced = length unique) as Hlen.
    { erewrite length_priced by done. apply length_renumber. }
    split; [|split].
    + unfold stored_routes. simpl. by rewrite lookup_insert_eq.
    + rewrite route_numbers_cleaned, length_fmap, Hlen.
      erewrite route_numbers_priced by done.
      rewrite route_numbers_renumber. done.
    + simpl. by rewrite length_fmap.
Qed.

End Numbering.

Lemma route_numbers_contiguous_witness :
  (DemoRuns.strategies_run.1 = Ok (renumber 1 DemoRuns.unique)
   /\ route_numbers (renumber 1 DemoRuns.unique)
      = [Some (PInt 1); Some (PInt 2); Some (PInt 3)])
  /\ (exists saved : list pydict,
        stored_routes DemoRuns.drive_run.2 "route_data.json" = Some (PDict <$> saved)
        /\ route_numbers saved = one_to (length saved)
        /\ dict_get "routes_found" DemoRuns.drive_result
           = Some (PInt (Z.of_nat (length saved)))).
Proof.
  assert (get_all_route_strategies (env := Demo.services)
            Demo.optimizer (PStr "Mumbai, Maharashtra, India")
            (PStr "Pune, Maharashtra, India") DRIVE Demo.empty_world
          = (Ok (renumber 1 DemoRuns.unique), DemoRuns.strategies_run.2))
    as Hrun by (vm_compute; reflexivity).
  assert (plan_trip_with_routes (env := Demo.services) "Mumbai" "Pune" "drive"
            Demo.empty_world
          = (Ok DemoRuns.drive_result, DemoRuns.drive_run.2))
    as Hplan by (vm_compute; reflexivity).
  split.
  - split; [by vm_compute|].
    exact (proj2 (proj1 (route_numbers_contiguous (env := Demo.services))
                    _ _ _ _ _ _ _ Hrun)).
  - exact (proj2 (route_numbers_contiguous (env := Demo.services)) _ _ _ _ _ _ Hplan).
Defined.

(** ** Fares *)

Lemma round_half_even_nearest num den :
  0 < den -> is_nearest num den (round_half_even num den).
Proof.
  intros Hden. unfold is_nearest, round_half_even.
  pose proof (Z.div_mod num den ltac:(lia)) as Hdm.
  pose proof (Z.mod_pos_bound num den Hden) as Hr.
  set (q := num / den) in *. set (r := num mod den) in *.
  destruct (Z.compare_spec (2 * r) den) as [Heq|Hlt|Hgt];
    [destruct (Z.even q)|..]; lia.
Qed.

Lemma magnitude_den_pos x : 0 < (magnitude x).2.
Proof.
  destruct x as [s|s| |s m e]; simpl; try lia.
  destruct (0 <=? e) eqn:He; simpl; [lia|].
  apply Z.pow_pos_nonneg; lia.
Qed.

Lemma scaled_den_pos x ndigits : 0 < (scaled x ndigits).2.
Proof.
  unfold scaled. pose proof (magnitude_den_pos x) as Hm.
  destruct (magnitude x) as [num den]. simpl in *.
  apply Z.mul_pos_pos; [done|]. apply Z.pow_pos_nonneg; lia.
Qed.

(** What [round_] returns is a nearest decimal of its argument. *)
Lemma round_rounds_to x ndigits r :
  NDIGITS_MIN <= ndigits <= NDIGITS_MAX ->
  round_ x ndigits = Ok r -> rounds_to ndigits x r.
Proof.
  intros [Hmin Hmax]. unfold round_, rounds_to.
  destruct (is_finite x); simpl; [|by intros [= <-]].
  destruct (Z.ltb_spec NDIGITS_MAX ndigits); [lia|].
  destruct (Z.ltb_spec ndigits NDIGITS_MIN); [lia|].
  destruct (is_inf (round_decimal x ndigits)); [done|]. intros [= <-].
  unfold round_decimal. pose proof (scaled_den_pos x ndigits) as Hden.
  destruct (scaled x ndigits) as [num den]. simpl in *.
  exists (round_half_even num den). split; [|done].
  by apply round_half_even_nearest.
Qed.

(** C2: with [distance_km] the quotient [distance_meters / 1000] and [km]
    its rounding to 2 decimals, [get_comprehensive_fares] returns
    [distance_km = km] and, for DRIVE, a fares mapping with the one key
    [personal_car] holding [round(distance_km * 7, 0)] and currency INR; for
    TWO_WHEELER the one key [personal_bike] holding [round(distance_km * 3, 0)]
    and currency INR; for every other mode an empty fares mapping.  Each
    rounding yields a nearest decimal: a whole number for the fare, a
    multiple of 0.01 for the distance. *)
Theorem fares_by_mode (distance_meters : pyval) (mode : TravelMode) (distance_km : float) :
  truediv distance_meters (PInt 1000) = Ok distance_km ->
  forall km, round_ distance_km 2 = Ok km ->
    rounds_to 2 distance_km km
    /\ match mode with
       | DRIVE =>
           forall fare, round_ (fmul distance_km (of_Z 7)) 0 = Ok fare ->
             rounds_to 0 (fmul distance_km (of_Z 7)) fare
             /\ get_comprehensive_fares distance_meters mode
                = Ok [("fares", PDict [("personal_car",
                                        PDict [("fare", PFloat fare);
                                               ("currency", PStr "INR")])]);
                      ("distance_km", PFloat km)]
       | TWO_WHEELER =>
           forall fare, round_ (fmul distance_km (of_Z 3)) 0 = Ok fare ->
             rounds_to 0 (fmul distance_km (of_Z 3)) fare
             /\ get_comprehensive_fares distance_meters mode
                = Ok [("fares", PDict [("personal_bike",
                                        PDict [("fare", PFloat fare);
                                               ("currency", PStr "INR")])]);
                      ("distance_km", PFloat km)]
       | _ =>
           get_comprehensive_fares distance_meters mode
           = Ok [("fares", PDict []); ("distance_km", PFloat km)]
       end.
Proof.
  intros Hdiv km Hkm. split.
  { apply round_rounds_to; [by vm_compute|done]. }
  unfold get_comprehensive_fares. rewrite Hdiv. simpl.
  destruct mode; simpl; try (by rewrite Hkm).
  - intros fare Hfare. split.
    { apply round_rounds_to; [by vm_compute|done]. }
    rewrite Hfare. simpl. by rewrite Hkm.
  - intros fare Hfare. split.
    { apply round_rounds_to; [by vm_compute|done]. }
    rewrite Hfare. simpl. by rewrite Hkm.
Qed.

Lemma fares_by_mode_witness :
  get_comprehensive_fares (PInt 149234) DRIVE
  = Ok [("fares", PDict [("personal_car",
                          PDict [("fare", PFloat (of_Z 1045)); ("currency", PStr "INR")])]);
        ("distance_km", PFloat (of_quotient 14923 100))]
  /\ get_comprehensive_fares (PInt 1015) TWO_WHEELER
     = Ok [("fares", PDict [("personal_bike",
                             PDict [("fare", PFloat (of_Z 3)); ("currency", PStr "INR")])]);
           ("distance_km", PFloat (of_quotient 101 100))]
  /\ get_comprehensive_fares (PInt 1015) WALK
     = Ok [("fares", PDict []); ("distance_km", PFloat (of_quotient 101 100))].
Proof.
  split; [|split].
  - apply (fares_by_mode (PInt 149234) DRIVE (of_quotient 149234 1000) eq_refl
             (of_quotient 14923 100) eq_refl).
    reflexivity.
  - apply (fares_by_mode (PInt 1015) TWO_WHEELER (of_quotient 1015 1000) eq_refl
             (of_quotient 101 100) eq_refl).
    reflexivity.
  - apply (fares_by_mode (PInt 1015) WALK (of_quotient 1015 1000) eq_refl
             (of_quotient 101 100) eq_refl).
Defined.

(** ** Fetching routes and geocoding *)

Section Fetching.
Context {env : Externals}.

(** C6, as amended: when the provider answers a directions query with a
    status other than "OK", [_get_routes_google_api] returns the empty
    list of routes; it raises nothing, and the call is its only effect. *)
Theorem non_ok_status_yields_no_routes self origin dest mode avoid strategy w resp status :
  http_json (http_log w) (directions_call self origin dest mode avoid) = Ok resp ->
  getitem resp "status" = Ok status ->
  status <> PStr "OK" ->
  _get_routes_google_api self origin dest mode avoid strategy w
  = (Ok [], {| files := files w;
               http_log := http_log w ++ [directions_call self origin dest mode avoid] |}).
Proof.
  intros Hresp Hstatus Hne. unfold _get_routes_google_api, bind.
  rewrite request_run, Hresp. unfold lift. rewrite Hstatus. simpl.
  destruct status as [| | | |s| |]; try done. simpl.
  rewrite bool_decide_eq_false_2; [done|]. congruence.
Qed.

(** C7: when the geocoding answer has no [results] entry or an empty
    [results] list, [geocode_place] raises an exception that is a
    [LookupError] (a [KeyError] or an [IndexError]); it returns no
    coordinates. *)
Theorem geocode_without_results_is_LookupError self place w (resp : pydict) :
  http_json (http_log w) (geocode_call self place) = Ok (PDict resp) ->
  dict_get "results" resp = None \/ dict_get "results" resp = Some (PList []) ->
  exists e, (geocode_place self place w).1 = Err e
            /\ isinstance e LookupError = true.
Proof.
  intros Hresp Hres. unfold geocode_place, bind.
  rewrite request_run, Hresp. unfold lift. simpl. unfold dict_item.
  destruct Hres as [-> | ->]; simpl; eexists; split; reflexivity.
Qed.

End Fetching.

Lemma non_ok_status_yields_no_routes_witness : DemoRuns.no_tolls_run.1 = Ok [].
Proof.
  unfold DemoRuns.no_tolls_run.
  rewrite (non_ok_status_yields_no_routes (env := Demo.services) Demo.optimizer
             (PStr "Mumbai") (PStr "Pune") "DRIVE" (Some ["tolls"]) "No Tolls"
             Demo.empty_world (Demo.directions "ZERO_RESULTS" []) (PStr "ZERO_RESULTS")
             eq_refl eq_refl ltac:(discriminate)).
  reflexivity.
Defined.

(** C6 as stated fails: the provider answers the no-tolls query with status
    "ZERO_RESULTS", and the fetch returns an empty list instead of raising. *)
Lemma non_ok_status_does_not_raise :
  @http_json Demo.services []
    (directions_call (env := Demo.services) Demo.optimizer (PStr "Mumbai") (PStr "Pune")
       "DRIVE" (Some ["tolls"]))
  = Ok (Demo.directions "ZERO_RESULTS" [])
  /\ DemoRuns.no_tolls_run.1 = Ok []
  /\ ~ is_Err DemoRuns.no_tolls_run.1.
Proof.
  repeat split. intros [e He]. vm_compute in He. discriminate.
Qed.

Lemma geocode_without_results_is_LookupError_witness :
  exists e,
    (geocode_place (env := Demo.services) Demo.optimizer "Atlantis" Demo.empty_world).1 = Err e
    /\ isinstance e LookupError = true.
Proof.
  apply (geocode_without_results_is_LookupError (env := Demo.services) Demo.optimizer
           "Atlantis" Demo.empty_world
           [("results", PList []); ("status", PStr "ZERO_RESULTS")] eq_refl).
  right. reflexivity.
Defined.

(** ** Resolving the travel mode *)

Lemma lookup_member_Some name m :
  lookup_member name members = Some m -> name = value m.
Proof.
  unfold members. simpl. repeat case_decide; intros [= <-]; by subst.
Qed.

(** ** Persistence *)

(** C9: [save_routes_data] succeeds whenever the file opens for writing,
    and reading the file back gives a record whose [routes] list has one
    route per route saved, in order, each without [polyline] and with every
    other field (strategy, distance, duration, distance_text, duration_text,
    fare_info, route_number, summary and any other) as in the original.
    When the file does not open, the error of [open] is raised and nothing
    is written. *)
Theorem persisted_routes_round_trip {env : Externals} (routes : list pydict)
    start end_ origin dest mode filename w :
  let run := save_routes_data routes start end_ origin dest mode filename w in
  (is_Ok (open_for_writing w filename) ->
   run.1 = Ok filename
   /\ exists trip (saved : list pydict),
        load_json filename run.2
        = (Ok (PDict [("trip", trip); ("routes", PList (PDict <$> saved))]), run.2)
        /\ length saved = length routes
        /\ forall (i : nat) (r : pydict),
             routes !! i = Some r ->
             exists r' : pydict,
               saved !! i = Some r'
               /\ dict_get "polyline" r' = None
               /\ forall k, k <> "polyline" -> dict_get k r' = dict_get k r)
  /\ (forall e, open_for_writing w filename = Err e -> run = (Err e, w)).
Proof.
  intros run. subst run. rewrite save_routes_data_run.
  split; [|by intros e ->].
  intros [u Hopen]. rewrite Hopen. simpl. split; [done|].
  eexists _, (dict_without "polyline" <$> routes). split; [|split].
  - unfold load_json. simpl. by rewrite lookup_insert_eq.
  - by rewrite length_fmap.
  - intros i r Hr. exists (dict_without "polyline" r). split; [|split].
    + by rewrite list_lookup_fmap, Hr.
    + apply dict_get_without_eq.
    + intros k Hk. by apply dict_get_without_ne.
Qed.

(** ** The plan-trip endpoint *)

(** C5: what the code does.  When [start_point] or [end_point] is blank the
    handler raises the 400 inside its own [try], the [except Exception]
    clause catches it, and the answer is a 500 wrapping the 400; nothing is
    requested and no file is written. *)
Theorem blank_point_answers_500 {env : Externals} (request : TripRequest) w :
  strip (start_point request) = "" \/ strip (end_point request) = "" ->
  plan_trip request w
  = (Err (RaiseHTTP 500
            (MsgOf "Error planning trip: "
               (RaiseHTTP 400 (Msg "Start point and end point are required")))), w)
  /\ http_status (plan_trip request w).1 = 500.
Proof.
  intros Hblank.
  assert (plan_trip request w
          = (Err (RaiseHTTP 500
                    (MsgOf "Error planning trip: "
                       (RaiseHTTP 400 (Msg "Start point and end point are required")))), w))
    as Hrun.
  { unfold plan_trip, try_except.
    assert (negb (truthy_str (strip (start_point request)))
            || negb (truthy_str (strip (end_point request))) = true) as ->.
    { destruct Hblank as [-> | ->]; simpl; [done|]. by rewrite orb_true_r. }
    reflexivity. }
  split; [done|]. by rewrite Hrun.
Qed.

Lemma blank_point_answers_500_witness :
  http_status (plan_trip (env := Demo.services) DemoRuns.blank_request Demo.empty_world).1
  = 500
  /\ (plan_trip (env := Demo.services) DemoRuns.blank_request Demo.empty_world).2
     = Demo.empty_world.
Proof.
  destruct (blank_point_answers_500 (env := Demo.services) DemoRuns.blank_request
              Demo.empty_world (or_introl eq_refl)) as [Hrun Hstatus].
  split; [exact Hstatus|]. by rewrite Hrun.
Defined.

(** ** The guide generator *)

Lemma getitem_dict_cases (d : pydict) k :
  (exists v, getitem (PDict d) k = Ok v) \/ lookup_failure (getitem (PDict d) k).
Proof.
  simpl. unfold dict_item. destruct (dict_get k d) as [v|]; [left; eauto|].
  right. eexists. split; reflexivity.
Qed.

Lemma getitem_Ok_dict v k x : getitem v k = Ok x -> exists d, v = PDict d.
Proof. destruct v; try done. eauto. Qed.

Lemma rbind_lookup_failure {A B} (r : result A) (k : A -> result B) :
  lookup_failure r -> lookup_failure (rbind r k).
Proof. intros (e & -> & He). by exists e. Qed.

Ltac step_getitem d key :=
  destruct (getitem_dict_cases d key) as [[? ->]|?];
  [cbn [rbind]|by apply rbind_lookup_failure].

(** Reading the main route of such a record fails with a [LookupError],
    whatever would have been done with the fields. *)
Lemma main_route_lookup_fails (data : pyval) :
  getitem data "routes" = Ok (PList [])
  \/ (exists r rest fare_info,
         getitem data "routes" = Ok (PList (r :: rest))
         /\ getitem r "fare_info" = Ok fare_info
         /\ getitem fare_info "fares" = Ok (PDict [])) ->
  forall k : pyval * pyval * pyval * pyval * pyval * pyval -> result (list fragment),
  lookup_failure
    (trip_info <- getitem data "trip" ;;
     routes <- getitem data "routes" ;;
     main_route <- getindex routes 0 ;;
     strategy <- getitem main_route "strategy" ;;
     distance <- getitem main_route "distance_text" ;;
     duration <- getitem main_route "duration_text" ;;
     fare_info <- getitem main_route "fare_info" ;;
     fares <- getitem fare_info "fares" ;;
     amounts <- values_method fares ;;
     first <- list_item 0 amounts ;;
     fare <- getitem first "fare" ;;
     start <- getitem trip_info "start" ;;
     end_ <- getitem trip_info "end" ;;
     k (strategy, distance, duration, fare, start, end_))%result.
Proof.
  intros Hcase k.
  assert (exists d, data = PDict d) as [d ->].
  { destruct Hcase as [Hr|(? & ? & ? & Hr & _)]; by apply getitem_Ok_dict in Hr. }
  step_getitem d "trip".
  destruct Hcase as [-> | (r & rest & fare_info & -> & Hfi & Hfares)]; cbn [rbind].
  - eexists. split; reflexivity.
  - change (getindex (PList (r :: rest)) 0) with (Ok (A := pyval) r). cbn [rbind].
    destruct (getitem_Ok_dict _ _ _ Hfi) as [rd ->].
    step_getitem rd "strategy". step_getitem rd "distance_text".
    step_getitem rd "duration_text".
    rewrite Hfi. cbn [rbind]. rewrite Hfares. cbn [rbind].
    eexists. split; reflexivity.
Qed.

(** C10: when the stored record has an empty [routes] list, or its first
    route has an empty [fares] mapping, [generate_travel_insights_pdf]
    raises (a [LookupError]) and leaves the world as it was: no request to
    the text generator, no PDF.  Every mode other than DRIVE and TWO_WHEELER
    produces such an empty [fares] mapping. *)
Theorem guide_fails_without_fare :
  (forall (env : Externals) json_file_path output_pdf w data,
      files w !! json_file_path = Some (JsonFile data) ->
      getitem data "routes" = Ok (PList [])
      \/ (exists r rest fare_info,
             getitem data "routes" = Ok (PList (r :: rest))
             /\ getitem r "fare_info" = Ok fare_info
             /\ getitem fare_info "fares" = Ok (PDict [])) ->
      exists e,
        generate_travel_insights_pdf json_file_path output_pdf w = (Err e, w)
        /\ isinstance e LookupError = true)
  /\ (forall distance_meters mode info,
        mode <> DRIVE -> mode <> TWO_WHEELER ->
        get_comprehensive_fares distance_meters mode = Ok info ->
        getitem (PDict info) "fares" = Ok (PDict [])).
Proof.
  split.
  - intros env path output w data Hfile Hcase.
    unfold generate_travel_insights_pdf, bind at 1.
    unfold path_exists. rewrite bool_decide_eq_true_2 by (by rewrite Hfile).
    cbn [negb]. unfold bind at 1, load_json. rewrite Hfile.
    unfold bind, lift.
    destruct (main_route_lookup_fails data Hcase
                (fun '(strategy, distance, duration, fare, start, end_) =>
                   Ok (prompt_of strategy distance duration fare start end_)))
      as (e & He & Hlookup).
    exists e. split; [|done]. cbv beta in He. by rewrite He.
  - intros d mode info Hd Ht Hrun. unfold get_comprehensive_fares in Hrun.
    apply rbind_Ok_inv in Hrun as (km & _ & Hrun).
    rewrite decide_False in Hrun by done. rewrite decide_False in Hrun by done.
    cbn [rbind] in Hrun.
    apply rbind_Ok_inv in Hrun as (km2 & _ & Hrun). by injection Hrun as <-.
Qed.

Lemma guide_fails_without_fare_witness :
  exists e,
    generate_travel_insights_pdf (env := Demo.services) "route_data.json" "guide.pdf"
      DemoRuns.walk_world
    = (Err e, DemoRuns.walk_world)
    /\ isinstance e LookupError = true.
Proof.
  apply (proj1 guide_fails_without_fare Demo.services "route_data.json" "guide.pdf"
           DemoRuns.walk_world DemoRuns.walk_record).
  - vm_compute. reflexivity.
  - right. vm_compute. do 3 eexists. repeat split.
Defined.

(** * Further properties of the code *)

(** ** Effects on the world *)

Lemma keeps_files_ret {A} (a : A) : keeps_files (ret a).
Proof. by intros w. Qed.

Lemma keeps_files_lift {A} (r : result A) : keeps_files (lift r).
Proof. by intros w. Qed.

Lemma keeps_files_throw {A} e : keeps_files (throw (A := A) e).
Proof. by intros w. Qed.

Lemma keeps_files_request {env : Externals} c : keeps_files (request c).
Proof. by intros w. Qed.

Lemma keeps_files_bind {A B} (m : M A) (k : A -> M B) :
  keeps_files m -> (forall a, keeps_files (k a)) -> keeps_files (bind m k).
Proof.
  intros Hm Hk w. unfold bind. specialize (Hm w).
  destruct (m w) as [[a|e] w1]; simpl in *; [|done].
  by rewrite (Hk a w1).
Qed.

Lemma keeps_files_run {A} (m : M A) w r w' :
  keeps_files m -> m w = (r, w') -> files w' = files w.
Proof. intros Hm Hrun. specialize (Hm w). by rewrite Hrun in Hm. Qed.

Lemma bind_Err_inv {A B} (m : M A) (k : A -> M B) w e w' :
  bind m k w = (Err e, w') ->
  m w = (Err e, w') \/ exists a w1, m w = (Ok a, w1) /\ k a w1 = (Err e, w').
Proof.
  unfold bind. destruct (m w) as [[a|e0] w1] eqn:Hm; intros Hrun.
  - right. by exists a, w1.
  - left. congruence.
Qed.

Section FetchEffects.
Context {env : Externals}.

Lemma get_routes_world self origin dest mode avoid strategy w :
  (_get_routes_google_api self origin dest mode avoid strategy w).2
  = {| files := files w;
       http_log := http_log w ++ [directions_call self origin dest mode avoid] |}.
Proof.
  unfold _get_routes_google_api, bind. rewrite request_run.
  by destruct (http_json _ _).
Qed.

Lemma geocode_world self place w :
  (geocode_place self place w).2
  = {| files := files w; http_log := http_log w ++ [geocode_call self place] |}.
Proof.
  unfold geocode_place, bind. rewrite request_run.
  by destruct (http_json _ _).
Qed.

Lemma keeps_files_get_routes self origin dest mode avoid strategy :
  keeps_files (_get_routes_google_api self origin dest mode avoid strategy).
Proof. intros w. by rewrite get_routes_world. Qed.

Lemma keeps_files_geocode self place : keeps_files (geocode_place self place).
Proof. intros w. by rewrite geocode_world. Qed.

Lemma keeps_files_strategies self origin dest mode :
  keeps_files (get_all_route_strategies self origin dest mode).
Proof.
  unfold get_all_route_strategies.
  apply keeps_files_bind; [apply keeps_files_get_routes|]. intros found.
  apply keeps_files_bind.
  - case_decide; [|apply keeps_files_ret].
    apply keeps_files_bind; [apply keeps_files_get_routes|]. intros found1.
    apply keeps_files_bind; [apply keeps_files_get_routes|]. intros found2.
    apply keeps_files_ret.
  - intros all. apply keeps_files_bind; [apply keeps_files_lift|].
    intros unique. apply keeps_files_ret.
Qed.

End FetchEffects.

(** ** Deduplication, further *)

Lemma remove_duplicates_loop_error routes :
  forall seen unique e,
    remove_duplicates_loop routes seen unique = Err e ->
    class_of e = KeyError \/ class_of e = TypeError.
Proof.
  induction routes as [|r rest IH]; intros seen unique e Hrun; [done|].
  simpl in Hrun. destruct (route_key r) as [k|e0] eqn:Hr; simpl in Hrun.
  - destruct (decide (k ∈ seen)); eauto.
  - injection Hrun as <-. unfold route_key, dict_item in Hr.
    repeat match type of Hr with
           | context [dict_get ?k ?d] =>
               destruct (dict_get k d); simpl in Hr;
               [|injection Hr as <-; by left]
           end.
    repeat match type of Hr with
           | context [hashable ?v] =>
               destruct v; simpl in Hr;
               try (injection Hr as <-; by right)
           end; done.
Qed.

(** X1: [_remove_duplicates] returns exactly when every route carries the
    three key fields with hashable values, and what it raises otherwise is a
    [KeyError] (a field is missing) or a [TypeError] (a field is a list or a
    dict). *)
Theorem remove_duplicates_returns_iff_keyed (routes : list pydict) :
  (is_Ok (_remove_duplicates routes) <-> Forall keyed routes)
  /\ (forall e, _remove_duplicates routes = Err e ->
                class_of e = KeyError \/ class_of e = TypeError).
Proof.
  split; [split|].
  - intros [out Hout]. by eapply remove_duplicates_loop_keyed.
  - intros Hk. eexists. unfold _remove_duplicates.
    by rewrite (remove_duplicates_loop_spec routes [] ∅ [])
      by (done || apply seen_of_empty).
  - intros e. apply remove_duplicates_loop_error.
Qed.

(** X2: a list whose routes have pairwise different keys comes back
    unchanged. *)
Theorem remove_duplicates_distinct (routes : list pydict) :
  Forall keyed routes -> NoDup (key_of <$> routes) ->
  _remove_duplicates routes = Ok routes.
Proof.
  intros Hk Hnd. unfold _remove_duplicates.
  rewrite (remove_duplicates_loop_spec routes [] ∅ [])
    by (done || apply seen_of_empty).
  simpl. f_equal. apply first_occurrences_distinct; [done|].
  intros r _ Hex. by apply Exists_nil in Hex.
Qed.

Lemma first_occurrences_app l1 :
  forall earlier l2,
    first_occurrences earlier (l1 ++ l2)
    = first_occurrences earlier l1 ++ first_occurrences (earlier ++ l1) l2.
Proof.
  induction l1 as [|r rest IH]; intros earlier l2; simpl.
  - by rewrite app_nil_r.
  - rewrite IH, <- app_assoc. simpl. by destruct (decide _).
Qed.

(** X3: deduplicating one list followed by another keeps the result for
    the first list as a prefix; what follows are routes of the second list,
    in order, none a duplicate of a route of the first. *)
Theorem remove_duplicates_app (l1 l2 u1 : list pydict) :
  _remove_duplicates l1 = Ok u1 -> Forall keyed l2 ->
  exists rest,
    _remove_duplicates (l1 ++ l2) = Ok (u1 ++ rest)
    /\ sublist rest l2
    /\ forall r, r ∈ rest -> ~ Exists (same_key r) l1.
Proof.
  intros H1 Hk2. pose proof (remove_duplicates_loop_keyed _ _ _ _ H1) as Hk1.
  unfold _remove_duplicates in *.
  rewrite (remove_duplicates_loop_spec l1 [] ∅ []) in H1
    by (done || apply seen_of_empty).
  simpl in H1. injection H1 as <-.
  exists (first_occurrences l1 l2). split; [|split].
  - rewrite (remove_duplicates_loop_spec _ [] ∅ []).
    + simpl. by rewrite first_occurrences_app.
    + by apply Forall_app.
    + apply seen_of_empty.
  - apply first_occurrences_sublist.
  - intros r Hin. by apply first_occurrences_new in Hin as [_ Hnew].
Qed.

(** ** Fetching, further *)

Ltac invert_rbinds H :=
  repeat (let x := fresh "x" in
          let Hx := fresh "Hx" in
          apply rbind_Ok_inv in H as (x & Hx & H)).

Lemma normalize_route_shape strategy p r :
  normalize_route strategy p = Ok r ->
  keys r = fetched_fields /\ dict_get "strategy" r = Some (PStr strategy).
Proof.
  unfold normalize_route. intros Hr. invert_rbinds Hr. by injection Hr as <-.
Qed.

Lemma mapM_Forall {A B} (f : A -> result B) (P : B -> Prop) l l' :
  (forall a b, f a = Ok b -> P b) -> mapM f l = Ok l' -> Forall P l'.
Proof.
  intros Hf Hl. apply mapM_Ok_inv in Hl.
  induction Hl; constructor; eauto.
Qed.

Lemma mapM_Exists_Err {A B} (f : A -> result B) l :
  Exists (fun a => is_Err (f a)) l -> is_Err (mapM f l).
Proof.
  induction 1 as [a l [e He]|a l _ [e He]]; simpl.
  - rewrite He. by exists e.
  - destruct (f a) as [b|e0]; simpl; [|by exists e0].
    rewrite He. by exists e.
Qed.

Section FetchShape.
Context {env : Externals}.

Lemma get_routes_shape self origin dest mode avoid strategy w routes :
  (_get_routes_google_api self origin dest mode avoid strategy w).1 = Ok routes ->
  Forall (fun r => keys r = fetched_fields
                   /\ dict_get "strategy" r = Some (PStr strategy)) routes.
Proof.
  unfold _get_routes_google_api, bind. rewrite request_run.
  destruct (http_json _ _) as [resp|e]; [|done]. unfold lift. simpl.
  intros Hrun. apply rbind_Ok_inv in Hrun as (status & _ & Hrun).
  destruct (eq_str status "OK"); [|injection Hrun as <-; constructor].
  apply rbind_Ok_inv in Hrun as (listed & _ & Hrun).
  apply rbind_Ok_inv in Hrun as (rs & _ & Hrun).
  eapply mapM_Forall; [|done]. apply normalize_route_shape.
Qed.

Lemma get_routes_run self origin dest mode avoid strategy w r w' :
  _get_routes_google_api self origin dest mode avoid strategy w = (r, w') ->
  w' = {| files := files w;
          http_log := http_log w ++ [directions_call self origin dest mode avoid] |}
  /\ forall routes, r = Ok routes ->
       Forall (fun r => keys r = fetched_fields
                        /\ dict_get "strategy" r = Some (PStr strategy)) routes.
Proof.
  intros Hrun.
  pose proof (get_routes_world self origin dest mode avoid strategy w) as Hw.
  pose proof (get_routes_shape self origin dest mode avoid strategy w) as Hr.
  rewrite Hrun in Hw, Hr. simpl in *. split; [done|]. intros routes ->. by apply Hr.
Qed.

(** X4: whatever the provider answers, [_get_routes_google_api] makes
    exactly one request and touches no file; when it returns, every route
    has the seven fields summary, distance, duration, distance_text,
    duration_text, polyline, strategy, in this order, and carries the
    strategy it was asked under. *)
Theorem fetched_routes_are_tagged self origin dest mode avoid strategy w :
  (_get_routes_google_api self origin dest mode avoid strategy w).2
  = {| files := files w;
       http_log := http_log w ++ [directions_call self origin dest mode avoid] |}
  /\ forall routes,
       (_get_routes_google_api self origin dest mode avoid strategy w).1 = Ok routes ->
       Forall (fun r => keys r = fetched_fields
                        /\ dict_get "strategy" r = Some (PStr strategy)) routes.
Proof.
  split; [apply get_routes_world|]. intros routes. apply get_routes_shape.
Qed.

Lemma normalize_route_without_legs strategy (d : pydict) :
  dict_get "legs" d = None \/ dict_get "legs" d = Some (PList []) ->
  lookup_failure (normalize_route strategy (PDict d)).
Proof.
  intros Hlegs. unfold normalize_route. simpl. unfold dict_item.
  destruct Hlegs as [-> | ->]; simpl; eexists; split; reflexivity.
Qed.

(** X5: one malformed alternative discards them all: when the provider
    answers "OK" and some route of its list has no [legs] entry, or an empty
    one, the fetch raises and yields no route at all. *)
Theorem malformed_alternative_fails_the_fetch self origin dest mode avoid strategy w
    resp (listed : list pyval) :
  http_json (http_log w) (directions_call self origin dest mode avoid) = Ok resp ->
  getitem resp "status" = Ok (PStr "OK") ->
  getitem resp "routes" = Ok (PList listed) ->
  Exists (fun p => exists d, p = PDict d
                             /\ (dict_get "legs" d = None
                                 \/ dict_get "legs" d = Some (PList []))) listed ->
  is_Err (_get_routes_google_api self origin dest mode avoid strategy w).1.
Proof.
  intros Hresp Hstatus Hlisted Hbad.
  unfold _get_routes_google_api, bind. rewrite request_run, Hresp.
  unfold lift. simpl. rewrite Hstatus. simpl. rewrite Hlisted. simpl.
  apply mapM_Exists_Err. eapply Exists_impl; [exact Hbad|].
  intros p (d & -> & Hlegs).
  destruct (normalize_route_without_legs strategy d Hlegs) as (e & He & _).
  by exists e.
Qed.

End FetchShape.

(** ** The strategies of a planning call *)

(** Closed decidable facts, by evaluation. *)
Ltac by_computation := apply (bool_decide_unpack _); by vm_compute.

Lemma keys_dict_set_new k v (d : pydict) :
  k ∉ keys d -> keys (dict_set k v d) = keys d ++ [k].
Proof.
  unfold keys. induction d as [|[k' v'] d IH]; [done|].
  rewrite fmap_cons. intros Hnot. apply not_elem_of_cons in Hnot as [Hne Hnot].
  cbn [dict_set]. rewrite decide_False by done. rewrite fmap_cons, IH by done.
  done.
Qed.

Lemma keys_dict_without skip (d : pydict) :
  keys (dict_without skip d) = filter (fun k => k <> skip) (keys d).
Proof.
  unfold keys, dict_without. induction d as [|[k v] d IH]; [done|].
  rewrite fmap_cons, !filter_cons. cbn [fst].
  destruct (decide (k <> skip)); [rewrite fmap_cons|]; by rewrite IH.
Qed.

Lemma remove_duplicates_subset (routes unique : list pydict) :
  _remove_duplicates routes = Ok unique -> forall r, r ∈ unique -> r ∈ routes.
Proof.
  intros Hout r Hin. pose proof (remove_duplicates_loop_keyed _ _ _ _ Hout) as Hk.
  unfold _remove_duplicates in Hout.
  rewrite (remove_duplicates_loop_spec routes [] ∅ []) in Hout
    by (done || apply seen_of_empty).
  simpl in Hout. injection Hout as <-.
  by apply first_occurrences_new in Hin as [Hin _].
Qed.

Lemma renumber_Forall (P Q : pydict -> Prop) i routes :
  (forall j r, P r -> Q (dict_set "route_number" (PInt j) r)) ->
  Forall P routes -> Forall Q (renumber i routes).
Proof.
  intros HPQ HP. revert i. induction HP; intros i; simpl; constructor; eauto.
Qed.

Section Strategies.
Context {env : Externals}.

(** The routes the queries return, before deduplication, with the world the
    queries leave. *)
Lemma get_all_route_strategies_fetch self origin dest mode w routes w' :
  get_all_route_strategies self origin dest mode w = (Ok routes, w') ->
  w' = {| files := files w;
          http_log := http_log w ++ strategy_calls self origin dest mode |}
  /\ exists fetched unique,
       _remove_duplicates fetched = Ok unique
       /\ routes = renumber 1 unique
       /\ Forall (fun r => keys r = fetched_fields
                           /\ exists s, dict_get "strategy" r = Some (PStr s)
                                        /\ s ∈ (strategies_for mode).*1) fetched.
Proof.
  unfold get_all_route_strategies, strategy_calls, strategies_for. intros Hrun.
  apply bind_Ok_inv in Hrun as (found & w1 & Hfound & Hrun).
  apply get_routes_run in Hfound as [-> Hshape]. specialize (Hshape _ eq_refl).
  apply bind_Ok_inv in Hrun as (fetched & w2 & Hfetched & Hrun).
  apply bind_Ok_inv in Hrun as (unique & w3 & Hu & Hrun).
  apply lift_Ok_inv in Hu as [Hu ->]. apply ret_Ok_inv in Hrun as [-> ->].
  destruct (decide (mode = DRIVE)) as [->|Hmode].
  - apply bind_Ok_inv in Hfetched as (found1 & w4 & Hfound1 & Hfetched).
    apply get_routes_run in Hfound1 as [-> Hshape1]. specialize (Hshape1 _ eq_refl).
    apply bind_Ok_inv in Hfetched as (found2 & w5 & Hfound2 & Hfetched).
    apply get_routes_run in Hfound2 as [-> Hshape2]. specialize (Hshape2 _ eq_refl).
    apply ret_Ok_inv in Hfetched as [-> ->]. simpl. split.
    + f_equal. by rewrite <- !app_assoc.
    + exists ((found ++ found1) ++ found2), unique. split; [done|]. split; [done|].
      rewrite !Forall_app. repeat split.
      * eapply Forall_impl; [exact Hshape|]. intros r [? ?]. split; [done|].
        exists "Default". split; [done|]. by_computation.
      * eapply Forall_impl; [exact Hshape1|]. intros r [? ?]. split; [done|].
        exists "No Highways". split; [done|]. by_computation.
      * eapply Forall_impl; [exact Hshape2|]. intros r [? ?]. split; [done|].
        exists "No Tolls". split; [done|]. by_computation.
  - apply ret_Ok_inv in Hfetched as [-> ->]. simpl. split; [done|].
    exists found, unique. split; [done|]. split; [done|].
    eapply Forall_impl; [exact Hshape|]. intros r [? ?]. split; [done|].
    exists "Default". split; [done|]. by_computation.
Qed.

Lemma strategies_shape self origin dest mode w routes w' :
  get_all_route_strategies self origin dest mode w = (Ok routes, w') ->
  Forall (fun r => keys r = fetched_fields ++ ["route_number"]
                   /\ exists s, dict_get "strategy" r = Some (PStr s)
                                /\ s ∈ (strategies_for mode).*1) routes.
Proof.
  intros Hrun.
  apply get_all_route_strategies_fetch in Hrun as (_ & fetched & unique & Hu & -> & Hf).
  eapply renumber_Forall; [|eapply Forall_forall; intros r Hin;
    apply (remove_duplicates_subset _ _ Hu) in Hin;
    rewrite Forall_forall in Hf; exact (Hf r Hin)].
  intros j r (Hkeys & s & Hs & Hin). split.
  - rewrite keys_dict_set_new, Hkeys; [done|]. rewrite Hkeys. by_computation.
  - exists s. split; [|done]. by rewrite dict_get_set_ne.
Qed.

(** X6: [get_all_route_strategies] never touches a file, and when it
    returns it has sent the "Default" query, followed for DRIVE, and for
    DRIVE only, by the query avoiding highways and the query avoiding tolls:
    three requests for DRIVE, one for every other mode. *)
Theorem strategy_queries_sent self origin dest mode w :
  files (get_all_route_strategies self origin dest mode w).2 = files w
  /\ forall routes,
       (get_all_route_strategies self origin dest mode w).1 = Ok routes ->
       http_log (get_all_route_strategies self origin dest mode w).2
       = http_log w ++ strategy_calls self origin dest mode
       /\ length (strategy_calls self origin dest mode)
          = (if decide (mode = DRIVE) then 3 else 1)%nat.
Proof.
  split; [apply keeps_files_strategies|]. intros routes Hrun.
  destruct (get_all_route_strategies self origin dest mode w) as [r w'] eqn:Hr.
  simpl in *. subst r.
  apply get_all_route_strategies_fetch in Hr as [-> _]. simpl. split; [done|].
  unfold strategy_calls, strategies_for. by destruct (decide (mode = DRIVE)).
Qed.

(** X7: every route [get_all_route_strategies] returns has the seven
    fetched fields followed by [route_number], and its strategy is one that
    was queried for the mode: always "Default" unless the mode is DRIVE. *)
Theorem returned_routes_shape self origin dest mode w routes w' :
  get_all_route_strategies self origin dest mode w = (Ok routes, w') ->
  Forall (fun r => keys r = fetched_fields ++ ["route_number"]
                   /\ exists s, dict_get "strategy" r = Some (PStr s)
                                /\ s ∈ (strategies_for mode).*1
                                /\ (mode <> DRIVE -> s = "Default")) routes.
Proof.
  intros Hrun. eapply Forall_impl; [by eapply strategies_shape|].
  intros r (Hkeys & s & Hs & Hin). split; [done|]. exists s. repeat split; try done.
  intros Hmode. unfold strategies_for in Hin. rewrite decide_False in Hin by done.
  by apply list_elem_of_singleton in Hin.
Qed.

End Strategies.

(** ** Pricing, geocoding and drawing *)

(** X8: a distance that is not a number (None, a string, a list or a
    dict) makes [get_comprehensive_fares] raise a [TypeError], whatever the
    mode. *)
Theorem fares_need_a_number (distance_meters : pyval) (mode : TravelMode) :
  as_number distance_meters = None ->
  exists msg, get_comprehensive_fares distance_meters mode = Err (Raise TypeError msg).
Proof.
  intros Hnum. unfold get_comprehensive_fares, truediv. rewrite Hnum. by eexists.
Qed.

Lemma fares_need_a_number_witness :
  exists msg, get_comprehensive_fares (PStr "149 km") DRIVE = Err (Raise TypeError msg).
Proof. apply fares_need_a_number. reflexivity. Defined.

Lemma priced_route (mode : TravelMode) (r p : pydict) :
  (distance <- dict_item "distance" r ;;
   fare_info <- get_comprehensive_fares distance mode ;;
   Ok (dict_set "fare_info" (PDict fare_info) r))%result = Ok p ->
  exists distance fare_info,
    dict_get "distance" r = Some distance
    /\ get_comprehensive_fares distance mode = Ok fare_info
    /\ p = dict_set "fare_info" (PDict fare_info) r.
Proof.
  intros Hp. apply rbind_Ok_inv in Hp as (d & Hd & Hp).
  apply rbind_Ok_inv in Hp as (fi & Hfi & Hp). injection Hp as <-.
  exists d, fi. split; [|done]. unfold dict_item in Hd.
  destruct (dict_get "distance" r); [by injection Hd as ->|done].
Qed.

(** X9: when [process_routes_with_fares] returns, it returns one route
    per route given, in order; each has every field other than [fare_info]
    as before, and its [fare_info] is what [get_comprehensive_fares] returns
    for its distance and the mode. *)
Theorem pricing_adds_fare_info (routes priced : list pydict) (mode : TravelMode) :
  process_routes_with_fares routes mode = Ok priced ->
  Forall2 (fun r p =>
             (forall k, k <> "fare_info" -> dict_get k p = dict_get k r)
             /\ exists distance fare_info,
                  dict_get "distance" r = Some distance
                  /\ get_comprehensive_fares distance mode = Ok fare_info
                  /\ dict_get "fare_info" p = Some (PDict fare_info))
          routes priced.
Proof.
  intros Hp. apply mapM_Ok_inv in Hp.
  eapply Forall2_impl; [exact Hp|]. intros r p Hr. simpl in Hr.
  apply priced_route in Hr as (d & fi & Hd & Hfi & ->). split.
  - intros k Hk. by apply dict_get_set_ne.
  - exists d, fi. by rewrite dict_get_set_eq.
Qed.

(** X10: one route without a [distance] fails the pricing of all of
    them. *)
Theorem pricing_needs_every_distance (routes : list pydict) (mode : TravelMode) :
  Exists (fun r => dict_get "distance" r = None) routes ->
  is_Err (process_routes_with_fares routes mode).
Proof.
  intros Hbad. unfold process_routes_with_fares. apply mapM_Exists_Err.
  eapply Exists_impl; [exact Hbad|]. intros r Hr. simpl.
  unfold dict_item. rewrite Hr. by eexists.
Qed.

Section Geocoding.
Context {env : Externals}.

(** X11: when the geocoder answers with a non-empty [results] list,
    [geocode_place] reads the first result only: it returns that result's
    formatted address and the latitude and longitude of its location, the
    same pair as a dict and as a tuple, after one request. *)
Theorem geocode_reads_first_result self place w resp first others geometry location
    lat lng address :
  http_json (http_log w) (geocode_call self place) = Ok resp ->
  getitem resp "results" = Ok (PList (first :: others)) ->
  getitem first "geometry" = Ok geometry ->
  getitem geometry "location" = Ok location ->
  getitem location "lat" = Ok lat ->
  getitem location "lng" = Ok lng ->
  getitem first "formatted_address" = Ok address ->
  geocode_place self place w
  = (Ok ([("lat", lat); ("lng", lng)], (lat, lng), address),
     {| files := files w; http_log := http_log w ++ [geocode_call self place] |}).
Proof.
  intros Hresp Hres Hgeo Hloc Hlat Hlng Haddr.
  unfold geocode_place, bind. rewrite request_run, Hresp. unfold lift.
  repeat (first [rewrite Hres | rewrite Hgeo | rewrite Hloc | rewrite Hlat
                 | rewrite Hlng | rewrite Haddr
                 | progress change (getindex (PList (first :: others)) 0)
                     with (Ok (A := pyval) first)];
          cbn [rbind]).
  done.
Qed.

End Geocoding.

Section Drawing.
Context {env : Externals}.

Lemma draw_routes_lines routes :
  forall (i : nat) lines,
    Forall (fun r => dict_has "polyline" r = true) routes ->
    draw_routes (Z.of_nat i) routes = Ok lines ->
    length lines = length routes
    /\ forall (j : nat) line r,
         lines !! j = Some line -> routes !! j = Some r ->
         colors !! ((i + j) mod 4)%nat = Some (line_color line)
         /\ exists number text,
              dict_get "route_number" r = Some number
              /\ dict_get "distance_text" r = Some text
              /\ line_tooltip line = [Lit "Route "; Fmt number; Lit ": "; Fmt text].
Proof.
  induction routes as [|r rest IH]; intros i lines Hall Hdraw.
  - injection Hdraw as <-. split; [done|]. by intros [|j].
  - apply Forall_cons in Hall as [Hr Hrest]. cbn [draw_routes] in Hdraw.
    rewrite Hr in Hdraw.
    apply rbind_Ok_inv in Hdraw as (encoded & _ & Hdraw).
    apply rbind_Ok_inv in Hdraw as (path & _ & Hdraw).
    apply rbind_Ok_inv in Hdraw as (color & Hcolor & Hdraw).
    apply rbind_Ok_inv in Hdraw as (number & Hnumber & Hdraw).
    apply rbind_Ok_inv in Hdraw as (text & Htext & Hdraw).
    apply rbind_Ok_inv in Hdraw as (u & _ & Hdraw).
    apply rbind_Ok_inv in Hdraw as (lines' & Hlines' & Hdraw).
    injection Hdraw as <-.
    replace (Z.of_nat i + 1) with (Z.of_nat (S i)) in Hlines' by lia.
    destruct (IH (S i) lines' Hrest Hlines') as [Hlen Hrec].
    split; [simpl; by rewrite Hlen|].
    intros [|j] line r' Hline Hr'; simpl in Hline, Hr'.
    + injection Hline as <-. injection Hr' as <-. cbn [line_color line_tooltip]. split.
      * unfold list_item in Hcolor. simpl in Hcolor.
        change (Z.of_nat 4) with 4 in Hcolor.
        assert (0 <= Z.of_nat i mod 4 < 4) as Hmod by (apply Z.mod_pos_bound; lia).
        destruct (Z.ltb_spec (Z.of_nat i mod 4) 0); [lia|].
        destruct (Z.ltb_spec (Z.of_nat i mod 4) 0); [lia|].
        rewrite Nat.add_0_r.
        replace (i mod 4)%nat with (Z.to_nat (Z.of_nat i mod 4))
          by (rewrite <- (Nat2Z.id (i mod 4)); f_equal;
              by rewrite Nat2Z.inj_mod).
        destruct (colors !! Z.to_nat (Z.of_nat i mod 4)) as [c|]; [|done].
        congruence.
      * unfold dict_item in Hnumber, Htext.
        destruct (dict_get "route_number" r); [injection Hnumber as ->|done].
        destruct (dict_get "distance_text" r); [injection Htext as ->|done].
        by exists number, text.
    + replace (i + S j)%nat with (S i + j)%nat by lia. by eapply Hrec.
Qed.

(** X12: when every route has a polyline and the map is built, it has
    the two markers "Start" at the origin and "End" at the destination and
    one line per route, in order; the line of the route at position [j] has
    the colour [j mod 4] of the palette blue, red, green, purple, and the
    label "Route <route_number>: <distance_text>". *)
Theorem map_lines_cycle_colours origin dest (routes : list pydict) start_place
    end_place m :
  Forall (fun r => dict_has "polyline" r = true) routes ->
  create_comprehensive_map origin dest routes start_place end_place = Ok m ->
  map_markers m = [{| marker_at := origin; marker_tooltip := "Start" |};
                   {| marker_at := dest; marker_tooltip := "End" |}]
  /\ length (map_lines m) = length routes
  /\ forall (j : nat) line r,
       map_lines m !! j = Some line -> routes !! j = Some r ->
       colors !! (j mod 4)%nat = Some (line_color line)
       /\ exists number text,
            dict_get "route_number" r = Some number
            /\ dict_get "distance_text" r = Some text
            /\ line_tooltip line = [Lit "Route "; Fmt number; Lit ": "; Fmt text].
Proof.
  intros Hall Hmap. unfold create_comprehensive_map in Hmap.
  invert_rbinds Hmap. injection Hmap as <-. simpl.
  match goal with
  | H : draw_routes 0 routes = Ok ?l |- _ =>
      destruct (draw_routes_lines routes 0 l Hall H) as [Hlen Hlines]
  end.
  repeat split; try done. all: by eapply Hlines.
Qed.

End Drawing.

(** ** The planning call as a whole *)

(** Everything that can be raised is caught by [except Exception]. *)
Lemma isinstance_Exception e : isinstance e Exception = true.
Proof. destruct e as [c msg|code detail]; [by destruct c|done]. Qed.

Lemma mapM_Forall2 {A B} (f : A -> result B) (P : A -> Prop) (Q : B -> Prop) l l' :
  (forall a b, P a -> f a = Ok b -> Q b) -> Forall P l -> mapM f l = Ok l' ->
  Forall Q l'.
Proof.
  intros Hf HP Hl. apply mapM_Ok_inv in Hl.
  induction Hl; [constructor|]. apply Forall_cons in HP as [? ?].
  constructor; eauto.
Qed.

Section PlanningCall.
Context {env : Externals}.

Lemma keeps_files_init key : keeps_files (init key).
Proof.
  unfold init. apply keeps_files_bind; [apply keeps_files_lift|].
  intros _. apply keeps_files_ret.
Qed.

Lemma write_file_Ok path f w u w' :
  write_file path f w = (Ok u, w') ->
  w' = {| files := <[path := f]> (files w); http_log := http_log w |}.
Proof.
  unfold write_file. destruct (open_for_writing w path); [|discriminate].
  by intros [= _ <-].
Qed.


Lemma save_map_files m path w u w' :
  save_map m path w = (Ok u, w') ->
  w' = {| files := <[path := HtmlFile m]> (files w); http_log := http_log w |}.
Proof.
  unfold save_map. intros Hrun.
  apply bind_Ok_inv in Hrun as (? & w1 & Hl & Hrun).
  apply lift_Ok_inv in Hl as [_ ->]. by apply write_file_Ok in Hrun.
Qed.


Lemma init_Ok key w self w' :
  init key w = (Ok self, w') -> self = {| api_key := key |} /\ w' = w.
Proof.
  unfold init. intros Hrun.
  apply bind_Ok_inv in Hrun as (u & w1 & Hl & Hrun).
  apply lift_Ok_inv in Hl as [_ ->]. by apply ret_Ok_inv in Hrun as [<- <-].
Qed.

Lemma geocode_place_Ok self place w r w' :
  geocode_place self place w = (Ok r, w') ->
  w' = {| files := files w; http_log := http_log w ++ [geocode_call self place] |}.
Proof. intros Hrun. pose proof (geocode_world self place w) as Hw. by rewrite Hrun in Hw. Qed.

(** What a successful planning call has done, step by step. *)
Lemma plan_trip_with_routes_success start_place end_place travel_mode w res w' :
  plan_trip_with_routes start_place end_place travel_mode w = (Ok res, w') ->
  exists start_fmt end_fmt (saved : list pydict) m,
    res = [("map_file", PStr "routes_map.html"); ("data_file", PStr "route_data.json");
           ("routes_found", PInt (Z.of_nat (length saved)))]
    /\ files w'
       = <["route_data.json" :=
             JsonFile (PDict
               [("trip", PDict [("start", start_fmt); ("end", end_fmt);
                                ("mode", PStr (value (mode_enum_of travel_mode)));
                                ("generated_at", PStr now_isoformat)]);
                ("routes", PList (PDict <$> saved))])]>
           (<["routes_map.html" := HtmlFile m]> (files w))
    /\ Forall (fun r => keys r = stored_fields) saved.
Proof.
  unfold plan_trip_with_routes. intros Hrun.
  destruct GOOGLE_API_KEY as [[|c key]|]; try (cbv [throw] in Hrun; discriminate).
  apply bind_Ok_inv in Hrun as (optimizer & w1 & H1 & Hrun).
  apply (keeps_files_run _ _ _ _ (keeps_files_init _)) in H1.
  apply bind_Ok_inv in Hrun as ([[origin_dict origin_coords] start_fmt] & w2 & H2 & Hrun).
  apply (keeps_files_run _ _ _ _ (keeps_files_geocode _ _)) in H2.
  apply bind_Ok_inv in Hrun as ([[dest_dict dest_coords] end_fmt] & w3 & H3 & Hrun).
  apply (keeps_files_run _ _ _ _ (keeps_files_geocode _ _)) in H3.
  apply bind_Ok_inv in Hrun as (routes & w4 & Hroutes & Hrun).
  pose proof (keeps_files_run _ _ _ _ (keeps_files_strategies _ _ _ _) Hroutes) as H4.
  apply strategies_shape in Hroutes.
  apply bind_Ok_inv in Hrun as (priced & w5 & Hpriced & Hrun).
  apply lift_Ok_inv in Hpriced as [Hpriced ->].
  apply bind_Ok_inv in Hrun as (route_map & w6 & Hmap & Hrun).
  apply lift_Ok_inv in Hmap as [_ ->].
  apply bind_Ok_inv in Hrun as (u & w7 & Hsave & Hrun).
  apply save_map_files in Hsave.
  apply bind_Ok_inv in Hrun as (f & w8 & Hdata & Hrun).
  apply save_routes_data_Ok in Hdata as [_ ->].
  apply ret_Ok_inv in Hrun as [-> ->].
  exists start_fmt, end_fmt, (dict_without "polyline" <$> priced), route_map.
  split; [|split].
  - by rewrite length_fmap.
  - rewrite Hsave. simpl. by rewrite H4, H3, H2, H1.
  - apply Forall_fmap. unfold process_routes_with_fares in Hpriced.
    eapply mapM_Forall2; [|exact Hroutes|exact Hpriced].
    intros r p (Hkeys & _) Hp. apply priced_route in Hp as (d & fi & _ & _ & ->).
    simpl. rewrite keys_dict_without, keys_dict_set_new, Hkeys; [done|].
    rewrite Hkeys. by_computation.
Qed.

(** How a planning call that returns has used the mode it resolved. *)
Lemma plan_trip_with_routes_mode start_place end_place travel_mode w res w' :
  plan_trip_with_routes start_place end_place travel_mode w = (Ok res, w') ->
  planned_with (mode_enum_of travel_mode) start_place end_place w w'.
Proof.
  unfold plan_trip_with_routes. intros Hrun.
  destruct GOOGLE_API_KEY as [[|c key]|] eqn:Hkey;
    try (cbv [throw] in Hrun; discriminate).
  apply bind_Ok_inv in Hrun as (optimizer & w1 & H1 & Hrun).
  apply init_Ok in H1 as [-> ->].
  apply bind_Ok_inv in Hrun as ([[origin_dict origin_coords] start_fmt] & w2 & H2 & Hrun).
  apply geocode_place_Ok in H2 as ->.
  apply bind_Ok_inv in Hrun as ([[dest_dict dest_coords] end_fmt] & w3 & H3 & Hrun).
  apply geocode_place_Ok in H3 as ->.
  apply bind_Ok_inv in Hrun as (routes & w4 & Hroutes & Hrun).
  apply get_all_route_strategies_fetch in Hroutes as [-> _].
  apply bind_Ok_inv in Hrun as (priced & w5 & Hpriced & Hrun).
  apply lift_Ok_inv in Hpriced as [Hpriced ->].
  apply bind_Ok_inv in Hrun as (route_map & w6 & Hmap & Hrun).
  apply lift_Ok_inv in Hmap as [_ ->].
  apply bind_Ok_inv in Hrun as (u & w7 & Hsave & Hrun).
  apply save_map_files in Hsave as ->.
  apply bind_Ok_inv in Hrun as (f & w8 & Hdata & Hrun).
  apply save_routes_data_Ok in Hdata as [_ ->].
  apply ret_Ok_inv in Hrun as [_ ->].
  exists (String c key), start_fmt, end_fmt, (dict_without "polyline" <$> priced).
  cbn [files http_log]. split; [done|]. split; [|split].
  - by rewrite <- !app_assoc.
  - by rewrite lookup_insert_eq.
  - apply Forall_fmap. unfold process_routes_with_fares in Hpriced.
    eapply (mapM_Forall2 _ (fun _ => True)); [|by apply Forall_true|exact Hpriced].
    intros r p _ Hp. apply priced_route in Hp as (d & fi & Hd & Hfi & ->).
    exists d, fi. cbn [compose]. split; [|split; [done|]].
    + rewrite dict_get_without_ne by done. by rewrite dict_get_set_ne.
    + rewrite dict_get_without_ne by done. by rewrite dict_get_set_eq.
Qed.

(** C8: a [travel_mode] whose upper-cased form is the name of no member
    resolves to DRIVE: the planning call does exactly what it does for
    "DRIVE" (nothing is raised for the value), and when it returns it has
    sent the DRIVE queries, priced the routes for DRIVE and stored "DRIVE"
    as the mode.  A [travel_mode] whose upper-cased form is the name of a
    member resolves to that member, and a planning call that returns has
    worked with that member. *)
Theorem unrecognized_mode_defaults_to_DRIVE start_place end_place travel_mode w :
  ((forall m, upper travel_mode <> value m) ->
   mode_enum_of travel_mode = DRIVE
   /\ plan_trip_with_routes start_place end_place travel_mode w
      = plan_trip_with_routes start_place end_place "DRIVE" w
   /\ forall res w',
        plan_trip_with_routes start_place end_place travel_mode w = (Ok res, w') ->
        planned_with DRIVE start_place end_place w w')
  /\ (forall m,
        upper travel_mode = value m ->
        mode_enum_of travel_mode = m
        /\ forall res w',
             plan_trip_with_routes start_place end_place travel_mode w = (Ok res, w') ->
             planned_with m start_place end_place w w').
Proof.
  split.
  - intros Hnot.
    assert (mode_enum_of travel_mode = DRIVE) as Hmode.
    { unfold mode_enum_of, getattr_TravelMode.
      destruct (lookup_member (upper travel_mode) members) as [m|] eqn:Hm; [|done].
      apply lookup_member_Some in Hm. by destruct (Hnot m). }
    split; [done|]. split.
    + unfold plan_trip_with_routes. rewrite Hmode.
      by change (mode_enum_of "DRIVE") with DRIVE.
    + intros res w' Hrun. rewrite <- Hmode. by eapply plan_trip_with_routes_mode.
  - intros m Hm.
    assert (mode_enum_of travel_mode = m) as Hmode.
    { unfold mode_enum_of. rewrite Hm. by destruct m. }
    split; [done|].
    intros res w' Hrun. rewrite <- Hmode. by eapply plan_trip_with_routes_mode.
Qed.


(** X14: a planning call that returns has written exactly two files,
    the map [routes_map.html] and the record [route_data.json]; every other
    path holds what it held.  It returns these two names and the number of
    routes stored, and the record's trip carries the name of the resolved
    mode and the clock's timestamp. *)
Theorem planning_writes_two_files start_place end_place travel_mode w res w' :
  plan_trip_with_routes start_place end_place travel_mode w = (Ok res, w') ->
  exists start_fmt end_fmt (saved : list pydict) m,
    res = [("map_file", PStr "routes_map.html"); ("data_file", PStr "route_data.json");
           ("routes_found", PInt (Z.of_nat (length saved)))]
    /\ files w' !! "routes_map.html" = Some (HtmlFile m)
    /\ files w' !! "route_data.json"
       = Some (JsonFile (PDict
                 [("trip", PDict [("start", start_fmt); ("end", end_fmt);
                                  ("mode", PStr (value (mode_enum_of travel_mode)));
                                  ("generated_at", PStr now_isoformat)]);
                  ("routes", PList (PDict <$> saved))]))
    /\ forall path, path <> "routes_map.html" -> path <> "route_data.json" ->
         files w' !! path = files w !! path.
Proof.
  intros Hrun.
  apply plan_trip_with_routes_success in Hrun
    as (start_fmt & end_fmt & saved & m & -> & Hfiles & _).
  exists start_fmt, end_fmt, saved, m. rewrite Hfiles. repeat split.
  - rewrite lookup_insert_ne by done. by rewrite lookup_insert_eq.
  - by rewrite lookup_insert_eq.
  - intros path H1 H2. by rewrite !lookup_insert_ne.
Qed.

(** X15: every route a planning call stores in [route_data.json] has
    exactly the fields summary, distance, duration, distance_text,
    duration_text, strategy, route_number, fare_info, in this order. *)
Theorem stored_routes_have_the_stored_fields start_place end_place travel_mode w res w' :
  plan_trip_with_routes start_place end_place travel_mode w = (Ok res, w') ->
  exists saved : list pydict,
    stored_routes w' "route_data.json" = Some (PDict <$> saved)
    /\ Forall (fun r => keys r = stored_fields) saved.
Proof.
  intros Hrun.
  apply plan_trip_with_routes_success in Hrun
    as (start_fmt & end_fmt & saved & m & _ & Hfiles & Hshape).
  exists saved. split; [|done]. unfold stored_routes.
  by rewrite Hfiles, lookup_insert_eq.
Qed.

(** X16: with both points non-blank, the endpoint answers success with
    the names [route_data.json] and [routes_map.html] exactly when the
    planning call returns, and a 500 wrapping the exception when it raises;
    its branch "Failed to plan trip" is never taken.  The world is the one
    the planning call leaves. *)
Theorem plan_trip_follows_the_planning_call (request : TripRequest) w :
  strip (start_point request) <> "" -> strip (end_point request) <> "" ->
  plan_trip request w
  = match plan_trip_with_routes (start_point request) (end_point request)
            (transport_mode request) w with
    | (Ok _, w') =>
        (Ok {| success := true;
               message_text := "Trip planned successfully";
               data_file := PStr "route_data.json";
               map_file := PStr "routes_map.html" |}, w')
    | (Err e, w') => (Err (RaiseHTTP 500 (MsgOf "Error planning trip: " e)), w')
    end.
Proof.
  intros Hstart Hend. unfold plan_trip, try_except.
  destruct (strip (start_point request)) eqn:Hs; [done|].
  destruct (strip (end_point request)) eqn:He; [done|]. simpl.
  unfold bind at 1.
  destruct (plan_trip_with_routes _ _ _ w) as [[res|e] w'] eqn:Hrun;
    [|by rewrite isinstance_Exception].
  apply plan_trip_with_routes_success in Hrun
    as (start_fmt & end_fmt & saved & m & -> & _ & _).
  reflexivity.
Qed.

End PlanningCall.

(** ** The guide generator, further *)

Section GuideRuns.
Context {env : Externals}.

Lemma path_exists_run path w :
  path_exists path w = (Ok (bool_decide (is_Some (files w !! path))), w).
Proof. reflexivity. Qed.

(** X17: when no file is at [json_file_path], the generator raises
    [FileNotFoundError] and leaves the world as it was; when the file there
    is not a JSON document, reading it raises a [ValueError], likewise. *)
Theorem guide_needs_the_record json_file_path output_pdf w :
  (files w !! json_file_path = None ->
   generate_travel_insights_pdf json_file_path output_pdf w
   = (Err (Raise FileNotFoundError
             (Msg ("JSON file not found: " ++ json_file_path)%string)), w))
  /\ (forall f, files w !! json_file_path = Some f ->
                (forall doc, f <> JsonFile doc) ->
                exists e, generate_travel_insights_pdf json_file_path output_pdf w
                          = (Err e, w)
                          /\ class_of e = ValueError).
Proof.
  split.
  - intros Hnone. unfold generate_travel_insights_pdf, bind.
    rewrite path_exists_run, Hnone.
    rewrite bool_decide_eq_false_2 by (by intros [? ?]). done.
  - intros f Hf Hnot. unfold generate_travel_insights_pdf, bind.
    rewrite path_exists_run, Hf. rewrite bool_decide_eq_true_2 by done.
    cbn [negb]. unfold load_json. rewrite Hf.
    destruct f as [doc| |]; [by destruct (Hnot doc)|..]; by eexists.
Qed.

(** The steps of the generator once the record is read. *)
Lemma generate_after_load json_file_path output_pdf w data :
  files w !! json_file_path = Some (JsonFile data) ->
  generate_travel_insights_pdf json_file_path output_pdf w
  = bind (lift (prompt_for data))
      (fun prompt =>
         bind (request (Post gemini_url prompt))
           (fun answer =>
              bind (lift (contains_str "error" answer))
                (fun failed : bool =>
                   if failed then
                     bind (lift (error <- getitem answer "error" ;;
                                 getitem error "message")%result)
                       (fun text => throw (Raise Exception (MsgFmt "API Error: " text)))
                   else
                     bind (lift (insights_of answer))
                       (fun insights =>
                          bind (create_pdf_with_wrapping output_pdf guide_title insights)
                            (fun _ => ret output_pdf))))) w.
Proof.
  intros Hfile. unfold generate_travel_insights_pdf. unfold bind at 1.
  rewrite path_exists_run, Hfile. rewrite bool_decide_eq_true_2 by done.
  cbn [negb]. unfold bind at 1, load_json. by rewrite Hfile.
Qed.

Lemma create_pdf_run output_pdf title insights w r w' :
  create_pdf_with_wrapping output_pdf title insights w = (r, w') ->
  match r with
  | Ok _ => exists text, insights = PStr text
                         /\ w' = {| files := <[output_pdf := PdfFile title text]> (files w);
                                    http_log := http_log w |}
  | Err _ => w' = w
  end.
Proof.
  unfold create_pdf_with_wrapping, write_file.
  destruct insights; try (by intros [= <- <-]).
  destruct (open_for_writing w output_pdf); intros [= <- <-]; [by eexists|done].
Qed.

(** What a returning run of the generator has done. *)
Lemma generate_success json_file_path output_pdf w out w' :
  generate_travel_insights_pdf json_file_path output_pdf w = (Ok out, w') ->
  out = output_pdf
  /\ exists data prompt answer text,
       files w !! json_file_path = Some (JsonFile data)
       /\ http_json (http_log w) (Post gemini_url prompt) = Ok answer
       /\ contains_str "error" answer = Ok false
       /\ insights_of answer = Ok (PStr text)
       /\ w' = {| files := <[output_pdf := PdfFile guide_title text]> (files w);
                  http_log := http_log w ++ [Post gemini_url prompt] |}.
Proof.
  intros Hrun.
  destruct (files w !! json_file_path) as [f|] eqn:Hfile.
  2: { unfold generate_travel_insights_pdf, bind in Hrun.
       rewrite path_exists_run, Hfile in Hrun.
       rewrite bool_decide_eq_false_2 in Hrun by (by intros [? ?]). done. }
  destruct f as [data|m|title content].
  2,3: unfold generate_travel_insights_pdf, bind in Hrun;
       rewrite path_exists_run, Hfile in Hrun;
       rewrite bool_decide_eq_true_2 in Hrun by done;
       cbn [negb] in Hrun; unfold load_json in Hrun; rewrite Hfile in Hrun; done.
  rewrite (generate_after_load _ _ _ data Hfile) in Hrun.
  apply bind_Ok_inv in Hrun as (prompt & w1 & Hprompt & Hrun).
  apply lift_Ok_inv in Hprompt as [_ ->].
  apply bind_Ok_inv in Hrun as (answer & w2 & Hanswer & Hrun).
  rewrite request_run in Hanswer. injection Hanswer as Hanswer <-.
  apply bind_Ok_inv in Hrun as (failed & w3 & Hfailed & Hrun).
  apply lift_Ok_inv in Hfailed as [Hfailed ->].
  destruct failed.
  { apply bind_Ok_inv in Hrun as (text & w4 & _ & Hrun). discriminate Hrun. }
  apply bind_Ok_inv in Hrun as (insights & w4 & Hins & Hrun).
  apply lift_Ok_inv in Hins as [Hins ->].
  apply bind_Ok_inv in Hrun as (u & w5 & Hpdf & Hrun).
  apply ret_Ok_inv in Hrun as [-> ->].
  apply create_pdf_run in Hpdf as (text & -> & ->).
  split; [done|]. by exists data, prompt, answer, text.
Qed.

(** X18: when the generator returns, it returns [output_pdf]; it has read
    a JSON record, sent one request to the text generator, got an answer
    without "error", and written at [output_pdf] a guide holding the title
    and the text [candidates[0].content.parts[0].text] of the answer.
    No other file is touched. *)
Theorem guide_holds_the_generated_text json_file_path output_pdf w out w' :
  generate_travel_insights_pdf json_file_path output_pdf w = (Ok out, w') ->
  out = output_pdf
  /\ exists data prompt answer text,
       files w !! json_file_path = Some (JsonFile data)
       /\ http_json (http_log w) (Post gemini_url prompt) = Ok answer
       /\ contains_str "error" answer = Ok false
       /\ insights_of answer = Ok (PStr text)
       /\ w' = {| files := <[output_pdf := PdfFile guide_title text]> (files w);
                  http_log := http_log w ++ [Post gemini_url prompt] |}.
Proof. apply generate_success. Qed.

(** X19: a generator run that raises has written no file. *)
Theorem failed_guide_writes_nothing json_file_path output_pdf w e w' :
  generate_travel_insights_pdf json_file_path output_pdf w = (Err e, w') ->
  files w' = files w.
Proof.
  intros Hrun.
  destruct (files w !! json_file_path) as [f|] eqn:Hfile.
  2: { unfold generate_travel_insights_pdf, bind in Hrun.
       rewrite path_exists_run, Hfile in Hrun.
       rewrite bool_decide_eq_false_2 in Hrun by (by intros [? ?]).
       by injection Hrun as _ <-. }
  destruct f as [data|m|title content].
  2,3: unfold generate_travel_insights_pdf, bind in Hrun;
       rewrite path_exists_run, Hfile in Hrun;
       rewrite bool_decide_eq_true_2 in Hrun by done;
       cbn [negb] in Hrun; unfold load_json in Hrun; rewrite Hfile in Hrun;
       by injection Hrun as _ <-.
  rewrite (generate_after_load _ _ _ data Hfile) in Hrun.
  apply bind_Err_inv in Hrun as [Hrun|(prompt & w1 & Hprompt & Hrun)];
    [by injection Hrun as _ <-|].
  apply lift_Ok_inv in Hprompt as [_ ->].
  apply bind_Err_inv in Hrun as [Hrun|(answer & w2 & Hanswer & Hrun)];
    [rewrite request_run in Hrun; by injection Hrun as _ <-|].
  rewrite request_run in Hanswer. injection Hanswer as _ <-.
  apply bind_Err_inv in Hrun as [Hrun|(failed & w3 & Hfailed & Hrun)];
    [by injection Hrun as _ <-|].
  apply lift_Ok_inv in Hfailed as [_ ->].
  destruct failed.
  - apply bind_Err_inv in Hrun as [Hrun|(text & w4 & Htext & Hrun)];
      [by injection Hrun as _ <-|].
    apply lift_Ok_inv in Htext as [_ ->]. by injection Hrun as _ <-.
  - apply bind_Err_inv in Hrun as [Hrun|(insights & w4 & Hins & Hrun)];
      [by injection Hrun as _ <-|].
    apply lift_Ok_inv in Hins as [_ ->].
    apply bind_Err_inv in Hrun as [Hrun|(u & w5 & Hpdf & Hrun)].
    + apply create_pdf_run in Hrun. by subst.
    + discriminate Hrun.
Qed.

(** X20: when the text generator answers with an object that has an
    "error" entry, the generator raises [Exception("API Error: <message>")]
    with the message of that entry; the request is the only effect. *)
Theorem api_error_is_raised json_file_path output_pdf w data prompt (answer : pydict)
    error text :
  files w !! json_file_path = Some (JsonFile data) ->
  prompt_for data = Ok prompt ->
  http_json (http_log w) (Post gemini_url prompt) = Ok (PDict answer) ->
  dict_get "error" answer = Some error ->
  getitem error "message" = Ok text ->
  generate_travel_insights_pdf json_file_path output_pdf w
  = (Err (Raise Exception (MsgFmt "API Error: " text)),
     {| files := files w; http_log := http_log w ++ [Post gemini_url prompt] |}).
Proof.
  intros Hfile Hprompt Hanswer Herror Htext.
  rewrite (generate_after_load _ _ _ data Hfile). unfold bind, lift.
  rewrite Hprompt, request_run, Hanswer. simpl. unfold dict_has, dict_item.
  rewrite Herror. simpl. by rewrite Htext.
Qed.

End GuideRuns.

(** ** The file endpoints *)

Lemma prefix_app (p s : string) : String.prefix p (p ++ s) = true.
Proof.
  induction p as [|c p IH]; simpl; [by destruct s|]. by destruct (ascii_dec c c).
Qed.

Lemma length_app (s t : string) :
  String.length (s ++ t) = (String.length s + String.length t)%nat.
Proof. induction s as [|c s IH]; simpl; [done|]. by rewrite IH. Qed.

Lemma substring_all (t : string) : String.substring 0 (String.length t) t = t.
Proof. induction t as [|c t IH]; simpl; [done|]. by rewrite IH. Qed.

Lemma substring_app (s t : string) :
  String.substring (String.length s) (String.length t) (s ++ t) = t.
Proof. induction s as [|c s IH]; simpl; [apply substring_all|done]. Qed.

Lemma endswith_app (s t : string) : endswith (s ++ t) t = true.
Proof.
  unfold endswith. rewrite length_app.
  replace (String.length s + String.length t - String.length t)%nat
    with (String.length s) by lia.
  rewrite substring_app. rewrite bool_decide_eq_true_2 by done.
  rewrite andb_true_r. apply Nat.leb_le. lia.
Qed.

Lemma replace_from_absent (old new s : string) :
  has_substring old s = false -> replace_from old new 0 s = s.
Proof.
  induction s as [|c s IH]; [done|]. intros Habs.
  cbn [has_substring] in Habs. apply orb_false_elim in Habs as [Hp Hrest].
  cbn [replace_from]. rewrite Hp. by rewrite IH.
Qed.

Section FileEndpoints.
Context {env : Externals}.
Variable hash : string -> Z.

Lemma get_map_html_name filename w :
  get_map filename w
  = try_except
      (found <- path_exists (html_name filename) ;;
       if negb found then throw (RaiseHTTP 404 (Msg "Map file not found"))
       else html_content <- read_text (html_name filename) ;; ret html_content)%prog
      (fun e => throw (RaiseHTTP 500 (MsgOf "Error serving map: " e))) w.
Proof. unfold get_map, html_name. by destruct (endswith filename ".html"). Qed.

(** X21: a map name without the ".html" ending is served exactly as the
    name with the ending. *)
Theorem get_map_appends_the_extension filename w :
  endswith filename ".html" = false ->
  get_map filename w = get_map (filename ++ ".html") w.
Proof.
  intros Hext. rewrite !get_map_html_name. unfold html_name.
  by rewrite Hext, endswith_app.
Qed.

(** X22: a missing file never reaches the client as a 404.  Each of
    [get_map], [generate_guide] and [download_guide] raises its 404 inside
    its own [try], and its [except Exception] turns it into a 500 wrapping
    the 404; the world is left as it was. *)
Theorem missing_file_answers_500 w :
  (forall filename,
      files w !! html_name filename = None ->
      get_map filename w
      = (Err (RaiseHTTP 500 (MsgOf "Error serving map: "
                               (RaiseHTTP 404 (Msg "Map file not found")))), w))
  /\ (forall request,
        files w !! GuideRequest.data_file request = None ->
        generate_guide hash request w
        = (Err (RaiseHTTP 500 (MsgOf "Error generating guide: "
                                 (RaiseHTTP 404 (Msg "Route data file not found")))), w))
  /\ (forall filename,
        files w !! guide_path filename = None ->
        download_guide filename w
        = (Err (RaiseHTTP 500
                  (MsgOf "Error downloading guide: "
                     (RaiseHTTP 404
                        (Msg ("Guide file not found: " ++ guide_path filename)%string)))),
           w)).
Proof.
  repeat split.
  - intros filename Hnone. rewrite get_map_html_name.
    unfold try_except, bind. rewrite path_exists_run, Hnone.
    by rewrite bool_decide_eq_false_2 by (by intros [? ?]).
  - intros request Hnone. unfold generate_guide, try_except, bind.
    rewrite path_exists_run, Hnone.
    by rewrite bool_decide_eq_false_2 by (by intros [? ?]).
  - intros filename Hnone. unfold download_guide, try_except, bind.
    rewrite path_exists_run, Hnone.
    by rewrite bool_decide_eq_false_2 by (by intros [? ?]).
Qed.

(** X23: after a planning call that returned, [get_map] serves the map
    the call has drawn, under the name "routes_map" as under
    "routes_map.html", and changes nothing. *)
Theorem planned_map_is_served start_place end_place travel_mode w res w' :
  plan_trip_with_routes start_place end_place travel_mode w = (Ok res, w') ->
  exists m,
    files w' !! "routes_map.html" = Some (HtmlFile m)
    /\ get_map "routes_map" w' = (Ok (HtmlFile m), w')
    /\ get_map "routes_map.html" w' = (Ok (HtmlFile m), w').
Proof.
  intros Hrun.
  apply plan_trip_with_routes_success in Hrun
    as (start_fmt & end_fmt & saved & m & _ & Hfiles & _).
  assert (files w' !! "routes_map.html" = Some (HtmlFile m)) as Hmap.
  { rewrite Hfiles. rewrite lookup_insert_ne by done. by rewrite lookup_insert_eq. }
  exists m. split; [done|].
  assert (forall name, html_name name = "routes_map.html" ->
                       get_map name w' = (Ok (HtmlFile m), w')) as Hserve.
  { intros name Hname. rewrite get_map_html_name, Hname.
    unfold try_except, bind. rewrite path_exists_run, Hmap.
    rewrite bool_decide_eq_true_2 by done. cbn [negb].
    unfold read_text. by rewrite Hmap. }
  split; by apply Hserve.
Qed.

(** X24: the path [download_guide] looks for always lies under
    "guide_pdf/", and a name that does not mention "guide_pdf/" is looked
    for at the same path as that name with "guide_pdf/" before it: the two
    spellings are answered alike. *)
Theorem download_looks_under_guide_pdf filename :
  startswith (guide_path filename) "guide_pdf/" = true
  /\ (has_substring "guide_pdf/" filename = false ->
      guide_path filename = ("guide_pdf/" ++ filename)%string
      /\ guide_path ("guide_pdf/" ++ filename) = ("guide_pdf/" ++ filename)%string
      /\ forall w, download_guide filename w = download_guide ("guide_pdf/" ++ filename) w).
Proof.
  split.
  - unfold guide_path. destruct (startswith filename "guide_pdf/") eqn:Hs; [done|].
    cbn [negb]. apply prefix_app.
  - intros Habs.
    assert (startswith filename "guide_pdf/" = false) as Hs.
    { unfold startswith. destruct filename; [done|].
      cbn [has_substring] in Habs. by apply orb_false_elim in Habs as [Hp _]. }
    assert (guide_path filename = ("guide_pdf/" ++ filename)%string) as H1.
    { unfold guide_path. rewrite Hs. cbn [negb]. unfold replace.
      by rewrite replace_from_absent. }
    assert (guide_path ("guide_pdf/" ++ filename) = ("guide_pdf/" ++ filename)%string) as H2.
    { unfold guide_path, startswith. by rewrite prefix_app. }
    repeat split; try done. intros w. unfold download_guide. by rewrite H1, H2.
Qed.

(** X25: when the record is there, [generate_guide] answers success
    with the name "guide_pdf/Tour_guide_<hash>.pdf" exactly when the
    generator returns, and a 500 wrapping the exception when it raises; its
    branch "Failed to generate travel guide" is never taken. *)
Theorem generate_guide_follows_the_generator request w :
  is_Some (files w !! GuideRequest.data_file request) ->
  generate_guide hash request w
  = match generate_travel_insights_pdf (GuideRequest.data_file request)
            (pdf_filename_of hash (GuideRequest.data_file request)) w with
    | (Ok _, w') =>
        (Ok [("success", PBool true);
             ("message", PStr "Travel guide generated successfully");
             ("pdf_file", PStr (pdf_filename_of hash (GuideRequest.data_file request)))],
         w')
    | (Err e, w') => (Err (RaiseHTTP 500 (MsgOf "Error generating guide: " e)), w')
    end.
Proof.
  intros Hfile. unfold generate_guide, try_except. unfold bind at 1.
  rewrite path_exists_run. rewrite bool_decide_eq_true_2 by done. cbn [negb].
  unfold bind at 1.
  destruct (generate_travel_insights_pdf _ _ w) as [[out|e] w'] eqn:Hrun;
    [|by rewrite isinstance_Exception].
  apply generate_success in Hrun as (_ & data & prompt & answer & text & _ & _ & _ & _ & ->).
  unfold bind. rewrite path_exists_run. cbn [files].
  by rewrite lookup_insert_eq, bool_decide_eq_true_2.
Qed.

(** X26: the guide a successful [generate_guide] announces can be
    downloaded: [download_guide] of the announced [pdf_file] finds the PDF
    just written and answers with that path as an "application/pdf". *)
Theorem generated_guide_can_be_downloaded request w body w' :
  generate_guide hash request w = (Ok body, w') ->
  let pdf_file := pdf_filename_of hash (GuideRequest.data_file request) in
  dict_get "pdf_file" body = Some (PStr pdf_file)
  /\ (exists text, files w' !! pdf_file = Some (PdfFile guide_title text))
  /\ download_guide pdf_file w'
     = (Ok {| response_path := pdf_file;
              media_type := "application/pdf";
              response_filename := basename pdf_file |}, w').
Proof.
  intros Hrun pdf_file. unfold generate_guide, try_except in Hrun.
  unfold bind at 1 in Hrun. rewrite path_exists_run in Hrun.
  destruct (bool_decide _); cbn [negb] in Hrun;
    [|cbv [throw] in Hrun; by rewrite isinstance_Exception in Hrun].
  unfold bind at 1 in Hrun. fold pdf_file in Hrun.
  destruct (generate_travel_insights_pdf _ _ w) as [[out|e] w1] eqn:Hgen;
    [|by rewrite isinstance_Exception in Hrun].
  apply generate_success in Hgen
    as (_ & data & prompt & answer & text & _ & _ & _ & _ & ->).
  unfold bind in Hrun. rewrite path_exists_run in Hrun. cbn [files] in Hrun.
  rewrite lookup_insert_eq, bool_decide_eq_true_2 in Hrun by done.
  injection Hrun as <- <-. split; [done|]. split.
  - exists text. cbn [files]. by rewrite lookup_insert_eq.
  - unfold download_guide, try_except, bind.
    assert (guide_path pdf_file = pdf_file) as -> by reflexivity.
    rewrite path_exists_run. cbn [files].
    by rewrite lookup_insert_eq, bool_decide_eq_true_2.
Qed.

End FileEndpoints.

(** ** The page layout *)

Import Canvas.

Lemma draw_wrapped_app ws1 :
  forall y ws2,
    draw_wrapped y (ws1 ++ ws2)
    = ((draw_wrapped y ws1).1 ++ (draw_wrapped (draw_wrapped y ws1).2 ws2).1,
       (draw_wrapped (draw_wrapped y ws1).2 ws2).2).
Proof.
  induction ws1 as [|wline rest IH]; intros y ws2.
  - simpl. by destruct (draw_wrapped y ws2).
  - cbn [app draw_wrapped]. rewrite IH.
    destruct (draw_wrapped _ rest) as [calls y']. simpl.
    by rewrite <- !app_assoc.
Qed.

(** The two loops draw the wrapped lines one after the other. *)
Lemma draw_content_flat simpleSplit lines :
  forall y,
    draw_content simpleSplit y lines
    = (draw_wrapped y
         (concat ((fun line => simpleSplit line "Helvetica" 11 max_width) <$> lines))).1.
Proof.
  induction lines as [|line rest IH]; intros y; [done|].
  cbn [draw_content fmap list_fmap concat]. rewrite draw_wrapped_app.
  destruct (draw_wrapped y _) as [calls y'] eqn:Hd. simpl. by rewrite IH.
Qed.

Lemma placements_app calls1 :
  forall page calls2,
    placements page (calls1 ++ calls2)
    = placements page calls1
      ++ placements (page + page_breaks calls1) calls2.
Proof.
  induction calls1 as [|c rest IH]; intros page calls2.
  - simpl. by rewrite Nat.add_0_r.
  - destruct c; cbn [app placements page_breaks]; rewrite IH; try done.
    f_equal. f_equal. lia.
Qed.

Lemma lines_below_S top slot :
  lines_below top (S slot) = fsub (lines_below top slot) (of_Z line_height).
Proof. reflexivity. Qed.

(** The cursor stays above the margin for 45 lines on the first page and
    for 47 on a later one, and is below it after that. *)
Lemma first_page_fits slot :
  (slot < 45)%nat -> flt (lines_below first_top slot) (of_Z margin) = false.
Proof.
  intros Hslot.
  assert (forallb (fun s => negb (flt (lines_below first_top s) (of_Z margin)))
            (seq 0%nat 45%nat) = true) as Hall by (vm_compute; reflexivity).
  rewrite forallb_forall in Hall. apply negb_true_iff, Hall, in_seq. lia.
Qed.

Lemma later_page_fits slot :
  (slot < 47)%nat -> flt (lines_below later_top slot) (of_Z margin) = false.
Proof.
  intros Hslot.
  assert (forallb (fun s => negb (flt (lines_below later_top s) (of_Z margin)))
            (seq 0%nat 47%nat) = true) as Hall by (vm_compute; reflexivity).
  rewrite forallb_forall in Hall. apply negb_true_iff, Hall, in_seq. lia.
Qed.

Lemma first_page_full : flt (lines_below first_top 45%nat) (of_Z margin) = true.
Proof. vm_compute. reflexivity. Qed.

Lemma later_page_full : flt (lines_below later_top 47%nat) (of_Z margin) = true.
Proof. vm_compute. reflexivity. Qed.

Lemma locate_first k : (k < 45)%nat -> locate k = (0%nat, k).
Proof. intros Hk. unfold locate. by rewrite (proj2 (Nat.ltb_lt k 45%nat) Hk). Qed.

Lemma locate_later n :
  locate (45 + n)%nat = (S (n / 47), n mod 47)%nat.
Proof.
  unfold locate. rewrite (proj2 (Nat.ltb_ge (45 + n)%nat 45%nat)) by lia.
  by replace (45 + n - 45)%nat with n by lia.
Qed.

Lemma div_mod_succ n :
  ((n mod 47 < 46 -> S n / 47 = n / 47 /\ S n mod 47 = S (n mod 47))
   /\ (n mod 47 = 46 -> S n / 47 = S (n / 47) /\ S n mod 47 = 0))%nat.
Proof.
  pose proof (Nat.div_mod_eq n 47%nat) as Hn.
  pose proof (Nat.mod_upper_bound n 47%nat ltac:(lia)) as Hlt.
  split; intros Hm.
  - split; [symmetry; apply (Nat.div_unique _ _ _ (S (n mod 47)))
           |symmetry; apply (Nat.mod_unique _ _ (n / 47))]; lia.
  - split; [symmetry; apply (Nat.div_unique _ _ _ 0%nat)
           |symmetry; apply (Nat.mod_unique _ _ (S (n / 47)))]; lia.
Qed.

(** One step of the inner loop, in terms of the closed form. *)
Lemma place_step k :
  place k
  = if flt (cursor_before k) (of_Z margin)
    then (S (page_before k), later_top)
    else (page_before k, cursor_before k).
Proof.
  destruct k as [|j]; [by vm_compute|].
  cbn [cursor_before page_before].
  destruct (Nat.lt_ge_cases j 44%nat) as [Hj|Hj].
  { unfold place. rewrite !locate_first by lia.
    cbn [fst snd]. rewrite <- lines_below_S. by rewrite first_page_fits by lia. }
  destruct (Nat.eq_dec j 44%nat) as [->|Hne]; [by vm_compute|].
  destruct (Nat.le_exists_sub 45%nat j ltac:(lia)) as (n & -> & _).
  replace (S (n + 45)) with (45 + S n)%nat by lia.
  replace (n + 45)%nat with (45 + n)%nat by lia.
  unfold place. rewrite !locate_later. cbn [fst snd].
  rewrite <- lines_below_S.
  pose proof (Nat.mod_upper_bound n 47%nat ltac:(lia)) as Hlt.
  destruct (div_mod_succ n) as [Hsame Hnext].
  destruct (Nat.eq_dec (n mod 47)%nat 46%nat) as [Hm|Hm].
  - destruct (Hnext Hm) as [-> ->]. rewrite Hm. by rewrite later_page_full.
  - destruct (Hsame ltac:(lia)) as [-> ->]. by rewrite later_page_fits by lia.
Qed.

Lemma draw_wrapped_places ws :
  forall k,
    placements (page_before k) (draw_wrapped (cursor_before k) ws).1
    = imap (fun i text => (place (k + i), text)) ws
    /\ (draw_wrapped (cursor_before k) ws).2 = cursor_before (k + length ws).
Proof.
  induction ws as [|wline rest IH]; intros k.
  - simpl. by rewrite Nat.add_0_r.
  - cbn [draw_wrapped]. pose proof (place_step k) as Hstep.
    destruct (IH (S k)) as [IHp IHy]. cbn [cursor_before page_before] in IHp, IHy.
    rewrite imap_cons. rewrite Nat.add_0_r.
    destruct (flt (cursor_before k) (of_Z margin)); rewrite Hstep in IHp, IHy;
      cbn [fst snd] in IHp, IHy;
      destruct (draw_wrapped _ rest) as [calls y'] eqn:Hd; cbn [fst snd app] in *;
      cbn [placements]; rewrite IHp, IHy, Hstep; (split;
        [f_equal; apply imap_ext; intros i t _; simpl; do 2 f_equal; lia
        |f_equal; simpl; lia]).
Qed.

Section LayoutProperties.
Variable simpleSplit : string -> string -> Z -> float -> list string.

Lemma create_pdf_placements output_pdf title content :
  placements 0%nat (create_pdf_with_wrapping simpleSplit output_pdf title content)
  = (0%nat, later_top, title)
    :: imap (fun k text => (place k, text)) (wrapped_text simpleSplit content).
Proof.
  unfold create_pdf_with_wrapping. cbn [app placements]. f_equal.
  rewrite placements_app. rewrite draw_content_flat.
  destruct (draw_wrapped_places (wrapped_text simpleSplit content) 0%nat) as [Hp _].
  cbn [page_before cursor_before] in Hp. unfold first_top in Hp.
  unfold wrapped_text in *. rewrite Hp. simpl. by rewrite app_nil_r.
Qed.

(** X27: the guide is laid out in a fixed grid.  After the title, drawn
    on the first page 50 below the top, the wrapped lines of the text are
    drawn one by one, none lost and none reordered: the line drawn [k]-th is
    at slot [k] of the first page for [k < 45], and at slot
    [(k - 45) mod 47] of page [1 + (k - 45) / 47] after that, each slot 16
    below the one before, starting 80 below the top on the first page and
    50 below the top on the later ones. *)
Theorem guide_layout output_pdf title content :
  placements 0%nat (create_pdf_with_wrapping simpleSplit output_pdf title content)
  = (0%nat, fsub height (of_Z 50), title)
    :: imap (fun k text => (place k, text)) (wrapped_text simpleSplit content).
Proof. apply create_pdf_placements. Qed.

Lemma place_within_margins k :
  flt (place k).2 (of_Z margin) = false /\ flt later_top (place k).2 = false.
Proof.
  assert (forallb (fun s => negb (flt later_top (lines_below first_top s)))
            (seq 0%nat 45%nat) = true) as Hfirst by (vm_compute; reflexivity).
  assert (forallb (fun s => negb (flt later_top (lines_below later_top s)))
            (seq 0%nat 47%nat) = true) as Hlater by (vm_compute; reflexivity).
  rewrite forallb_forall in Hfirst, Hlater.
  destruct (Nat.lt_ge_cases k 45%nat) as [Hk|Hk].
  - unfold place. rewrite locate_first by done. cbn [snd]. split.
    + by apply first_page_fits.
    + apply negb_true_iff, Hfirst, in_seq. lia.
  - destruct (Nat.le_exists_sub 45%nat k Hk) as (n & -> & _).
    replace (n + 45)%nat with (45 + n)%nat by lia.
    unfold place. rewrite locate_later. cbn [snd].
    pose proof (Nat.mod_upper_bound n 47%nat ltac:(lia)) as Hlt. split.
    + by apply later_page_fits.
    + apply negb_true_iff, Hlater, in_seq. lia.
Qed.

(** X28: nothing is drawn outside the vertical margins: every string
    the guide draws, title included, is at a height that is neither below
    the bottom margin 50 nor above [height - 50]. *)
Theorem guide_stays_within_margins output_pdf title content page y text :
  (page, y, text)
    ∈ placements 0%nat (create_pdf_with_wrapping simpleSplit output_pdf title content) ->
  flt y (of_Z margin) = false /\ flt (fsub height (of_Z margin)) y = false.
Proof.
  rewrite create_pdf_placements. intros [Hin|Hin]%elem_of_cons.
  - injection Hin as _ -> _. by vm_compute.
  - apply list_elem_of_lookup in Hin as (k & Hk).
    rewrite list_lookup_imap in Hk.
    destruct (wrapped_text simpleSplit content !! k) as [t|]; [|done].
    injection Hk as Hk _. pose proof (place_within_margins k) as Hm.
    rewrite Hk in Hm. exact Hm.
Qed.

End LayoutProperties.

(** ** The properties on the scripted runs *)

Lemma unique_keyed : Forall keyed DemoRuns.unique.
Proof. repeat constructor; eexists; vm_compute; reflexivity. Defined.

Lemma remove_duplicates_returns_iff_keyed_witness :
  is_Ok (_remove_duplicates DemoRuns.fetched)
  /\ (class_of (Raise KeyError (Msg "duration")) = KeyError
      \/ class_of (Raise KeyError (Msg "duration")) = TypeError).
Proof.
  split.
  - apply (proj1 (remove_duplicates_returns_iff_keyed DemoRuns.fetched)), fetched_keyed.
  - apply (proj2 (remove_duplicates_returns_iff_keyed [[("distance", PInt 1)]])).
    reflexivity.
Defined.

Lemma remove_duplicates_distinct_witness :
  _remove_duplicates DemoRuns.unique = Ok DemoRuns.unique.
Proof.
  apply remove_duplicates_distinct; [apply unique_keyed|].
  apply (bool_decide_unpack _). vm_compute. exact I.
Defined.

Lemma remove_duplicates_app_witness :
  exists rest,
    _remove_duplicates
      ([DemoRuns.route "Default" Demo.expressway; DemoRuns.route "Default" Demo.old_highway]
       ++ [DemoRuns.route "Default" Demo.expressway_again;
           DemoRuns.route "No Highways" Demo.back_roads])
    = Ok ([DemoRuns.route "Default" Demo.expressway;
           DemoRuns.route "Default" Demo.old_highway] ++ rest)
    /\ sublist rest [DemoRuns.route "Default" Demo.expressway_again;
                     DemoRuns.route "No Highways" Demo.back_roads]
    /\ forall r, r ∈ rest ->
         ~ Exists (same_key r) [DemoRuns.route "Default" Demo.expressway;
                                DemoRuns.route "Default" Demo.old_highway].
Proof.
  apply remove_duplicates_app.
  - vm_compute. reflexivity.
  - repeat constructor; eexists; vm_compute; reflexivity.
Defined.

Lemma fetched_routes_are_tagged_witness :
  Forall (fun r => keys r = fetched_fields
                   /\ dict_get "strategy" r = Some (PStr "No Highways"))
         [DemoRuns.route "No Highways" Demo.back_roads].
Proof.
  apply (proj2 (fetched_routes_are_tagged (env := Demo.services) Demo.optimizer
                  (PStr "Mumbai") (PStr "Pune") "DRIVE" (Some ["highways"])
                  "No Highways" Demo.empty_world)).
  vm_compute. reflexivity.
Defined.

Lemma malformed_alternative_fails_the_fetch_witness :
  is_Err (_get_routes_google_api (env := DemoMore.broken) Demo.optimizer
            (PStr "Mumbai") (PStr "Pune") "DRIVE" None "Default" Demo.empty_world).1.
Proof.
  apply (malformed_alternative_fails_the_fetch (env := DemoMore.broken) Demo.optimizer
           (PStr "Mumbai") (PStr "Pune") "DRIVE" None "Default" Demo.empty_world
           DemoMore.broken_directions [Demo.expressway; DemoMore.legless]
           eq_refl eq_refl eq_refl).
  right. left. eexists. split; [reflexivity|]. right. reflexivity.
Defined.

Lemma strategy_queries_sent_witness :
  http_log DemoRuns.strategies_run.2
  = [] ++ strategy_calls (env := Demo.services) Demo.optimizer
            (PStr "Mumbai, Maharashtra, India")
            (PStr "Pune, Maharashtra, India") DRIVE
  /\ length (strategy_calls (env := Demo.services) Demo.optimizer
               (PStr "Mumbai, Maharashtra, India")
               (PStr "Pune, Maharashtra, India") DRIVE) = 3%nat.
Proof.
  apply (proj2 (strategy_queries_sent (env := Demo.services) Demo.optimizer
                  (PStr "Mumbai, Maharashtra, India") (PStr "Pune, Maharashtra, India")
                  DRIVE Demo.empty_world) DemoMore.numbered).
  vm_compute. reflexivity.
Defined.

Lemma returned_routes_shape_witness :
  Forall (fun r => keys r = fetched_fields ++ ["route_number"]
                   /\ exists s, dict_get "strategy" r = Some (PStr s)
                                /\ s ∈ (strategies_for DRIVE).*1
                                /\ (DRIVE <> DRIVE -> s = "Default"))
         DemoMore.numbered.
Proof.
  apply (returned_routes_shape (env := Demo.services) Demo.optimizer
           (PStr "Mumbai, Maharashtra, India") (PStr "Pune, Maharashtra, India")
           DRIVE Demo.empty_world DemoMore.numbered DemoRuns.strategies_run.2).
  vm_compute. reflexivity.
Defined.

Lemma pricing_adds_fare_info_witness :
  Forall2 (fun r p =>
             (forall k, k <> "fare_info" -> dict_get k p = dict_get k r)
             /\ exists distance fare_info,
                  dict_get "distance" r = Some distance
                  /\ get_comprehensive_fares distance DRIVE = Ok fare_info
                  /\ dict_get "fare_info" p = Some (PDict fare_info))
          DemoMore.numbered DemoMore.priced.
Proof. apply pricing_adds_fare_info. vm_compute. reflexivity. Defined.

Lemma pricing_needs_every_distance_witness :
  is_Err (process_routes_with_fares [[("summary", PStr "NH 48")]] WALK).
Proof. apply pricing_needs_every_distance. left. reflexivity. Defined.

Lemma geocode_reads_first_result_witness :
  (geocode_place (env := Demo.services) Demo.optimizer "Mumbai" Demo.empty_world).1
  = Ok ([("lat", DemoMore.mumbai.1); ("lng", DemoMore.mumbai.2)], DemoMore.mumbai,
        PStr "Mumbai, Maharashtra, India").
Proof.
  erewrite (geocode_reads_first_result (env := Demo.services) Demo.optimizer "Mumbai"
              Demo.empty_world (Demo.geocoded "Mumbai, Maharashtra, India" 190760 728777));
    reflexivity.
Defined.

Lemma map_lines_cycle_colours_witness :
  map_markers DemoMore.drawn
  = [{| marker_at := DemoMore.mumbai; marker_tooltip := "Start" |};
     {| marker_at := DemoMore.pune; marker_tooltip := "End" |}]
  /\ length (map_lines DemoMore.drawn) = length DemoMore.priced
  /\ forall (j : nat) line r,
       map_lines DemoMore.drawn !! j = Some line -> DemoMore.priced !! j = Some r ->
       colors !! (j mod 4)%nat = Some (line_color line)
       /\ exists number text,
            dict_get "route_number" r = Some number
            /\ dict_get "distance_text" r = Some text
            /\ line_tooltip line = [Lit "Route "; Fmt number; Lit ": "; Fmt text].
Proof.
  apply (map_lines_cycle_colours (env := Demo.services) DemoMore.mumbai DemoMore.pune
           DemoMore.priced (PStr "Mumbai, Maharashtra, India")
           (PStr "Pune, Maharashtra, India")).
  - repeat constructor.
  - vm_compute. reflexivity.
Defined.


Lemma unrecognized_mode_defaults_to_DRIVE_witness :
  (mode_enum_of (env := Demo.services) "helicopter" = DRIVE
   /\ DemoMore.helicopter_run
      = plan_trip_with_routes (env := Demo.services) "Mumbai" "Pune" "DRIVE"
          Demo.empty_world
   /\ planned_with (env := Demo.services) DRIVE "Mumbai" "Pune" Demo.empty_world
        DemoMore.helicopter_run.2)
  /\ (mode_enum_of (env := Demo.services) "tranſit" = TRANSIT
      /\ planned_with (env := Demo.services) TRANSIT "Mumbai" "Pune" Demo.empty_world
           DemoMore.transit_run.2).
Proof.
  split.
  - destruct (proj1 (unrecognized_mode_defaults_to_DRIVE (env := Demo.services)
                       "Mumbai" "Pune" "helicopter" Demo.empty_world))
      as (Hmode & Hsame & Hwith).
    + intros []; vm_compute; discriminate.
    + split; [exact Hmode|]. split; [exact Hsame|].
      apply (Hwith DemoRuns.drive_result). vm_compute. reflexivity.
  - destruct (proj2 (unrecognized_mode_defaults_to_DRIVE (env := Demo.services)
                       "Mumbai" "Pune" "tranſit" Demo.empty_world) TRANSIT)
      as (Hmode & Hwith).
    + vm_compute. reflexivity.
    + split; [exact Hmode|].
      apply (Hwith DemoMore.transit_result). vm_compute. reflexivity.
Defined.

Lemma persisted_routes_round_trip_witness :
  let run := save_routes_data (env := Demo.services) DemoMore.priced
               (PStr "Mumbai, Maharashtra, India") (PStr "Pune, Maharashtra, India")
               DemoMore.mumbai DemoMore.pune "DRIVE" "route_data.json" Demo.empty_world in
  run.1 = Ok "route_data.json"
  /\ exists trip (saved : list pydict),
       load_json "route_data.json" run.2
       = (Ok (PDict [("trip", trip); ("routes", PList (PDict <$> saved))]), run.2)
       /\ length saved = length DemoMore.priced
       /\ forall (i : nat) (r : pydict),
            DemoMore.priced !! i = Some r ->
            exists r' : pydict,
              saved !! i = Some r'
              /\ dict_get "polyline" r' = None
              /\ forall k, k <> "polyline" -> dict_get k r' = dict_get k r.
Proof.
  apply (proj1 (persisted_routes_round_trip (env := Demo.services) DemoMore.priced
                  (PStr "Mumbai, Maharashtra, India") (PStr "Pune, Maharashtra, India")
                  DemoMore.mumbai DemoMore.pune "DRIVE" "route_data.json"
                  Demo.empty_world)).
  exists tt. reflexivity.
Defined.

Lemma drive_plan_run :
  plan_trip_with_routes (env := Demo.services) "Mumbai" "Pune" "drive" Demo.empty_world
  = (Ok DemoRuns.drive_result, DemoMore.drive_world).
Proof. vm_compute. reflexivity. Defined.

Lemma planning_writes_two_files_witness :
  exists start_fmt end_fmt (saved : list pydict) m,
    DemoRuns.drive_result
    = [("map_file", PStr "routes_map.html"); ("data_file", PStr "route_data.json");
       ("routes_found", PInt (Z.of_nat (length saved)))]
    /\ files DemoMore.drive_world !! "routes_map.html" = Some (HtmlFile m)
    /\ files DemoMore.drive_world !! "route_data.json"
       = Some (JsonFile (PDict
                 [("trip", PDict [("start", start_fmt); ("end", end_fmt);
                                  ("mode", PStr (value (mode_enum_of (env := Demo.services) "drive")));
                                  ("generated_at",
                                   PStr (@now_isoformat Demo.services))]);
                  ("routes", PList (PDict <$> saved))]))
    /\ forall path, path <> "routes_map.html" -> path <> "route_data.json" ->
         files DemoMore.drive_world !! path = files Demo.empty_world !! path.
Proof. exact (planning_writes_two_files (env := Demo.services) _ _ _ _ _ _ drive_plan_run). Defined.

Lemma stored_routes_have_the_stored_fields_witness :
  exists saved : list pydict,
    stored_routes DemoMore.drive_world "route_data.json" = Some (PDict <$> saved)
    /\ Forall (fun r => keys r = stored_fields) saved.
Proof.
  exact (stored_routes_have_the_stored_fields (env := Demo.services) _ _ _ _ _ _
           drive_plan_run).
Defined.

Lemma plan_trip_follows_the_planning_call_witness :
  (plan_trip (env := Demo.services) DemoMore.drive_request Demo.empty_world).1
  = Ok {| success := true;
          message_text := "Trip planned successfully";
          data_file := PStr "route_data.json";
          map_file := PStr "routes_map.html" |}.
Proof.
  rewrite (plan_trip_follows_the_planning_call (env := Demo.services)
             DemoMore.drive_request Demo.empty_world
             ltac:(vm_compute; discriminate) ltac:(vm_compute; discriminate)).
  vm_compute. reflexivity.
Defined.

Lemma guide_needs_the_record_witness :
  generate_travel_insights_pdf (env := Demo.services) "route_data.json" "out.pdf"
    Demo.empty_world
  = (Err (Raise FileNotFoundError (Msg "JSON file not found: route_data.json")),
     Demo.empty_world)
  /\ exists e,
       generate_travel_insights_pdf (env := Demo.services) "routes_map.html" "out.pdf"
         DemoMore.drive_world
       = (Err e, DemoMore.drive_world)
       /\ class_of e = ValueError.
Proof.
  split.
  - apply (proj1 (guide_needs_the_record (env := Demo.services) "route_data.json"
                    "out.pdf" Demo.empty_world)).
    reflexivity.
  - apply (proj2 (guide_needs_the_record (env := Demo.services) "routes_map.html"
                    "out.pdf" DemoMore.drive_world) (HtmlFile DemoMore.drawn)).
    + vm_compute. reflexivity.
    + discriminate.
Defined.

Lemma guide_holds_the_generated_text_witness :
  "out.pdf" = "out.pdf"
  /\ exists data prompt answer text,
       files DemoMore.drive_world !! "route_data.json" = Some (JsonFile data)
       /\ @http_json Demo.services (http_log DemoMore.drive_world)
            (Post (gemini_url (env := Demo.services)) prompt) = Ok answer
       /\ contains_str "error" answer = Ok false
       /\ insights_of answer = Ok (PStr text)
       /\ DemoMore.guide_run.2
          = {| files := <["out.pdf" := PdfFile guide_title text]>
                          (files DemoMore.drive_world);
               http_log := http_log DemoMore.drive_world
                           ++ [Post (gemini_url (env := Demo.services)) prompt] |}.
Proof.
  apply (guide_holds_the_generated_text (env := Demo.services) "route_data.json"
           "out.pdf" DemoMore.drive_world "out.pdf" DemoMore.guide_run.2).
  vm_compute. reflexivity.
Defined.

Lemma failed_guide_writes_nothing_witness :
  files DemoMore.walk_guide_run.2 = files DemoRuns.walk_world.
Proof.
  apply (failed_guide_writes_nothing (env := Demo.services) "route_data.json" "out.pdf"
           DemoRuns.walk_world (Raise IndexError (Msg "list index out of range"))).
  vm_compute. reflexivity.
Defined.

Lemma api_error_is_raised_witness :
  generate_travel_insights_pdf (env := DemoMore.refusing) "route_data.json" "out.pdf"
    DemoMore.drive_world
  = (Err (Raise Exception (MsgFmt "API Error: " (PStr "quota exceeded"))),
     {| files := files DemoMore.drive_world;
        http_log := http_log DemoMore.drive_world
                    ++ [Post (gemini_url (env := DemoMore.refusing))
                          DemoMore.drive_prompt] |}).
Proof.
  apply (api_error_is_raised (env := DemoMore.refusing) "route_data.json" "out.pdf"
           DemoMore.drive_world DemoMore.drive_record DemoMore.drive_prompt
           DemoMore.refusal
           (PDict [("code", PInt 429); ("message", PStr "quota exceeded")])).
  all: vm_compute; reflexivity.
Defined.

Lemma get_map_appends_the_extension_witness :
  get_map "routes_map" DemoMore.drive_world
  = get_map "routes_map.html" DemoMore.drive_world.
Proof.
  apply (get_map_appends_the_extension "routes_map").
  reflexivity.
Defined.

Lemma missing_file_answers_500_witness :
  get_map "routes_map" Demo.empty_world
  = (Err (RaiseHTTP 500 (MsgOf "Error serving map: "
                           (RaiseHTTP 404 (Msg "Map file not found")))),
     Demo.empty_world)
  /\ generate_guide (env := Demo.services) DemoMore.hash DemoMore.guide_request
       Demo.empty_world
     = (Err (RaiseHTTP 500 (MsgOf "Error generating guide: "
                              (RaiseHTTP 404 (Msg "Route data file not found")))),
        Demo.empty_world)
  /\ download_guide "guide.pdf" Demo.empty_world
     = (Err (RaiseHTTP 500
               (MsgOf "Error downloading guide: "
                  (RaiseHTTP 404 (Msg "Guide file not found: guide_pdf/guide.pdf")))),
        Demo.empty_world).
Proof.
  destruct (missing_file_answers_500 (env := Demo.services) DemoMore.hash
              Demo.empty_world) as (Hmap & Hguide & Hdown).
  split; [|split].
  - apply (Hmap "routes_map"). reflexivity.
  - apply (Hguide DemoMore.guide_request). reflexivity.
  - apply (Hdown "guide.pdf"). reflexivity.
Defined.

Lemma planned_map_is_served_witness :
  exists m,
    files DemoMore.drive_world !! "routes_map.html" = Some (HtmlFile m)
    /\ get_map "routes_map" DemoMore.drive_world
       = (Ok (HtmlFile m), DemoMore.drive_world)
    /\ get_map "routes_map.html" DemoMore.drive_world
       = (Ok (HtmlFile m), DemoMore.drive_world).
Proof.
  exact (planned_map_is_served (env := Demo.services) _ _ _ _ _ _ drive_plan_run).
Defined.

Lemma download_looks_under_guide_pdf_witness :
  guide_path "guide.pdf" = "guide_pdf/guide.pdf"
  /\ guide_path "guide_pdf/guide.pdf" = "guide_pdf/guide.pdf"
  /\ forall w, download_guide "guide.pdf" w
               = download_guide "guide_pdf/guide.pdf" w.
Proof.
  apply (proj2 (download_looks_under_guide_pdf "guide.pdf")).
  reflexivity.
Defined.

Lemma generate_guide_follows_the_generator_witness :
  DemoMore.endpoint_run.1
  = Ok [("success", PBool true);
        ("message", PStr "Travel guide generated successfully");
        ("pdf_file", PStr DemoMore.guide_name)].
Proof.
  unfold DemoMore.endpoint_run.
  rewrite (generate_guide_follows_the_generator (env := Demo.services) DemoMore.hash
             DemoMore.guide_request DemoMore.drive_world
             ltac:(eexists; vm_compute; reflexivity)).
  vm_compute. reflexivity.
Defined.

Lemma generated_guide_can_be_downloaded_witness :
  dict_get "pdf_file" [("success", PBool true);
                       ("message", PStr "Travel guide generated successfully");
                       ("pdf_file", PStr DemoMore.guide_name)]
  = Some (PStr (pdf_filename_of DemoMore.hash "route_data.json"))
  /\ (exists text,
         files DemoMore.endpoint_run.2 !! pdf_filename_of DemoMore.hash "route_data.json"
         = Some (PdfFile guide_title text))
  /\ download_guide (pdf_filename_of DemoMore.hash "route_data.json") DemoMore.endpoint_run.2
     = (Ok {| response_path := pdf_filename_of DemoMore.hash "route_data.json";
              media_type := "application/pdf";
              response_filename :=
                basename (pdf_filename_of DemoMore.hash "route_data.json") |},
        DemoMore.endpoint_run.2).
Proof.
  apply (generated_guide_can_be_downloaded (env := Demo.services) DemoMore.hash
           DemoMore.guide_request DemoMore.drive_world).
  vm_compute. reflexivity.
Defined.

Lemma guide_stays_within_margins_witness :
  Canvas.flt first_top (of_Z Canvas.margin) = false
  /\ Canvas.flt (Canvas.fsub Canvas.height (of_Z Canvas.margin)) first_top = false.
Proof.
  apply (guide_stays_within_margins DemoMore.no_wrap "out.pdf" "Pune" "Day 1"
           0%nat first_top "Day 1").
  apply list_elem_of_further, list_elem_of_here.
Defined.
